(** * run_voice_input.py: launcher, batch test runner and test dashboard

    A shallow embedding of [src/run_voice_input.py].  The script is glue
    around the operating system: it looks tools up on PATH, spawns child
    processes, downloads one file and drives a tkinter window.  The
    embedding keeps the script's control flow as programs over a small set
    of requests to the outside ([effect]); the outside is a [World] that
    answers them.  One program text has two readings: [run] executes a
    program to completion on the calling thread (batch mode, callbacks),
    and [Dashboard.exec] interleaves the worker threads that the dashboard
    starts.

    What the model leaves to the world: whether a tool is on PATH, whether
    a command can be started, how long it runs, its exit code and the bytes
    it writes, how the locale's codec decodes them, whether a download
    succeeds, whether a display is there for the window.  The file system
    is part of the machine's state: the paths that exist and the paths that
    cannot be examined; only the script and its children change it.

    What the model fixes: a command in a directory behaves the same each
    time it is called; time is counted in whole seconds and a call with a
    timeout completes when the process ends no later than the timeout;
    every process ends by itself or is killed by a timeout, and no signal
    is delivered, so the handlers for [KeyboardInterrupt] stay in the
    programs but are never entered; streams are read the way [subprocess]
    reads them on POSIX; the window is its log of status and output
    operations, which do not fail once it is built.  [main] is the script
    from the first line after [parser.parse_args()]: it starts from the
    flags the parser returned. *)

From Stdlib Require Import List String Ascii ZArith NArith Bool Lia.
From Stdlib Require Import DecimalString.
Import ListNotations.

Set Implicit Arguments.
Local Open Scope list_scope.
Local Open Scope string_scope.

(** ** Strings *)

(** [c * n] of Python for a one-character string [c]. *)
Fixpoint str_repeat (c : string) (n : nat) : string :=
  match n with
  | O => ""
  | S n' => c ++ str_repeat c n'
  end.

(** [str(int)]. *)
Definition str_Z (z : Z) : string := NilZero.string_of_int (Z.to_int z).

Definition str_N (n : N) : string := str_Z (Z.of_N n).

(** A Python [str] is held as its UTF-8 encoding, one [ascii] for each
    byte; the literals of the script are written the same way.  The bytes
    of a child process are a [string] too, before they are decoded. *)

(** The characters [str.strip()] removes are those of [str.isspace()].
    In one byte: tab, newline, vertical tab, form feed, carriage return,
    the four separators 28..31 and the space. *)
Definition is_space1 (c : ascii) : bool :=
  let n := nat_of_ascii c in
  (n =? 32)%nat || ((9 <=? n)%nat && (n <=? 13)%nat)
  || ((28 <=? n)%nat && (n <=? 31)%nat).

(** In two bytes: U+0085 (C2 85) and U+00A0 (C2 A0). *)
Definition is_space2 (c d : ascii) : bool :=
  (nat_of_ascii c =? 194)%nat
  && ((nat_of_ascii d =? 133)%nat || (nat_of_ascii d =? 160)%nat).

(** In three bytes: U+1680 (E1 9A 80), U+2000..U+200A (E2 80 80..8A),
    U+2028, U+2029, U+202F (E2 80 A8, A9, AF), U+205F (E2 81 9F) and
    U+3000 (E3 80 80). *)
Definition is_space3 (c d e : ascii) : bool :=
  let a := nat_of_ascii c in
  let b := nat_of_ascii d in
  let n := nat_of_ascii e in
  ((a =? 225)%nat && (b =? 154)%nat && (n =? 128)%nat)
  || ((a =? 226)%nat && (b =? 128)%nat
      && (((128 <=? n)%nat && (n <=? 138)%nat)
          || (n =? 168)%nat || (n =? 169)%nat || (n =? 175)%nat))
  || ((a =? 226)%nat && (b =? 129)%nat && (n =? 159)%nat)
  || ((a =? 227)%nat && (b =? 128)%nat && (n =? 128)%nat).

(** The bytes left when the white space at the head is gone; [two] and
    [three] recognise the characters of two and three bytes. *)
Fixpoint drop_spaces (two : ascii -> ascii -> bool)
    (three : ascii -> ascii -> ascii -> bool) (s : list ascii) : list ascii :=
  match s with
  | [] => []
  | c :: s1 =>
      if is_space1 c then drop_spaces two three s1
      else
        match s1 with
        | [] => s
        | d :: s2 =>
            if two c d then drop_spaces two three s2
            else
              match s2 with
              | [] => s
              | e :: s3 => if three c d e then drop_spaces two three s3 else s
              end
        end
  end.

Definition lstrip (s : string) : string :=
  string_of_list_ascii (drop_spaces is_space2 is_space3 (list_ascii_of_string s)).

(** From the end the bytes of a character come in reverse. *)
Definition rstrip (s : string) : string :=
  string_of_list_ascii
    (rev (drop_spaces (fun c d => is_space2 d c) (fun c d e => is_space3 e d c)
            (rev (list_ascii_of_string s)))).

Definition strip (s : string) : string := rstrip (lstrip s).

Definition CR : ascii := ascii_of_nat 13.
Definition LF : ascii := ascii_of_nat 10.

(** [s.replace("\r\n", "\n")]. *)
Fixpoint replace_crlf (s : string) : string :=
  match s with
  | EmptyString => EmptyString
  | String c s1 =>
      if Ascii.eqb c CR then
        match s1 with
        | String d s2 =>
            if Ascii.eqb d LF then String LF (replace_crlf s2)
            else String c (replace_crlf s1)
        | EmptyString => String c EmptyString
        end
      else String c (replace_crlf s1)
  end.

(** [s.replace("\r", "\n")]. *)
Fixpoint replace_cr (s : string) : string :=
  match s with
  | EmptyString => EmptyString
  | String c s1 => String (if Ascii.eqb c CR then LF else c) (replace_cr s1)
  end.

(** What text mode makes of the line ends of a decoded stream
    ([Popen._translate_newlines]). *)
Definition translate_newlines (s : string) : string := replace_cr (replace_crlf s).

(** [s.split("\n")[0]]: the text before the first newline. *)
Fixpoint first_line (s : string) : string :=
  match s with
  | EmptyString => EmptyString
  | String c s' =>
      if (nat_of_ascii c =? 10)%nat then EmptyString else String c (first_line s')
  end.

(** Truth value of a Python string: non-empty. *)
Definition truthy (s : string) : bool :=
  match s with EmptyString => false | _ => true end.

(** Truth value of an optional string ([None] and [""] are false). *)
Definition truthy_opt (o : option string) : bool :=
  match o with Some s => truthy s | None => false end.

(** [repr] of a list of plain strings, as it appears in the text of a
    [TimeoutExpired]. *)
Definition repr_list (l : list string) : string :=
  "[" ++ String.concat ", " (map (fun s => "'" ++ s ++ "'") l) ++ "]".

Definition NL : string := String (ascii_of_nat 10) EmptyString.
Definition ESC : string := String (ascii_of_nat 27) EmptyString.

(** ** Paths *)

(** A [pathlib.Path], by its components. *)
Definition Path := list string.

Definition path_div (p : Path) (c : string) : Path := (p ++ [c])%list.

Declare Scope path_scope.
Delimit Scope path_scope with path.
Notation "p // c" := (path_div p c) (at level 40, left associativity) : path_scope.
Local Open Scope path_scope.

(** [str(path)], POSIX rendering of an absolute path. *)
Definition str_path (p : Path) : string :=
  match p with
  | [] => "/"
  | _ => String.concat "" (map (fun c => "/" ++ c) p)
  end.

(** [path.name]. *)
Definition path_name (p : Path) : string := last p "".

(** [path.parent]. *)
Definition path_parent (p : Path) : Path := removelast p.

(** [c == d] for lists of strings. *)
Fixpoint cmd_eqb (c d : list string) : bool :=
  match c, d with
  | [], [] => true
  | x :: c', y :: d' => String.eqb x y && cmd_eqb c' d'
  | _, _ => false
  end.

Definition path_eqb (p q : Path) : bool := cmd_eqb p q.

(** [x in l] for a list of strings. *)
Definition str_in (x : string) (l : list string) : bool :=
  existsb (String.eqb x) l.

(** ** Exceptions *)

Inductive exn : Type :=
| OSError (msg : string)
    (** with its subclasses: the executable or the working directory cannot
        be used, a directory cannot be made, a path cannot be examined *)
| TimeoutExpired (cmd : list string) (timeout : N) (output stderr : option string)
| UnicodeDecodeError (msg : string)
| URLError (msg : string)
| ImportError (msg : string)
| TclError (msg : string)
| SystemExit (code : Z)
| KeyboardInterrupt.

(** [isinstance(e, Exception)]: [SystemExit] and [KeyboardInterrupt] derive
    from [BaseException] only. *)
Definition is_Exception (e : exn) : bool :=
  match e with
  | SystemExit _ | KeyboardInterrupt => false
  | _ => true
  end.

(** [str(e)]. *)
Definition str_exn (e : exn) : string :=
  match e with
  | OSError msg | UnicodeDecodeError msg | URLError msg | ImportError msg
  | TclError msg => msg
  | TimeoutExpired cmd t _ _ =>
      "Command '" ++ repr_list cmd ++ "' timed out after " ++ str_N t ++ " seconds"
  | SystemExit code => str_Z code
  | KeyboardInterrupt => ""
  end.

(** ** The outside world *)

(** What a child process does once it has been spawned: how long it runs,
    its exit code, the bytes it has written to its two streams after [t]
    seconds, and which files it leaves behind. *)
Record Process : Type := {
  duration : N;
  exit_code : Z;
  out_at : N -> string;
  err_at : N -> string;
  creates : list Path
}.

Inductive Behaviour : Type :=
| CannotSpawn (msg : string)
| Runs (p : Process).

Record World : Type := {
  which : string -> option string;
      (** [shutil.which] *)
  behaviour : list string -> option Path -> Behaviour;
      (** what a command does in a working directory *)
  fetch : string -> Path -> option string;
      (** [urlretrieve]: [None] when the download succeeds, the error's text
          when it raises *)
  mkdir_error : Path -> option string;
      (** [None] when the directory can be created *)
  decode : string -> string + string;
      (** the codec of the locale, which [text=True] reads a stream with:
          the text of the bytes, or the message of the
          [UnicodeDecodeError] *)
  tkinter_present : bool;
  display_error : option string;
      (** [None] when [tk.Tk()] finds a display, else the message of its
          [TclError] *)
  size_mb_text : Path -> string
      (** the file's size in MiB rendered with [:.1f] *)
}.

(** [subprocess.CompletedProcess]; the streams are [None] unless captured. *)
Record CompletedProcess : Type := {
  returncode : Z;
  stdout : option string;
  stderr : option string
}.

(** How a call of [subprocess.run] ended. *)
Inductive run_end : Type :=
| Exited (rc : Z)
| NotSpawned
| Killed.

Inductive event : Type :=
| EvRun (cmd : list string) (cwd : option Path) (capture : bool)
        (timeout : option N) (ending : run_end)
| EvMkdir (p : Path)
| EvUrlretrieve (url : string) (dst : Path) (done : bool)
| EvPrint (text : string)
| EvBrowser (url : string)
| EvSleep (secs : N)
| EvStatus (text : string)
| EvInsert (text : string) (tag : option string)
| EvDelete
| EvWindow
| EvMainloop.

(** The part of the machine's state the script can observe or change: the
    paths that exist, the paths that cannot be examined ([stat] fails on
    them for want of a permission), and the log of what the script has
    done, oldest first. *)
Record Store : Type := {
  files : list Path;
  unreadable : list Path;
  trace : list event
}.

Definition log (ev : event) (s : Store) : Store :=
  {| files := files s; unreadable := unreadable s;
     trace := (trace s ++ [ev])%list |}.

Definition add_files (ps : list Path) (s : Store) : Store :=
  {| files := (ps ++ files s)%list; unreadable := unreadable s;
     trace := trace s |}.

Definition file_exists (s : Store) (p : Path) : bool :=
  existsb (path_eqb p) (files s).

(** The error of [os.stat(p)] that [Path.exists()] does not take for an
    answer: it turns a missing path into [False] and raises the rest. *)
Definition stat_error (s : Store) (p : Path) : option string :=
  if existsb (path_eqb p) (unreadable s)
  then Some ("[Errno 13] Permission denied: '" ++ str_path p ++ "'")
  else None.

(** [p.exists()]. *)
Definition path_exists (s : Store) (p : Path) : exn + bool :=
  match stat_error s p with
  | Some msg => inl (OSError msg)
  | None => inr (file_exists s p)
  end.

(** [p.stat()], as far as the script looks at it: the size in MiB,
    rendered. *)
Definition path_stat (size : Path -> string) (s : Store) (p : Path) : exn + string :=
  match stat_error s p with
  | Some msg => inl (OSError msg)
  | None =>
      if file_exists s p then inr (size p)
      else inl (OSError ("[Errno 2] No such file or directory: '" ++ str_path p ++ "'"))
  end.

(** All non-empty prefixes of a path: what [mkdir(parents=True)] creates. *)
Fixpoint prefixes (p : Path) : list Path :=
  match p with
  | [] => []
  | c :: p' => [c] :: map (cons c) (prefixes p')
  end.

(** ** Requests to the world *)

Inductive effect : Type -> Type :=
| ShutilWhich (name : string) : effect (option string)
| PathExists (p : Path) : effect (exn + bool)
| PathSizeMb (p : Path) : effect (exn + string)
| PathMkdir (p : Path) : effect (exn + unit)
| SubprocessRun (cmd : list string) (cwd : option Path) (capture_output : bool)
                (timeout : option N) : effect (exn + CompletedProcess)
| Urlretrieve (url : string) (dst : Path) : effect (exn + unit)
| Print (text : string) : effect unit
| WebbrowserOpen (url : string) : effect unit
| TimeSleep (secs : N) : effect unit
| ImportTkinter : effect (exn + unit)
| TkWindow : effect (exn + unit)
| TkStatusSet (text : string) : effect unit
| TkOutputInsert (text : string) (tag : option string) : effect unit
| TkOutputDelete : effect unit
| TkMainloop : effect unit.

Definition captured (capture : bool) (s : string) : option string :=
  if capture then Some s else None.

(** A stream read in text mode: decoded, then its line ends translated. *)
Definition read_text (w : World) (bytes : string) : string + string :=
  match decode w bytes with
  | inl msg => inl msg
  | inr text => inr (translate_newlines text)
  end.

(** What [communicate] hands over once the child has ended.  The script
    captures with [capture_output=True, text=True] or not at all; the
    captured streams are decoded, first [stdout], then [stderr]. *)
Definition communicate (w : World) (capture : bool) (p : Process)
    : exn + option string * option string :=
  if capture then
    match read_text w (out_at p (duration p)) with
    | inl msg => inl (UnicodeDecodeError msg)
    | inr out =>
        match read_text w (err_at p (duration p)) with
        | inl msg => inl (UnicodeDecodeError msg)
        | inr err => inr (Some out, Some err)
        end
    end
  else inr (None, None).

(** [subprocess.run(cmd, cwd=..., capture_output=c, text=c, timeout=...)]:
    the child is killed and [TimeoutExpired] raised, with the bytes read so
    far, when it is still running after [timeout] seconds; a child that
    has ended in time has its streams decoded, and the call raises when
    one cannot be. *)
Definition subprocess_run_in (w : World) (cmd : list string) (cwd : option Path)
    (capture : bool) (timeout : option N) (s : Store)
    : (exn + CompletedProcess) * Store :=
  match behaviour w cmd cwd with
  | CannotSpawn msg =>
      (inl (OSError msg), log (EvRun cmd cwd capture timeout NotSpawned) s)
  | Runs p =>
      let finished :=
        (match communicate w capture p with
         | inl e => inl e
         | inr (out, err) =>
             inr {| returncode := exit_code p; stdout := out; stderr := err |}
         end,
         log (EvRun cmd cwd capture timeout (Exited (exit_code p)))
             (add_files (creates p) s)) in
      match timeout with
      | Some t =>
          if (t <? duration p)%N
          then (inl (TimeoutExpired cmd t (captured capture (out_at p t))
                                    (captured capture (err_at p t))),
                log (EvRun cmd cwd capture timeout Killed) s)
          else finished
      | None => finished
      end
  end.

Definition handle (w : World) {X : Type} (e : effect X) (s : Store) : X * Store :=
  match e in effect T return T * Store with
  | ShutilWhich name => (which w name, s)
  | PathExists p => (path_exists s p, s)
  | PathSizeMb p => (path_stat (size_mb_text w) s p, s)
  | PathMkdir p =>
      match mkdir_error w p with
      | Some msg => (inl (OSError msg), s)
      | None => (inr tt, log (EvMkdir p) (add_files (prefixes p) s))
      end
  | SubprocessRun cmd cwd capture timeout =>
      subprocess_run_in w cmd cwd capture timeout s
  | Urlretrieve url dst =>
      match fetch w url dst with
      | Some msg => (inl (URLError msg), log (EvUrlretrieve url dst false) s)
      | None => (inr tt, log (EvUrlretrieve url dst true) (add_files [dst] s))
      end
  | Print text => (tt, log (EvPrint text) s)
  | WebbrowserOpen url => (tt, log (EvBrowser url) s)
  | TimeSleep secs => (tt, log (EvSleep secs) s)
  | ImportTkinter =>
      (if tkinter_present w then inr tt
       else inl (ImportError "No module named 'tkinter'"), s)
  | TkWindow =>
      match display_error w with
      | Some msg => (inl (TclError msg), s)
      | None => (inr tt, log EvWindow s)
      end
  | TkStatusSet text => (tt, log (EvStatus text) s)
  | TkOutputInsert text tag => (tt, log (EvInsert text tag) s)
  | TkOutputDelete => (tt, log EvDelete s)
  | TkMainloop => (tt, log EvMainloop s)
  end.

(** ** Programs *)

(** A program either returns, raises, asks the world for something and goes
    on with the answer, or starts a thread and goes on. *)
Inductive prog (A : Type) : Type :=
| Ret (a : A)
| Raise (e : exn)
| Vis (X : Type) (e : effect X) (k : X -> prog A)
| Fork (t : prog unit) (k : prog A).

Arguments Ret {A} a.
Arguments Raise {A} e.
Arguments Vis {A X} e k.
Arguments Fork {A} t k.

Fixpoint bind {A B : Type} (p : prog A) (f : A -> prog B) : prog B :=
  match p with
  | Ret a => f a
  | Raise e => Raise e
  | Vis e k => Vis e (fun x => bind (k x) f)
  | Fork t k => Fork t (bind k f)
  end.

Declare Scope prog_scope.
Delimit Scope prog_scope with prog.
Notation "x <- p ;; q" := (bind p (fun x => q))
  (at level 61, p at next level, right associativity) : prog_scope.
Notation "p ;; q" := (bind p (fun _ => q))
  (at level 61, right associativity) : prog_scope.
Notation "' pat <- p ;; q" := (bind p (fun x => match x with pat => q end))
  (at level 61, pat pattern, p at next level, right associativity) : prog_scope.
Local Open Scope prog_scope.

(** A request whose answer is a plain value. *)
Definition ask {X : Type} (e : effect X) : prog X := Vis e (fun x => Ret x).

(** A request that may raise. *)
Definition call {X : Type} (e : effect (exn + X)) : prog X :=
  Vis e (fun r => match r with inl ex => Raise ex | inr x => Ret x end).

(** [try: p  except ...: h]: [h e] is [None] when no clause matches [e]. *)
Fixpoint try_except {A : Type} (p : prog A) (h : exn -> option (prog A)) : prog A :=
  match p with
  | Ret a => Ret a
  | Raise e => match h e with Some q => q | None => Raise e end
  | Vis e k => Vis e (fun x => try_except (k x) h)
  | Fork t k => Fork t (try_except k h)
  end.

(** [except Exception as e: h e]. *)
Definition except_Exception {A : Type} (h : exn -> prog A) (e : exn) : option (prog A) :=
  if is_Exception e then Some (h e) else None.

(** [for x in l: body x]. *)
Fixpoint for_each {X : Type} (l : list X) (body : X -> prog unit) : prog unit :=
  match l with
  | [] => Ret tt
  | x :: l' => body x ;; for_each l' body
  end.

(** ** Running a program on the calling thread *)

Inductive result (A : Type) : Type :=
| Ok (a : A)
| Exn (e : exn).

Arguments Ok {A} a.
Arguments Exn {A} e.

(** The whole machine: the store and the threads that have been started. *)
Record Machine : Type := {
  store : Store;
  pool : list (prog unit)
}.

Definition with_store (s : Store) (m : Machine) : Machine :=
  {| store := s; pool := pool m |}.

Definition spawn_thread (t : prog unit) (m : Machine) : Machine :=
  {| store := store m; pool := (pool m ++ [t])%list |}.

Fixpoint run {A : Type} (w : World) (p : prog A) (m : Machine) : result A * Machine :=
  match p with
  | Ret a => (Ok a, m)
  | Raise e => (Exn e, m)
  | Vis e k =>
      let '(x, s') := handle w e (store m) in
      run w (k x) (with_store s' m)
  | Fork t k => run w k (spawn_thread t m)
  end.

Definition trace_of {A : Type} (r : result A * Machine) : list event :=
  trace (store (snd r)).

(** What the shell sees when the interpreter stops: [sys.exit(n)] gives
    [n], a normal return 0, an uncaught [Exception] a traceback and 1; an
    uncaught [KeyboardInterrupt] ends the process by the signal. *)
Inductive exit_status : Type :=
| ExitCode (n : Z)
| Sigint.

Definition process_exit (r : result unit) : exit_status :=
  match r with
  | Ok _ => ExitCode 0
  | Exn (SystemExit n) => ExitCode n
  | Exn KeyboardInterrupt => Sigint
  | Exn _ => ExitCode 1
  end.

(** ** Dictionaries *)

(** A [dict] from labels to verdicts, in insertion order. *)
Definition dict := list (string * bool).

(** [d[k] = v]: a key that is present keeps its place. *)
Fixpoint dict_set (k : string) (v : bool) (d : dict) : dict :=
  match d with
  | [] => [(k, v)]
  | (k', v') :: d' =>
      if String.eqb k k' then (k, v) :: d' else (k', v') :: dict_set k v d'
  end.

Definition dict_values (d : dict) : list bool := map snd d.

(** [all(l)]. *)
Definition py_all (l : list bool) : bool := forallb (fun b => b) l.

(** ** The script *)

(** The parsed command line. *)
Record Args : Type := {
  frontend : bool;
  test : bool;
  test_rust : bool;
  dashboard : bool;
  skip_checks : bool
}.

Module C.
Definition GREEN : string := ESC ++ "[92m".
Definition YELLOW : string := ESC ++ "[93m".
Definition RED : string := ESC ++ "[91m".
Definition CYAN : string := ESC ++ "[96m".
Definition BOLD : string := ESC ++ "[1m".
Definition END : string := ESC ++ "[0m".
End C.

Definition print (text : string) : prog unit := ask (Print text).

Definition ok (msg : string) : prog unit :=
  print ("  " ++ C.GREEN ++ "[OK]" ++ C.END ++ " " ++ msg).

Definition warn (msg : string) : prog unit :=
  print ("  " ++ C.YELLOW ++ "[!!]" ++ C.END ++ " " ++ msg).

Definition err (msg : string) : prog unit :=
  print ("  " ++ C.RED ++ "[ERR]" ++ C.END ++ " " ++ msg).

Definition info (msg : string) : prog unit :=
  print ("  " ++ C.CYAN ++ "[>>]" ++ C.END ++ " " ++ msg).

Definition header (msg : string) : prog unit :=
  print (NL ++ C.BOLD ++ C.CYAN ++ str_repeat "-" 60 ++ C.END) ;;
  print ("  " ++ C.BOLD ++ msg ++ C.END) ;;
  print (C.BOLD ++ C.CYAN ++ str_repeat "-" 60 ++ C.END).

Definition subprocess_run (cmd : list string) (cwd : option Path)
    (capture_output : bool) (timeout : option N) : prog CompletedProcess :=
  call (SubprocessRun cmd cwd capture_output timeout).

Definition sys_exit {A : Type} (code : Z) : prog A := Raise (SystemExit code).

(** The text of a captured stream ([""] when nothing was captured). *)
Definition text_of (o : option string) : string :=
  match o with Some s => s | None => "" end.

(** [a or b] on strings. *)
Definition str_or (a b : string) : string := if truthy a then a else b.

Definition VITE_URL : string := "http://localhost:1420".
Definition VAD_MODEL_URL : string := "https://blob.handy.computer/silero_vad_v4.onnx".

(** [check_command]: the tool's path and the first line of its version. *)
Definition check_command (name : string) (version_flag : string)
    : prog (option string * option string) :=
  path <- ask (ShutilWhich name) ;;
  match path with
  | None => Ret (None, None)
  | Some p =>
      if negb (truthy p) then Ret (None, None)
      else
        try_except
          (result <- subprocess_run [p; version_flag] None true (Some 10%N) ;;
           let version :=
             first_line (str_or (strip (text_of (stdout result)))
                                (strip (text_of (stderr result)))) in
           Ret (Some p, Some version))
          (except_Exception (fun _ => Ret (Some p, Some "unknown")))
  end.

Section Script.

(** [Path(__file__).parent.resolve()]: the directory the script lives in. *)
Variable PROJECT_ROOT : Path.

Definition SRC_TAURI : Path := PROJECT_ROOT // "src-tauri".

Definition VAD_MODEL_PATH : Path :=
  SRC_TAURI // "resources" // "models" // "silero_vad_v4.onnx".

(** *** Prerequisites *)

Definition check_prerequisites : prog bool :=
  header "Checking Prerequisites" ;;
  let all_ok := true in
  (* Rust *)
  '(path, ver) <- check_command "rustc" "--version" ;;
  all_ok <- (if truthy_opt path
             then ok ("Rust: " ++ text_of ver) ;; Ret all_ok
             else err "Rust not found. Install from https://rustup.rs/" ;; Ret false) ;;
  (* Cargo *)
  '(path, ver) <- check_command "cargo" "--version" ;;
  all_ok <- (if truthy_opt path
             then ok ("Cargo: " ++ text_of ver) ;; Ret all_ok
             else err "Cargo not found" ;; Ret false) ;;
  (* Bun *)
  '(path, ver) <- check_command "bun" "--version" ;;
  all_ok <- (if truthy_opt path
             then ok ("Bun: " ++ text_of ver) ;; Ret all_ok
             else err "Bun not found. Install from https://bun.sh/" ;; Ret false) ;;
  (* Node (optional, for some tools) *)
  '(path, ver) <- check_command "node" "--version" ;;
  (if truthy_opt path
   then ok ("Node.js: " ++ text_of ver)
   else warn "Node.js not found (optional)") ;;
  (* VAD Model *)
  present <- call (PathExists VAD_MODEL_PATH) ;;
  (if present : bool
   then size_mb <- call (PathSizeMb VAD_MODEL_PATH) ;;
        ok ("VAD model: " ++ path_name VAD_MODEL_PATH ++ " (" ++ size_mb ++ " MB)")
   else warn ("VAD model not found at " ++ str_path VAD_MODEL_PATH) ;;
        warn "Will attempt to download...") ;;
  Ret all_ok.

(** *** Setup *)

Definition install_dependencies : prog bool :=
  header "Installing Dependencies" ;;
  info "Running bun install..." ;;
  result <- subprocess_run ["bun"; "install"] (Some PROJECT_ROOT) false None ;;
  if (returncode result =? 0)%Z
  then ok "Frontend dependencies installed" ;; Ret true
  else err "Failed to install dependencies" ;; Ret false.

(** [download_vad_model]; the [return True] inside [if curl_path:] is the
    flag [downloaded]. *)
Definition download_vad_model : prog bool :=
  present <- call (PathExists VAD_MODEL_PATH) ;;
  if present : bool then Ret true
  else
    header "Downloading VAD Model" ;;
    info ("Downloading from " ++ VAD_MODEL_URL ++ "...") ;;
    call (PathMkdir (path_parent VAD_MODEL_PATH)) ;;
    try_except
      ((* Try with curl first (more reliable for large files) *)
       curl_path <- ask (ShutilWhich "curl") ;;
       downloaded <-
         (if truthy_opt curl_path
          then result <- subprocess_run
                 ["curl"; "-L"; "-o"; str_path VAD_MODEL_PATH; VAD_MODEL_URL]
                 None false None ;;
               if (returncode result =? 0)%Z
               then ok ("VAD model downloaded to " ++ str_path VAD_MODEL_PATH) ;;
                    Ret true
               else Ret false
          else Ret false) ;;
       if downloaded : bool then Ret true
       else
         (* Fallback to Python's urllib *)
         call (Urlretrieve VAD_MODEL_URL VAD_MODEL_PATH) ;;
         ok ("VAD model downloaded to " ++ str_path VAD_MODEL_PATH) ;;
         Ret true)
      (except_Exception (fun e =>
         err ("Failed to download VAD model: " ++ str_exn e) ;;
         Ret false)).

(** *** Test runners *)

Definition run_rust_tests : prog bool :=
  header "Running Rust Tests" ;;
  result <- subprocess_run ["cargo"; "test"; "--lib"] (Some SRC_TAURI) false None ;;
  (if (returncode result =? 0)%Z
   then ok "All Rust tests passed!"
   else err "Some Rust tests failed") ;;
  Ret (returncode result =? 0)%Z.

Definition run_frontend_lint : prog bool :=
  header "Running Frontend Lint" ;;
  result <- subprocess_run ["bun"; "run"; "lint"] (Some PROJECT_ROOT) false None ;;
  (if (returncode result =? 0)%Z
   then ok "Frontend lint passed!"
   else warn "Frontend lint had issues") ;;
  Ret (returncode result =? 0)%Z.

Definition run_format_check : prog bool :=
  header "Checking Code Format" ;;
  result <- subprocess_run ["bun"; "run"; "format:check"] (Some PROJECT_ROOT) false None ;;
  (if (returncode result =? 0)%Z
   then ok "Code format is correct!"
   else warn "Code formatting issues found. Run: bun run format") ;;
  Ret (returncode result =? 0)%Z.

Definition run_type_check : prog bool :=
  header "Running TypeScript Type Check" ;;
  result <- subprocess_run ["bun"; "x"; "tsc"; "--noEmit"] (Some PROJECT_ROOT) false None ;;
  (if (returncode result =? 0)%Z
   then ok "TypeScript types OK!"
   else warn "TypeScript type errors found") ;;
  Ret (returncode result =? 0)%Z.

(** The loop of [run_all_tests] over [results.items()]. *)
Fixpoint summary_loop (items : list (string * bool)) (all_passed : bool) : prog bool :=
  match items with
  | [] => Ret all_passed
  | (name, passed) :: rest =>
      if passed : bool
      then ok name ;; summary_loop rest all_passed
      else err name ;; summary_loop rest false
  end.

(** Lines 273-287 of [run_all_tests]: the summary of a [results] dictionary. *)
Definition test_summary (results : dict) : prog bool :=
  header "Test Summary" ;;
  all_passed <- summary_loop results true ;;
  (if all_passed : bool
   then print (NL ++ "  " ++ C.GREEN ++ C.BOLD ++ "All checks passed!" ++ C.END)
   else print (NL ++ "  " ++ C.YELLOW ++ C.BOLD ++ "Some checks had issues." ++ C.END)) ;;
  Ret all_passed.

Definition run_all_tests : prog bool :=
  header "Running All Tests" ;;
  let results : dict := [] in
  r <- run_rust_tests ;;
  let results := dict_set "Rust Tests" r results in
  r <- run_frontend_lint ;;
  let results := dict_set "Frontend Lint" r results in
  r <- run_type_check ;;
  let results := dict_set "Type Check" r results in
  r <- run_format_check ;;
  let results := dict_set "Format Check" r results in
  test_summary results.

(** *** Launchers *)

Definition launch_frontend_only : prog unit :=
  header "Launching Frontend Dev Server" ;;
  info ("Starting Vite at " ++ VITE_URL) ;;
  info "Press Ctrl+C to stop" ;;
  (* Open browser after a short delay *)
  let open_browser : prog unit :=
    ask (TimeSleep 3) ;; ask (WebbrowserOpen VITE_URL) in
  Fork open_browser (Ret tt) ;;
  try_except
    (subprocess_run ["bun"; "run"; "dev"] (Some PROJECT_ROOT) false None ;; Ret tt)
    (fun e => match e with
              | KeyboardInterrupt => Some (info "Frontend server stopped")
              | _ => None
              end).

Definition launch_tauri_dev : prog unit :=
  header "Launching Voice Input (Tauri Dev)" ;;
  info "Building Rust backend + starting frontend..." ;;
  info "This may take a few minutes on first run" ;;
  info "Press Ctrl+C to stop" ;;
  try_except
    (subprocess_run ["bun"; "run"; "tauri"; "dev"] (Some PROJECT_ROOT) false None ;; Ret tt)
    (fun e => match e with
              | KeyboardInterrupt => Some (info "Tauri dev stopped")
              | _ => None
              end).

(** *** Dashboard (tkinter) *)

(** [status_var.set]. *)
Definition status_set (text : string) : prog unit := ask (TkStatusSet text).

(** [write_output]: the text and a newline are appended to the output
    widget ([output.see] and [update_idletasks] only redraw). *)
Definition write_output (text : string) (tag : option string) : prog unit :=
  ask (TkOutputInsert (text ++ NL) tag).

Definition clear_output : prog unit := ask TkOutputDelete.

(** [if stream: write_output(stream)]. *)
Definition write_stream (stream : option string) : prog unit :=
  if truthy_opt stream then write_output (text_of stream) None else Ret tt.

(** The body of the thread [run_in_thread] starts. *)
Definition wrapper (func : list string) (label : string) : prog unit :=
  status_set ("Running: " ++ label ++ "...") ;;
  clear_output ;;
  write_output (str_repeat "=" 50) None ;;
  write_output ("  " ++ label) None ;;
  write_output (str_repeat "=" 50 ++ NL) None ;;
  try_except
    (result <- subprocess_run func
         (Some (if negb (str_in "cargo" func) then PROJECT_ROOT else SRC_TAURI))
         true (Some 300%N) ;;
     write_stream (stdout result) ;;
     write_stream (stderr result) ;;
     if (returncode result =? 0)%Z
     then write_output (NL ++ "✓ " ++ label ++ " — PASSED") (Some "green") ;;
          status_set ("✓ " ++ label ++ " passed")
     else write_output (NL ++ "✗ " ++ label ++ " — FAILED (exit code "
                           ++ str_Z (returncode result) ++ ")") (Some "red") ;;
          status_set ("✗ " ++ label ++ " failed"))
    (fun e => match e with
              | TimeoutExpired _ _ _ _ =>
                  Some (write_output (NL ++ "! " ++ label ++ " — TIMEOUT") (Some "yellow") ;;
                        status_set ("! " ++ label ++ " timed out"))
              | _ =>
                  except_Exception (fun e =>
                    write_output (NL ++ "✗ Error: " ++ str_exn e) (Some "red") ;;
                    status_set ("✗ Error running " ++ label)) e
              end).

Definition run_in_thread (func : list string) (label : string) : prog unit :=
  Fork (wrapper func label) (Ret tt).

Definition buttons : list (string * list string) :=
  [ ("Run Rust Tests", ["cargo"; "test"; "--lib"]);
    ("Lint Frontend", ["bun"; "run"; "lint"]);
    ("Type Check", ["bun"; "x"; "tsc"; "--noEmit"]);
    ("Format Check", ["bun"; "run"; "format:check"]) ].

Definition launch_frontend_btn : prog unit :=
  status_set "Starting frontend dev server..." ;;
  clear_output ;;
  write_output ("Starting Vite dev server at http://localhost:1420..." ++ NL) None ;;
  write_output ("Opening browser in 3 seconds..." ++ NL) None ;;
  let runner : prog unit :=
    ask (TimeSleep 2) ;; ask (WebbrowserOpen VITE_URL) in
  Fork runner (Ret tt) ;;
  run_in_thread ["bun"; "run"; "dev"] "Vite Dev Server".

Definition launch_tauri_btn : prog unit :=
  status_set "Building & launching Tauri app..." ;;
  clear_output ;;
  write_output ("Starting Tauri dev mode (this may take a few minutes)..." ++ NL) None ;;
  run_in_thread ["bun"; "run"; "tauri"; "dev"] "Tauri Dev".

(** The checks of the "Run All Checks" button. *)
Definition checks : list (string * list string) :=
  [ ("Rust Tests", ["cargo"; "test"; "--lib"]);
    ("Frontend Lint", ["bun"; "run"; "lint"]);
    ("Type Check", ["bun"; "x"; "tsc"; "--noEmit"]) ].

(** The first loop of [run_all_thread], over a list of checks. *)
Fixpoint run_all_loop (cs : list (string * list string)) (results : dict) : prog dict :=
  match cs with
  | [] => Ret results
  | (label, cmd) :: rest =>
      write_output (NL ++ str_repeat "─" 40) None ;;
      write_output ("  Running: " ++ label) None ;;
      write_output (str_repeat "─" 40 ++ NL) None ;;
      status_set ("Running: " ++ label ++ "...") ;;
      results <-
        try_except
          (result <- subprocess_run cmd
               (Some (if str_in "cargo" cmd then SRC_TAURI else PROJECT_ROOT))
               true (Some 300%N) ;;
           write_stream (stdout result) ;;
           write_stream (stderr result) ;;
           Ret (dict_set label (returncode result =? 0)%Z results))
          (except_Exception (fun e =>
             write_output ("Error: " ++ str_exn e) (Some "red") ;;
             Ret (dict_set label false results))) ;;
      run_all_loop rest results
  end.

(** The second loop of [run_all_thread], over [results.items()]. *)
Fixpoint report_loop (items : list (string * bool)) : prog unit :=
  match items with
  | [] => Ret tt
  | (label, passed) :: rest =>
      (if passed : bool
       then write_output ("  ✓ " ++ label) (Some "green")
       else write_output ("  ✗ " ++ label) (Some "red")) ;;
      report_loop rest
  end.

(** [run_all_thread] with its list of checks as a parameter. *)
Definition run_all_thread_on (cs : list (string * list string)) : prog unit :=
  results <- run_all_loop cs [] ;;
  write_output (NL ++ str_repeat "═" 50) None ;;
  write_output "  Summary" None ;;
  write_output (str_repeat "═" 50 ++ NL) None ;;
  report_loop results ;;
  let all_passed := py_all (dict_values results) in
  if all_passed
  then write_output (NL ++ "  All checks passed!") (Some "green") ;;
       status_set "✓ All checks passed!"
  else write_output (NL ++ "  Some checks failed.") (Some "red") ;;
       status_set "✗ Some checks failed".

Definition run_all_thread : prog unit := run_all_thread_on checks.

Definition run_all_btn : prog unit :=
  status_set "Running all checks..." ;;
  clear_output ;;
  Fork run_all_thread (Ret tt).

Definition buttons2 : list (string * prog unit) :=
  [ ("Launch Frontend", launch_frontend_btn);
    ("Launch Tauri App", launch_tauri_btn);
    ("Run All Checks", run_all_btn);
    ("Clear Output", clear_output) ].

(** The callback bound to each button of the first row:
    [lambda c=cmd, l=label: run_in_thread(c, l)]. *)
Definition buttons1 : list (string * prog unit) :=
  map (fun '(label, cmd) => (label, run_in_thread cmd label)) buttons.

(** [launch_dashboard]: the window is built, then the event loop runs until
    the window is closed; what the buttons do while it runs is [Dashboard]
    below. *)
Definition launch_dashboard : prog unit :=
  imported <- try_except (call ImportTkinter ;; Ret true)
                (fun e => match e with
                          | ImportError _ =>
                              Some (err "tkinter not available. Install python3-tk or use --test instead." ;;
                                    Ret false)
                          | _ => None
                          end) ;;
  if imported : bool
  then call TkWindow ;; ask TkMainloop
  else Ret tt.

(** *** Main *)

Definition main (args : Args) : prog unit :=
  print (NL ++ C.BOLD ++ C.CYAN ++ "  Voice Input v0.8.0 -- Launcher" ++ C.END) ;;
  (* Check prerequisites *)
  (if negb (skip_checks args)
   then ready <- check_prerequisites ;;
        if negb ready
        then err "Missing prerequisites. Install them and try again." ;;
             sys_exit 1
        else Ret tt
   else Ret tt) ;;
  (* Handle modes *)
  if test_rust args then
    success <- run_rust_tests ;;
    sys_exit (if success : bool then 0 else 1)
  else if test args then
    success <- run_all_tests ;;
    sys_exit (if success : bool then 0 else 1)
  else if dashboard args then
    install_dependencies ;;
    download_vad_model ;;
    launch_dashboard
  else if frontend args then
    install_dependencies ;;
    launch_frontend_only
  else
    (* Default: full Tauri dev launch *)
    install_dependencies ;;
    download_vad_model ;;
    launch_tauri_dev.

End Script.

(** ** The dashboard while its event loop runs *)

Module Dashboard.

(** What can happen next: the user presses the button with the given
    text, or the scheduler lets thread [i] of the pool perform its next
    request. *)
Inductive action : Type :=
| Click (text : string)
| Step (i : nat).

(** [l[i] = x]. *)
Fixpoint set_nth {X : Type} (i : nat) (x : X) (l : list X) : list X :=
  match l, i with
  | [], _ => []
  | _ :: l', O => x :: l'
  | y :: l', S i' => y :: set_nth i' x l'
  end.

(** The command of the child process a thread is waiting for, if it is
    waiting for one. *)
Definition waiting_for (t : prog unit) : option (list string) :=
  match t with
  | Vis e _ =>
      match e with
      | SubprocessRun cmd _ _ _ => Some cmd
      | _ => None
      end
  | _ => None
  end.

(** The child processes in flight, one entry per waiting thread. *)
Fixpoint in_flight (ts : list (prog unit)) : list (list string) :=
  match ts with
  | [] => []
  | t :: ts' =>
      match waiting_for t with
      | Some cmd => cmd :: in_flight ts'
      | None => in_flight ts'
      end
  end.

(** How many executions of [cmd] are in flight. *)
Definition executions (cmd : list string) (m : Machine) : nat :=
  List.length (filter (cmd_eqb cmd) (in_flight (pool m))).

Section Loop.

Variable PROJECT_ROOT : Path.
Variable w : World.

Fixpoint lookup_button (text : string) (bs : list (string * prog unit))
    : option (prog unit) :=
  match bs with
  | [] => None
  | (label, cb) :: bs' =>
      if String.eqb text label then Some cb else lookup_button text bs'
  end.

(** The callback of the button with the given text. *)
Definition callback (text : string) : option (prog unit) :=
  lookup_button text (buttons1 PROJECT_ROOT ++ buttons2 PROJECT_ROOT)%list.

(** One request of one thread: the answer of the world is delivered and
    the thread moves on; a finished thread cannot move. *)
Definition step_thread (i : nat) (m : Machine) : option Machine :=
  match nth_error (pool m) i with
  | Some (Vis e k) =>
      let '(x, s') := handle w e (store m) in
      Some {| store := s'; pool := set_nth i (k x) (pool m) |}
  | Some (Fork t k) =>
      Some {| store := store m; pool := (set_nth i k (pool m) ++ [t])%list |}
  | _ => None
  end.

(** A callback runs to its end on the thread of the event loop. *)
Definition exec1 (a : action) (m : Machine) : option Machine :=
  match a with
  | Click text =>
      match callback text with
      | Some cb => Some (snd (run w cb m))
      | None => None
      end
  | Step i => step_thread i m
  end.

Fixpoint exec (acts : list action) (m : Machine) : option Machine :=
  match acts with
  | [] => Some m
  | a :: acts' =>
      match exec1 a m with
      | Some m' => exec acts' m'
      | None => None
      end
  end.

End Loop.

End Dashboard.

(** ** Reading a trace *)

(** A machine that has just started, nothing done yet: the files [fs]
    exist and the paths [bad] cannot be examined. *)
Definition start (fs bad : list Path) : Machine :=
  {| store := {| files := fs; unreadable := bad; trace := [] |}; pool := [] |}.

(** The same where every path can be examined. *)
Definition boot (fs : list Path) : Machine := start fs [].

(** The calls of [subprocess.run] in a trace. *)
Fixpoint runs (tr : list event) : list (list string * option Path * run_end) :=
  match tr with
  | [] => []
  | EvRun cmd cwd _ _ ending :: tr' => (cmd, cwd, ending) :: runs tr'
  | _ :: tr' => runs tr'
  end.

(** The commands of the four checks. *)
Definition check_commands : list (list string) :=
  [ ["cargo"; "test"; "--lib"];
    ["bun"; "run"; "lint"];
    ["bun"; "x"; "tsc"; "--noEmit"];
    ["bun"; "run"; "format:check"] ].

Definition is_check (cmd : list string) : bool :=
  existsb (cmd_eqb cmd) check_commands.

(** The session of a trace: the check commands that were called, each with
    the way it ended. *)
Definition session (tr : list event) : list (list string * run_end) :=
  map (fun r => (fst (fst r), snd r))
      (filter (fun r => is_check (fst (fst r))) (runs tr)).

(** The checks that ran as a process. *)
Definition executed (tr : list event) : list (list string) :=
  map fst (filter (fun r => match snd r with NotSpawned => false | _ => true end)
                  (session tr)).

Definition succeeded (e : run_end) : bool :=
  match e with
  | Exited rc => (rc =? 0)%Z
  | _ => false
  end.

(** Every check of the session ended with exit code 0. *)
Definition all_passed (tr : list event) : bool :=
  forallb (fun r => succeeded (snd r)) (session tr).

(** An access to the network: a download by [urlretrieve], or a run of
    [curl]. *)
Definition is_network (ev : event) : bool :=
  match ev with
  | EvUrlretrieve _ _ _ => true
  | EvRun (c :: _) _ _ _ _ => String.eqb c "curl"
  | _ => false
  end.

Definition network (tr : list event) : list event := filter is_network tr.

(** The status line after a trace: the text last set. *)
Fixpoint last_status (tr : list event) (current : string) : string :=
  match tr with
  | [] => current
  | EvStatus text :: tr' => last_status tr' text
  | _ :: tr' => last_status tr' current
  end.

(** The outcome of one execution, as the specification names it, and one
    more: the command ended in time and its output could not be decoded. *)
Inductive CommandResult : Type :=
| Success
| Failure (code : Z)
| TimedOut
| SpawnError (cause : string)
| DecodeError (cause : string).

(** The outcome of a behaviour under a timeout, its streams captured as
    text. *)
Definition outcome (w : World) (timeout : N) (b : Behaviour) : CommandResult :=
  match b with
  | CannotSpawn msg => SpawnError msg
  | Runs p =>
      if (timeout <? duration p)%N then TimedOut
      else
        match communicate w true p with
        | inl e => DecodeError (str_exn e)
        | inr _ =>
            if (exit_code p =? 0)%Z then Success else Failure (exit_code p)
        end
  end.

(** The tools [check_prerequisites] requires. *)
Definition tools_present (w : World) : bool :=
  truthy_opt (which w "rustc") && truthy_opt (which w "cargo")
  && truthy_opt (which w "bun").

(** A probe of [check_command], or console output: what the prerequisite
    scan may leave in a trace. *)
Definition is_scan_event (ev : event) : bool :=
  match ev with
  | EvPrint _ => true
  | EvRun [_; flag] None true (Some 10%N) _ => String.eqb flag "--version"
  | _ => false
  end.

(** ** What the properties speak about *)

(** Only probes and console output have happened so far. *)
Definition scanned (m : Machine) : Prop :=
  Forall (fun ev => is_scan_event ev = true) (trace (store m)).

Definition is_print (ev : event) : bool :=
  match ev with EvPrint _ => true | _ => false end.

(** Only console output separates [m'] from [m]. *)
Definition prints_only (m m' : Machine) : Prop :=
  (exists delta, trace (store m') = (trace (store m) ++ delta)%list
                 /\ Forall (fun ev => is_print ev = true) delta)
  /\ files (store m') = files (store m)
  /\ pool m' = pool m.

(** What a batch runner makes of a behaviour: it calls without a timeout
    and has no handler. *)
Definition runner_result (b : Behaviour) : result bool :=
  match b with
  | CannotSpawn msg => Exn (OSError msg)
  | Runs p => Ok (exit_code p =? 0)%Z
  end.

Definition runner_end (b : Behaviour) : run_end :=
  match b with
  | CannotSpawn _ => NotSpawned
  | Runs p => Exited (exit_code p)
  end.

(** How a call with a timeout ends. *)
Definition ending_of (timeout : N) (b : Behaviour) : run_end :=
  match b with
  | CannotSpawn _ => NotSpawned
  | Runs p => if (timeout <? duration p)%N then Killed else Exited (exit_code p)
  end.

Definition is_success (r : CommandResult) : bool :=
  match r with Success => true | _ => false end.

(** The working directory the dashboard gives a command. *)
Definition dashboard_cwd (root : Path) (cmd : list string) : Path :=
  if str_in "cargo" cmd then SRC_TAURI root else root.

(** A captured stream in the output widget: nothing when it is empty. *)
Definition shown (text : string) : list event :=
  if truthy text then [EvInsert (text ++ NL) None] else [].

(** The streams of a call that completed in time and could be decoded. *)
Definition streams (w : World) (timeout : N) (b : Behaviour) : list event :=
  match b with
  | CannotSpawn _ => []
  | Runs p =>
      if (timeout <? duration p)%N then []
      else
        match communicate w true p with
        | inl _ => []
        | inr (out, err) => (shown (text_of out) ++ shown (text_of err))%list
        end
  end.

(** What a single check writes before it calls its command. *)
Definition announce (label : string) : list event :=
  [ EvStatus ("Running: " ++ label ++ "...");
    EvDelete;
    EvInsert (str_repeat "=" 50 ++ NL) None;
    EvInsert ("  " ++ label ++ NL) None;
    EvInsert (str_repeat "=" 50 ++ NL ++ NL) None ].

(** The verdict a single check ends with, for each outcome. *)
Definition report (label : string) (r : CommandResult) : list event :=
  match r with
  | Success =>
      [ EvInsert (NL ++ "✓ " ++ label ++ " — PASSED" ++ NL) (Some "green");
        EvStatus ("✓ " ++ label ++ " passed") ]
  | Failure code =>
      [ EvInsert (NL ++ "✗ " ++ label ++ " — FAILED (exit code " ++ str_Z code ++ ")" ++ NL)
                 (Some "red");
        EvStatus ("✗ " ++ label ++ " failed") ]
  | TimedOut =>
      [ EvInsert (NL ++ "! " ++ label ++ " — TIMEOUT" ++ NL) (Some "yellow");
        EvStatus ("! " ++ label ++ " timed out") ]
  | SpawnError cause | DecodeError cause =>
      [ EvInsert (NL ++ "✗ Error: " ++ cause ++ NL) (Some "red");
        EvStatus ("✗ Error running " ++ label) ]
  end.

(** The verdict "Run All Checks" records for a command. *)
Definition passed_in_time (root : Path) (w : World) (cmd : list string) : bool :=
  is_success (outcome w 300 (behaviour w cmd (Some (dashboard_cwd root cmd)))).

(** The call "Run All Checks" makes for a command, as [runs] shows it. *)
Definition dashboard_call (root : Path) (w : World) (cmd : list string)
    : list string * option Path * run_end :=
  (cmd, Some (dashboard_cwd root cmd),
   ending_of 300 (behaviour w cmd (Some (dashboard_cwd root cmd)))).

(** The dictionary "Run All Checks" builds over a list of checks. *)
Definition record_all (root : Path) (w : World) (cs : list (string * list string))
    (results : dict) : dict :=
  fold_left (fun d c => dict_set (fst c) (passed_in_time root w (snd c)) d) cs results.

(** The status line "Run All Checks" ends with. *)
Definition all_checks_status (passed : bool) : string :=
  if passed then "✓ All checks passed!" else "✗ Some checks failed".

(** [text] occurs in what was written to the output widget. *)
Definition written (text : string) (tr : list event) : bool :=
  existsb (fun ev => match ev with
                     | EvInsert t _ =>
                         match String.index 0 text t with Some _ => true | None => false end
                     | _ => false
                     end) tr.

(** The command [download_vad_model] gives to curl. *)
Definition curl_command (root : Path) : list string :=
  ["curl"; "-L"; "-o"; str_path (VAD_MODEL_PATH root); VAD_MODEL_URL].

(** [urlretrieve] succeeds. *)
Definition urllib_succeeds (root : Path) (w : World) : bool :=
  match fetch w VAD_MODEL_URL (VAD_MODEL_PATH root) with
  | None => true
  | Some _ => false
  end.

(** The four calls of a batch run whose commands can all be started. *)
Definition batch_calls (root : Path) (p1 p2 p3 p4 : Process)
    : list (list string * option Path * run_end) :=
  [ (["cargo"; "test"; "--lib"], Some (SRC_TAURI root), Exited (exit_code p1));
    (["bun"; "run"; "lint"], Some root, Exited (exit_code p2));
    (["bun"; "x"; "tsc"; "--noEmit"], Some root, Exited (exit_code p3));
    (["bun"; "run"; "format:check"], Some root, Exited (exit_code p4)) ].

(** *** The claims of the specification, as they are worded *)

(** --test: the four checks run, and the exit code is 0 exactly when every
    check of the session passed, else 1. *)
Definition test_mode_contract (root : Path) (w : World) (fs : list Path)
    (args : Args) : Prop :=
  let r := run w (main root args) (boot fs) in
  executed (trace_of r) = check_commands
  /\ (process_exit (fst r) = ExitCode 0 <-> all_passed (trace_of r) = true)
  /\ (process_exit (fst r) = ExitCode 0 \/ process_exit (fst r) = ExitCode 1).

(** The working directories of the calls in a trace. *)
Definition cwds (tr : list event) : list (option Path) :=
  map (fun r => snd (fst r)) (runs tr).

(** The working directory of a check does not depend on the text of its
    command. *)
Definition cwd_not_from_command (root : Path) (w : World) (label : string)
    (cmd1 cmd2 : list string) : Prop :=
  cwds (trace_of (run w (wrapper root cmd1 label) (boot [])))
  = cwds (trace_of (run w (wrapper root cmd2 label) (boot []))).

(** An execution ends with a result, not with an exception. *)
Definition result_as_data {A : Type} (w : World) (p : prog A) (m : Machine) : Prop :=
  exists a, fst (run w p m) = Ok a.

(** A batch run calls every check and returns. *)
Definition batch_runs_every_check (root : Path) (w : World) (fs : list Path) : Prop :=
  let r := run w (run_all_tests root) (boot fs) in
  map fst (session (trace_of r)) = check_commands
  /\ result_as_data w (run_all_tests root) (boot fs).

(** At most one execution of each command is in flight. *)
Definition one_at_a_time (m : Machine) : Prop :=
  forall cmd, Dashboard.executions cmd m <= 1.

(** A check that overruns its 300 seconds is killed, its verdict is the
    timeout, and what it had written to its streams by then is shown. *)
Definition timeout_contract (root : Path) (w : World) (func : list string)
    (label : string) : Prop :=
  forall p,
    behaviour w func (Some (dashboard_cwd root func)) = Runs p ->
    (300 < duration p)%N ->
    let tr := trace_of (run w (wrapper root func label) (boot [])) in
    In (EvRun func (Some (dashboard_cwd root func)) true (Some 300%N) Killed) tr
    /\ last_status tr "Ready" = "! " ++ label ++ " timed out"
    /\ written (out_at p 300) tr = true
    /\ written (err_at p 300) tr = true.

(** The fetch does nothing when the file is there, nothing on a second
    call after a successful first one, and otherwise tries curl, where
    there is one, and, before it gives up, urllib. *)
Definition ensure_present_contract (root : Path) (w : World) (fs : list Path) : Prop :=
  let m := boot fs in
  let r := run w (download_vad_model root) m in
  (file_exists (store m) (VAD_MODEL_PATH root) = true -> r = (Ok true, m))
  /\ (fst r = Ok true ->
      run w (download_vad_model root) (snd r) = (Ok true, snd r))
  /\ (file_exists (store m) (VAD_MODEL_PATH root) = false ->
      (truthy_opt (which w "curl") = true ->
       exists ending,
         In (EvRun (curl_command root) None false None ending) (trace_of r))
      /\ (fst r <> Ok true ->
          exists done,
            In (EvUrlretrieve VAD_MODEL_URL (VAD_MODEL_PATH root) done) (trace_of r))).

(** ** Worlds to try the script in *)

Module Example.

Definition root : Path := ["home"; "dev"; "voice-input"].

(** The ASCII codec: bytes below 128 are text as they are, any other byte
    cannot be decoded. *)
Definition ascii_codec (bytes : string) : string + string :=
  if forallb (fun c => (nat_of_ascii c <? 128)%nat) (list_ascii_of_string bytes)
  then inr bytes
  else inl "'ascii' codec can't decode byte: ordinal not in range(128)".

(** A process that ends after five seconds with the given code. *)
Definition quick (rc : Z) : Process :=
  {| duration := 5;
     exit_code := rc;
     out_at := fun _ => "done";
     err_at := fun _ => "";
     creates := [] |}.

(** A process that has written one line and is still busy after a
    quarter of an hour. *)
Definition slow : Process :=
  {| duration := 900;
     exit_code := 0;
     out_at := fun _ => "Compiling voice-input v0.8.0";
     err_at := fun _ => "warning: unused variable";
     creates := [] |}.

(** Nothing is installed, nothing can be reached. *)
Definition bare : World :=
  {| which := fun _ => None;
     behaviour := fun _ _ => CannotSpawn "[Errno 2] No such file or directory";
     fetch := fun _ _ => Some "<urlopen error [Errno 111] Connection refused>";
     mkdir_error := fun _ => None;
     decode := ascii_codec;
     tkinter_present := true;
     display_error := None;
     size_mb_text := fun _ => "1.7" |}.

(** Every tool is installed and every command behaves as [does] says. *)
Definition installed (does : list string -> Behaviour) : World :=
  {| which := fun name => Some ("/usr/bin/" ++ name);
     behaviour := fun cmd _ => does cmd;
     fetch := fun _ _ => None;
     mkdir_error := fun _ => None;
     decode := ascii_codec;
     tkinter_present := true;
     display_error := None;
     size_mb_text := fun _ => "1.7" |}.

(** Only the format check finds something. *)
Definition unformatted : World :=
  installed (fun cmd =>
    Runs (quick (if cmd_eqb cmd ["bun"; "run"; "format:check"] then 1 else 0))).

(** cargo cannot be started; everything else passes. *)
Definition no_cargo : World :=
  installed (fun cmd =>
    match cmd with
    | "cargo" :: _ => CannotSpawn "[Errno 2] No such file or directory: 'cargo'"
    | _ => Runs (quick 0)
    end).

(** The Rust tests hang. *)
Definition hanging_tests : World :=
  installed (fun cmd =>
    match cmd with
    | "cargo" :: _ => Runs slow
    | _ => Runs (quick 0)
    end).

(** A process that ends with exit code 0 after writing a byte that is no
    text. *)
Definition garbled : Process :=
  {| duration := 5;
     exit_code := 0;
     out_at := fun _ => String (ascii_of_nat 255) "ok";
     err_at := fun _ => "";
     creates := [] |}.

(** The Rust tests pass and write what cannot be decoded. *)
Definition undecodable_tests : World :=
  installed (fun cmd =>
    match cmd with
    | "cargo" :: _ => Runs garbled
    | _ => Runs (quick 0)
    end).

(** curl is on PATH but cannot be started; urllib would work. *)
Definition broken_curl : World :=
  installed (fun cmd =>
    match cmd with
    | "curl" :: _ => CannotSpawn "[Errno 8] Exec format error: 'curl'"
    | _ => Runs (quick 0)
    end).

(** bun is missing; the other tools are there. *)
Definition no_bun : World :=
  {| which := fun name =>
                if String.eqb name "bun" then None else Some ("/usr/bin/" ++ name);
     behaviour := fun _ _ => Runs (quick 0);
     fetch := fun _ _ => None;
     mkdir_error := fun _ => None;
     decode := ascii_codec;
     tkinter_present := true;
     display_error := None;
     size_mb_text := fun _ => "1.7" |}.

(** curl is missing; urllib works. *)
Definition no_curl : World :=
  {| which := fun name =>
                if String.eqb name "curl" then None else Some ("/usr/bin/" ++ name);
     behaviour := fun _ _ => Runs (quick 0);
     fetch := fun _ _ => None;
     mkdir_error := fun _ => None;
     decode := ascii_codec;
     tkinter_present := true;
     display_error := None;
     size_mb_text := fun _ => "1.7" |}.

(** [--test] *)
Definition test_args : Args :=
  {| frontend := false; test := true; test_rust := false;
     dashboard := false; skip_checks := false |}.

Definition rust_tests : list string := ["cargo"; "test"; "--lib"].

(** The user presses "Run Rust Tests", the thread gets as far as its
    child process, and the user presses the button again. *)
Definition double_click : list Dashboard.action :=
  (Dashboard.Click "Run Rust Tests" :: repeat (Dashboard.Step 0) 5
   ++ Dashboard.Click "Run Rust Tests" :: repeat (Dashboard.Step 1) 5)%list.

End Example.

(** ** More to speak about *)

(** No character of [s] is a newline. *)
Definition single_line (s : string) : Prop :=
  Forall (fun c => nat_of_ascii c <> 10) (list_ascii_of_string s).

(** The version [check_command] makes of its probe: "unknown" when the
    call raised (no process, still running after 10 seconds, output that
    cannot be decoded), else the first line of what the probe wrote. *)
Definition probed_version (w : World) (b : Behaviour) : string :=
  match b with
  | CannotSpawn _ => "unknown"
  | Runs p =>
      if (10 <? duration p)%N then "unknown"
      else
        match communicate w true p with
        | inl _ => "unknown"
        | inr (out, err) =>
            first_line (str_or (strip (text_of out)) (strip (text_of err)))
        end
  end.

(** What the script did beyond printing and probing versions. *)
Definition work (tr : list event) : list event :=
  filter (fun ev => negb (is_scan_event ev)) tr.

(** What the prerequisite scan ends in: the error of [exists()] on the
    model's path when there is one, else whether the three tools were
    found. *)
Definition scan_result (w : World) (s : Store) (model : Path) : result bool :=
  match stat_error s model with
  | Some msg => Exn (OSError msg)
  | None => Ok (tools_present w)
  end.

(** The calls made inside the project: those with a working directory
    (probes and curl have none). *)
Definition project_calls (tr : list event) : list (list string * option Path * run_end) :=
  filter (fun r => match snd (fst r) with Some _ => true | None => false end) (runs tr).

Definition is_gui (ev : event) : bool :=
  match ev with
  | EvStatus _ | EvInsert _ _ | EvDelete | EvWindow | EvMainloop => true
  | _ => false
  end.

(** What happened to the window. *)
Definition gui_events (tr : list event) : list event := filter is_gui tr.

(** What the download returns when the file is missing and its directory
    can be made. *)
Definition download_result (root : Path) (w : World) : bool :=
  if truthy_opt (which w "curl")
  then match behaviour w (curl_command root) None with
       | CannotSpawn _ => false
       | Runs p => (exit_code p =? 0)%Z || urllib_succeeds root w
       end
  else urllib_succeeds root w.

(** Whether the download gets as far as urllib. *)
Definition reaches_urllib (root : Path) (w : World) : bool :=
  if truthy_opt (which w "curl")
  then match behaviour w (curl_command root) None with
       | CannotSpawn _ => false
       | Runs p => negb (exit_code p =? 0)%Z
       end
  else true.

(** The accesses to the network the download makes then. *)
Definition download_network (root : Path) (w : World) : list event :=
  ((if truthy_opt (which w "curl")
    then [EvRun (curl_command root) None false None
            (runner_end (behaviour w (curl_command root) None))]
    else [])
   ++ (if reaches_urllib root w
       then [EvUrlretrieve VAD_MODEL_URL (VAD_MODEL_PATH root) (urllib_succeeds root w)]
       else []))%list.

(** The two calls of the default mode. *)
Definition launch_calls (root : Path) (p1 p2 : Process)
    : list (list string * option Path * run_end) :=
  [ (["bun"; "install"], Some root, Exited (exit_code p1));
    (["bun"; "run"; "tauri"; "dev"], Some root, Exited (exit_code p2)) ].

(** What [launch_dashboard] adds to the trace. *)
Definition dashboard_session (w : World) : list event :=
  if tkinter_present w
  then match display_error w with
       | None => [EvWindow; EvMainloop]
       | Some _ => []
       end
  else [EvPrint ("  " ++ C.RED ++ "[ERR]" ++ C.END ++ " "
                 ++ "tkinter not available. Install python3-tk or use --test instead.")].

(** What [launch_dashboard] ends in: the error of [tk.Tk()] when tkinter
    is there and a display is not. *)
Definition dashboard_result (w : World) : result unit :=
  if tkinter_present w
  then match display_error w with
       | None => Ok tt
       | Some msg => Exn (TclError msg)
       end
  else Ok tt.

(** The verdicts "Run All Checks" reaches for a list of checks, one by
    one. *)
Definition verdicts (root : Path) (w : World) (cs : list (string * list string)) : dict :=
  map (fun c => (fst c, passed_in_time root w (snd c))) cs.

(** The commands of a batch run with their directories, in its order. *)
Definition batch_plan (root : Path) : list (list string * Path) :=
  [ (["cargo"; "test"; "--lib"], SRC_TAURI root);
    (["bun"; "run"; "lint"], root);
    (["bun"; "x"; "tsc"; "--noEmit"], root);
    (["bun"; "run"; "format:check"], root) ].

(** The calls of a plan up to and with the first that cannot be made. *)
Fixpoint calls_until_failure (w : World) (plan : list (list string * Path))
    : list (list string * option Path * run_end) :=
  match plan with
  | [] => []
  | (cmd, cwd) :: rest =>
      match behaviour w cmd (Some cwd) with
      | CannotSpawn _ => [(cmd, Some cwd, NotSpawned)]
      | Runs p => (cmd, Some cwd, Exited (exit_code p)) :: calls_until_failure w rest
      end
  end.

(** What a plan without handlers ends in: the error of the first command
    that cannot be started, or whether every exit code was 0. *)
Fixpoint plan_result (w : World) (plan : list (list string * Path)) (all_ok : bool)
    : result bool :=
  match plan with
  | [] => Ok all_ok
  | (cmd, cwd) :: rest =>
      match behaviour w cmd (Some cwd) with
      | CannotSpawn msg => Exn (OSError msg)
      | Runs p => plan_result w rest (all_ok && (exit_code p =? 0)%Z)
      end
  end.

(** The summary of a batch run has been printed. *)
Definition summary_printed (tr : list event) : bool :=
  existsb (fun ev => match ev with
                     | EvPrint t =>
                         String.eqb t ("  " ++ C.BOLD ++ "Test Summary" ++ C.END)
                     | _ => false
                     end) tr.

(** Every event [p] adds to the trace satisfies [Q], from whatever machine
    it starts and however it ends. *)
Definition emits {A : Type} (Q : event -> Prop) (w : World) (p : prog A) : Prop :=
  forall m, exists delta,
    trace_of (run w p m) = (trace (store m) ++ delta)%list /\ Forall Q delta.

(** Setting up: installing the dependencies or fetching the model. *)
Definition is_setup (root : Path) (ev : event) : bool :=
  match ev with
  | EvMkdir _ | EvUrlretrieve _ _ _ => true
  | EvRun cmd _ _ _ _ => cmd_eqb cmd ["bun"; "install"] || cmd_eqb cmd (curl_command root)
  | _ => false
  end.

(** What an event does to the text of the output widget: [insert(END, t)]
    appends, [delete(1.0, END)] empties it. *)
Definition widget_step (text : string) (ev : event) : string :=
  match ev with
  | EvInsert t _ => text ++ t
  | EvDelete => ""
  | _ => text
  end.

(** The text of the output widget after a trace. *)
Definition output_text (tr : list event) : string := fold_left widget_step tr "".

(** The heading of a single execution. *)
Definition heading (label : string) : string :=
  str_repeat "=" 50 ++ NL ++ "  " ++ label ++ NL ++ str_repeat "=" 50 ++ NL ++ NL.

Definition is_delete (ev : event) : bool :=
  match ev with EvDelete => true | _ => false end.

(** * Properties *)

Unset Implicit Arguments.

(** ** Running composed programs *)

Lemma run_bind (A : Type) (p : prog A) :
  forall (B : Type) (f : A -> prog B) (w : World) (m : Machine),
    run w (bind p f) m =
    match run w p m with
    | (Ok a, m') => run w (f a) m'
    | (Exn e, m') => (Exn e, m')
    end.
Proof.
  induction p as [A a | A e | A X e k IH | A t _ k IH]; intros B f w m; simpl.
  - reflexivity.
  - reflexivity.
  - destruct (handle w e (store m)) as [x s']. apply IH.
  - apply IH.
Qed.

Lemma run_try_except (A : Type) (p : prog A) :
  forall (h : exn -> option (prog A)) (w : World) (m : Machine),
    run w (try_except p h) m =
    match run w p m with
    | (Ok a, m') => (Ok a, m')
    | (Exn e, m') =>
        match h e with
        | Some q => run w q m'
        | None => (Exn e, m')
        end
    end.
Proof.
  induction p as [A a | A e | A X e k IH | A t _ k IH]; intros h w m; simpl.
  - reflexivity.
  - destruct (h e); reflexivity.
  - destruct (handle w e (store m)) as [x s']. apply IH.
  - apply IH.
Qed.

Lemma run_ask (X : Type) (e : effect X) (w : World) (m : Machine) :
  run w (ask e) m =
  (Ok (fst (handle w e (store m))), with_store (snd (handle w e (store m))) m).
Proof.
  unfold ask. simpl. destruct (handle w e (store m)); reflexivity.
Qed.

Lemma run_call (X : Type) (e : effect (exn + X)) (w : World) (m : Machine) :
  run w (call e) m =
  (match fst (handle w e (store m)) with inl ex => Exn ex | inr x => Ok x end,
   with_store (snd (handle w e (store m))) m).
Proof.
  unfold call. simpl. destruct (handle w e (store m)) as [[ex | x] s']; reflexivity.
Qed.

(** A request leaves the trace it found and adds at most its own event. *)
Lemma handle_trace (X : Type) (e : effect X) (w : World) (s : Store) :
  exists delta, trace (snd (handle w e s)) = (trace s ++ delta)%list.
Proof.
  destruct e; simpl;
    try (exists []; rewrite app_nil_r; reflexivity);
    try (eexists [_]; reflexivity).
  - destruct (mkdir_error w p); simpl.
    + exists []. rewrite app_nil_r. reflexivity.
    + eexists [_]. reflexivity.
  - unfold subprocess_run_in.
    destruct (behaviour w cmd cwd) as [msg | p]; simpl.
    + eexists [_]. reflexivity.
    + destruct timeout as [t |]; [destruct (t <? duration p)%N |]; simpl;
        eexists [_]; reflexivity.
  - destruct (fetch w url dst); simpl; eexists [_]; reflexivity.
  - destruct (display_error w); simpl.
    + exists []. rewrite app_nil_r. reflexivity.
    + eexists [_]. reflexivity.
Qed.

(** No request changes which paths can be examined. *)
Lemma handle_unreadable (X : Type) (e : effect X) (w : World) (s : Store) :
  unreadable (snd (handle w e s)) = unreadable s.
Proof.
  destruct e; simpl; try reflexivity.
  - destruct (mkdir_error w p); reflexivity.
  - unfold subprocess_run_in.
    destruct (behaviour w cmd cwd) as [msg | p]; simpl; [reflexivity |].
    destruct timeout as [t |]; [destruct (t <? duration p)%N |]; reflexivity.
  - destruct (fetch w url dst); reflexivity.
  - destruct (display_error w); reflexivity.
Qed.

Lemma run_unreadable (A : Type) (p : prog A) :
  forall (w : World) (m : Machine),
    unreadable (store (snd (run w p m))) = unreadable (store m).
Proof.
  induction p as [A a | A e | A X e k IH | A t _ k IH]; intros w m; simpl.
  - reflexivity.
  - reflexivity.
  - pose proof (handle_unreadable X e w (store m)) as H.
    destruct (handle w e (store m)) as [x s']. rewrite IH. exact H.
  - rewrite IH. reflexivity.
Qed.

(** Running a program never rewrites the log: what was done stays done. *)
Lemma run_trace (A : Type) (p : prog A) :
  forall (w : World) (m : Machine),
  exists delta, trace_of (run w p m) = (trace (store m) ++ delta)%list.
Proof.
  unfold trace_of.
  induction p as [A a | A e | A X e k IH | A t _ k IH]; intros w m; simpl.
  - exists []. rewrite app_nil_r. reflexivity.
  - exists []. rewrite app_nil_r. reflexivity.
  - destruct (handle_trace X e w (store m)) as [d1 H1].
    destruct (handle w e (store m)) as [x s']. simpl in H1.
    destruct (IH x w (with_store s' m)) as [d2 H2].
    exists (d1 ++ d2)%list. rewrite H2. simpl. rewrite H1. symmetry. apply app_assoc.
  - destruct (IH w (spawn_thread t m)) as [d H]. exists d. rewrite H. reflexivity.
Qed.

(** ** Reading a longer trace *)

Lemma runs_app (a b : list event) : runs (a ++ b) = (runs a ++ runs b)%list.
Proof.
  induction a as [| ev a IH]; simpl.
  - reflexivity.
  - destruct ev; simpl; rewrite IH; reflexivity.
Qed.

Lemma session_app (a b : list event) :
  session (a ++ b) = (session a ++ session b)%list.
Proof.
  unfold session. rewrite runs_app, filter_app, map_app. reflexivity.
Qed.

Lemma last_status_app (a b : list event) (current : string) :
  last_status (a ++ b) current = last_status b (last_status a current).
Proof.
  revert current. induction a as [| ev a IH]; intros current; simpl.
  - reflexivity.
  - destruct ev; apply IH.
Qed.

Lemma cmd_eqb_eq (c d : list string) : cmd_eqb c d = true <-> c = d.
Proof.
  revert d. induction c as [| x c IH]; intros [| y d]; simpl;
    try (split; [discriminate | discriminate]); try tauto.
  rewrite andb_true_iff, String.eqb_eq, IH.
  split; [intros [-> ->]; reflexivity | intros H; inversion H; auto].
Qed.

Lemma cmd_eqb_refl (c : list string) : cmd_eqb c c = true.
Proof. apply cmd_eqb_eq. reflexivity. Qed.

Lemma is_check_length (cmd : list string) :
  is_check cmd = true -> 3 <= List.length cmd.
Proof.
  unfold is_check, check_commands. simpl.
  rewrite !orb_true_iff, !cmd_eqb_eq.
  intros [-> | [-> | [-> | [-> | H]]]]; simpl; try lia; discriminate.
Qed.

(** A scan event is no run of a check: a probe has two words, a check at
    least three. *)
Lemma scan_no_session (delta : list event) :
  Forall (fun ev => is_scan_event ev = true) delta -> session delta = [].
Proof.
  induction 1 as [| ev delta Hev _ IH]; [reflexivity |].
  change (ev :: delta) with ([ev] ++ delta)%list.
  rewrite session_app, IH, app_nil_r.
  destruct ev; try discriminate; try reflexivity.
  simpl in Hev.
  destruct cmd as [| c1 [| c2 [| c3 cmd]]]; try discriminate.
  unfold session; simpl.
  destruct (is_check [c1; c2]) eqn:Hc; [| reflexivity].
  apply is_check_length in Hc. simpl in Hc. lia.
Qed.

(** ** Console output and probes *)

(** Closes [scanned m'] from the hypotheses about earlier machines. *)
Ltac scan_tac :=
  unfold scanned in *; simpl in *;
  repeat first
    [ assumption
    | apply Forall_nil
    | apply Forall_cons; [reflexivity |]
    | apply Forall_app; split
    | match goal with
      | H : _ -> Forall _ (trace (store ?m)) |- Forall _ (trace (store ?m)) => apply H
      end ].

(** [check_command] never raises, finds the tool exactly when
    [shutil.which] does, and leaves nothing but its probe behind. *)
Lemma check_command_spec (w : World) (name : string) (m : Machine) :
  exists path ver m',
    run w (check_command name "--version") m = (Ok (path, ver), m')
    /\ truthy_opt path = truthy_opt (which w name)
    /\ (scanned m -> scanned m')
    /\ unreadable (store m') = unreadable (store m).
Proof.
  assert (Hun : forall r m',
            run w (check_command name "--version") m = (r, m') ->
            unreadable (store m') = unreadable (store m)).
  { intros r m' H.
    pose proof (run_unreadable _ (check_command name "--version") w m) as Hu.
    rewrite H in Hu. exact Hu. }
  revert Hun. unfold check_command. simpl.
  destruct (which w name) as [p |] eqn:Hw; simpl.
  - destruct (truthy p) eqn:Hp; simpl.
    + unfold subprocess_run_in.
      destruct (behaviour w [p; "--version"] None) as [msg | pr]; simpl.
      * intros Hun. do 3 eexists. split; [reflexivity |]. split; [exact Hp |].
        split; [intros H; scan_tac | eapply Hun; reflexivity].
      * destruct (10 <? duration pr)%N; simpl.
        -- intros Hun. do 3 eexists. split; [reflexivity |]. split; [exact Hp |].
           split; [intros H; scan_tac | eapply Hun; reflexivity].
        -- unfold communicate, read_text.
           destruct (decode w (out_at pr (duration pr))) as [msg1 | out]; simpl;
             [| destruct (decode w (err_at pr (duration pr))) as [msg2 | err]; simpl];
             (intros Hun; do 3 eexists; split; [reflexivity |]; split; [exact Hp |];
              split; [intros H; scan_tac | eapply Hun; reflexivity]).
    + intros Hun. do 3 eexists. split; [reflexivity |]. split; [simpl; auto |].
      split; [auto | reflexivity].
  - intros Hun. do 3 eexists. split; [reflexivity |]. split; [reflexivity |].
    split; [auto | reflexivity].
Qed.

#[local] Arguments check_command : simpl never.

(** One probe of [check_prerequisites]. *)
Ltac probe w :=
  rewrite run_bind;
  match goal with
  | |- context [run w (check_command ?n _) ?m] =>
      let p := fresh "path" in
      let v := fresh "ver" in
      let m' := fresh "m" in
      let Hr := fresh "Hrun" in
      let Ht := fresh "Hpath" in
      let Hs := fresh "Hscan" in
      let Hu := fresh "Hbad" in
      destruct (check_command_spec w n m) as (p & v & m' & Hr & Ht & Hs & Hu);
      rewrite Hr; clear Hr; cbv beta iota; rewrite Ht; clear Ht;
      cbn in Hu
  end.

(** [check_prerequisites] returns whether rustc, cargo and bun were all
    found, unless the model's path cannot be examined: then the error of
    [exists()] leaves it.  Node and the model file only change what is
    printed. *)
Lemma check_prerequisites_spec (root : Path) (w : World) (m : Machine) :
  exists m',
    run w (check_prerequisites root) m =
    (match stat_error (store m) (VAD_MODEL_PATH root) with
     | Some msg => Exn (OSError msg)
     | None => Ok (tools_present w)
     end, m')
    /\ (scanned m -> scanned m').
Proof.
  unfold check_prerequisites, tools_present, stat_error.
  rewrite run_bind. cbn.
  probe w. destruct (truthy_opt (which w "rustc")); cbn;
  (probe w; destruct (truthy_opt (which w "cargo")); cbn;
   (probe w; destruct (truthy_opt (which w "bun")); cbn;
    (probe w; destruct (truthy_opt (which w "node")); cbn;
     (unfold path_exists, path_stat, stat_error, file_exists; cbn;
      repeat match goal with
             | H : unreadable (store ?a) = _ |- context [unreadable (store ?a)] =>
                 rewrite H
             end;
      destruct (existsb (path_eqb (VAD_MODEL_PATH root)) (unreadable (store m)))
        eqn:Ebad;
      cbn;
      [| match goal with
         | |- context [existsb ?f (files ?s)] =>
             destruct (existsb f (files s)) eqn:Efile
         end; cbn;
         unfold path_stat, stat_error, file_exists; cbn;
         repeat match goal with
                | H : unreadable (store ?a) = _ |- context [unreadable (store ?a)] =>
                    rewrite H
                end;
         rewrite ?Ebad, ?Efile; cbn ];
      (eexists; split; [reflexivity | intros H; scan_tac]))))).
Qed.

Lemma prints_only_refl (m : Machine) : prints_only m m.
Proof.
  split; [exists []; split; [symmetry; apply app_nil_r | constructor]
         | split; reflexivity].
Qed.

Lemma prints_only_trans (m1 m2 m3 : Machine) :
  prints_only m1 m2 -> prints_only m2 m3 -> prints_only m1 m3.
Proof.
  intros [(d1 & H1 & D1) [F1 P1]] [(d2 & H2 & D2) [F2 P2]].
  split; [| split; congruence].
  exists (d1 ++ d2)%list. split.
  - rewrite H2, H1, app_assoc. reflexivity.
  - apply Forall_app. split; assumption.
Qed.

(** Closes [prints_only m m'] when [m'] is [m] with prints logged on top. *)
Ltac prints_tac :=
  split;
  [ eexists; split;
    [ cbn; rewrite <- ?app_assoc; cbn; reflexivity
    | repeat (constructor; try reflexivity) ]
  | split; reflexivity ].

(** The summary loop is a conjunction: it returns [false] as soon as one
    entry is. *)
Lemma summary_loop_spec (w : World) (items : list (string * bool)) :
  forall (acc : bool) (m : Machine),
  exists m',
    run w (summary_loop items acc) m = (Ok (acc && forallb snd items), m')
    /\ prints_only m m'.
Proof.
  induction items as [| [name passed] items IH]; intros acc m; simpl.
  - exists m. rewrite andb_true_r. split; [reflexivity | apply prints_only_refl].
  - destruct passed; simpl.
    + match goal with
      | |- context [run w (summary_loop items acc) ?m0] =>
          destruct (IH acc m0) as (m' & Hrun & Hp)
      end.
      exists m'. split; [exact Hrun |].
      eapply prints_only_trans; [| exact Hp]. prints_tac.
    + match goal with
      | |- context [run w (summary_loop items false) ?m0] =>
          destruct (IH false m0) as (m' & Hrun & Hp)
      end.
      exists m'. rewrite andb_false_r. split; [exact Hrun |].
      eapply prints_only_trans; [| exact Hp]. prints_tac.
Qed.

#[local] Arguments summary_loop : simpl never.

(** The summary of a batch run returns the conjunction of the entries. *)
Lemma test_summary_spec (w : World) (results : dict) (m : Machine) :
  exists m',
    run w (test_summary results) m = (Ok (forallb snd results), m')
    /\ prints_only m m'.
Proof.
  unfold test_summary. rewrite run_bind. cbn. rewrite run_bind.
  match goal with
  | |- context [run w (summary_loop results true) ?m0] =>
      destruct (summary_loop_spec w results true m0) as (m1 & Hrun & Hp);
      assert (Hp0 : prints_only m m0) by prints_tac
  end.
  rewrite Hrun. cbn.
  destruct (forallb snd results); cbn; (eexists; split; [reflexivity |]);
    (eapply prints_only_trans; [exact Hp0 |]);
    (eapply prints_only_trans; [exact Hp |]); prints_tac.
Qed.


Lemma runs_prints (delta : list event) :
  Forall (fun ev => is_print ev = true) delta -> runs delta = [].
Proof.
  induction 1 as [| ev delta Hev _ IH]; [reflexivity |].
  destruct ev; try discriminate. exact IH.
Qed.

Lemma prints_only_runs (m m' : Machine) :
  prints_only m m' -> runs (trace (store m')) = runs (trace (store m)).
Proof.
  intros [(delta & H & Hd) _]. rewrite H, runs_app, (runs_prints _ Hd).
  apply app_nil_r.
Qed.

(** The session is read off the calls. *)
Lemma session_of_runs (tr tr' : list event)
    (calls : list (list string * option Path * run_end)) :
  runs tr' = (runs tr ++ calls)%list ->
  session tr' =
  (session tr ++ map (fun r => (fst (fst r), snd r))
                     (filter (fun r => is_check (fst (fst r))) calls))%list.
Proof.
  intros H. unfold session. rewrite H, filter_app, map_app. reflexivity.
Qed.

Lemma scanned_session (m : Machine) : scanned m -> session (trace (store m)) = [].
Proof. apply scan_no_session. Qed.

(** ** The batch runners *)

#[local] Arguments runs : simpl never.

Ltac runner_tac :=
  cbn; unfold subprocess_run_in;
  match goal with
  | |- context [behaviour ?w ?c ?d] => destruct (behaviour w c d)
  end;
  cbn;
  try match goal with
      | |- context [(exit_code ?p =? 0)%Z] => destruct (exit_code p =? 0)%Z; cbn
      end;
  (eexists; split; [reflexivity |]);
  cbn; rewrite !runs_app; unfold runs; cbn; rewrite ?app_nil_r; reflexivity.

(** Each runner makes one call, in its own directory, and returns whether
    the exit code was 0; when the call cannot be made it raises. *)
Lemma run_rust_tests_spec (root : Path) (w : World) (m : Machine) :
  let cmd := ["cargo"; "test"; "--lib"] in
  let b := behaviour w cmd (Some (SRC_TAURI root)) in
  exists m',
    run w (run_rust_tests root) m = (runner_result b, m')
    /\ runs (trace (store m')) =
       (runs (trace (store m)) ++ [(cmd, Some (SRC_TAURI root), runner_end b)])%list.
Proof. unfold run_rust_tests. runner_tac. Qed.

Lemma run_frontend_lint_spec (root : Path) (w : World) (m : Machine) :
  let cmd := ["bun"; "run"; "lint"] in
  let b := behaviour w cmd (Some root) in
  exists m',
    run w (run_frontend_lint root) m = (runner_result b, m')
    /\ runs (trace (store m')) =
       (runs (trace (store m)) ++ [(cmd, Some root, runner_end b)])%list.
Proof. unfold run_frontend_lint. runner_tac. Qed.

Lemma run_type_check_spec (root : Path) (w : World) (m : Machine) :
  let cmd := ["bun"; "x"; "tsc"; "--noEmit"] in
  let b := behaviour w cmd (Some root) in
  exists m',
    run w (run_type_check root) m = (runner_result b, m')
    /\ runs (trace (store m')) =
       (runs (trace (store m)) ++ [(cmd, Some root, runner_end b)])%list.
Proof. unfold run_type_check. runner_tac. Qed.

Lemma run_format_check_spec (root : Path) (w : World) (m : Machine) :
  let cmd := ["bun"; "run"; "format:check"] in
  let b := behaviour w cmd (Some root) in
  exists m',
    run w (run_format_check root) m = (runner_result b, m')
    /\ runs (trace (store m')) =
       (runs (trace (store m)) ++ [(cmd, Some root, runner_end b)])%list.
Proof. unfold run_format_check. runner_tac. Qed.

#[local] Arguments run_rust_tests : simpl never.
#[local] Arguments run_frontend_lint : simpl never.
#[local] Arguments run_type_check : simpl never.
#[local] Arguments run_format_check : simpl never.
#[local] Arguments test_summary : simpl never.
#[local] Arguments run_all_tests : simpl never.
#[local] Arguments check_prerequisites : simpl never.

(** One runner of [run_all_tests]: its specification gives the machine it
    leaves and the call it added. *)
Ltac runner_step spec root w :=
  rewrite run_bind;
  match goal with
  | |- context [run w _ ?m0] =>
      let m' := fresh "m" in
      let Hr := fresh "Hrun" in
      let Hs := fresh "Hcall" in
      destruct (spec root w m0) as (m' & Hr & Hs);
      cbv zeta in Hr, Hs; rewrite Hr; clear Hr
  end.

(** The batch run over commands that can all be started. *)
Lemma run_all_tests_spec (root : Path) (w : World) (m : Machine) (p1 p2 p3 p4 : Process) :
  behaviour w ["cargo"; "test"; "--lib"] (Some (SRC_TAURI root)) = Runs p1 ->
  behaviour w ["bun"; "run"; "lint"] (Some root) = Runs p2 ->
  behaviour w ["bun"; "x"; "tsc"; "--noEmit"] (Some root) = Runs p3 ->
  behaviour w ["bun"; "run"; "format:check"] (Some root) = Runs p4 ->
  exists m',
    run w (run_all_tests root) m =
      (Ok ((exit_code p1 =? 0)%Z && (exit_code p2 =? 0)%Z
           && (exit_code p3 =? 0)%Z && (exit_code p4 =? 0)%Z), m')
    /\ runs (trace (store m')) =
       (runs (trace (store m)) ++ batch_calls root p1 p2 p3 p4)%list.
Proof.
  intros H1 H2 H3 H4. unfold run_all_tests.
  rewrite run_bind. cbn.
  runner_step run_rust_tests_spec root w. rewrite H1 in *. cbn.
  runner_step run_frontend_lint_spec root w. rewrite H2 in *. cbn.
  runner_step run_type_check_spec root w. rewrite H3 in *. cbn.
  runner_step run_format_check_spec root w. rewrite H4 in *. cbn.
  match goal with
  | |- context [run w (test_summary ?r) ?m0] =>
      destruct (test_summary_spec w r m0) as (m' & Hrun & Hp)
  end.
  exists m'. split.
  - rewrite Hrun. cbn. rewrite andb_true_r, !andb_assoc. reflexivity.
  - rewrite (prints_only_runs _ _ Hp), Hcall2, Hcall1, Hcall0, Hcall.
    cbn [trace store with_store log runner_end].
    rewrite !runs_app. unfold runs at 2 3 4. cbn.
    rewrite ?app_nil_r, <- !app_assoc. reflexivity.
Qed.

(** The start of [main]: the banner and the prerequisite gate. *)
Lemma main_gate (root : Path) (w : World) (fs : list Path) (args : Args)
    (modes : prog unit) :
  exists m1,
    scanned m1
    /\ run w (print (NL ++ C.BOLD ++ C.CYAN ++ "  Voice Input v0.8.0 -- Launcher" ++ C.END) ;;
              (if negb (skip_checks args)
               then ready <- check_prerequisites root ;;
                    if negb ready
                    then err "Missing prerequisites. Install them and try again." ;;
                         sys_exit 1
                    else Ret tt
               else Ret tt) ;;
              modes) (boot fs)
       = if negb (skip_checks args) && negb (tools_present w)
         then (Exn (SystemExit 1), m1)
         else run w modes m1.
Proof.
  rewrite run_bind. cbn.
  match goal with
  | |- context [run w _ ?m0] => assert (H0 : scanned m0) by scan_tac
  end.
  rewrite run_bind.
  destruct (skip_checks args); cbn.
  - eexists. split; [exact H0 | reflexivity].
  - rewrite run_bind.
    match goal with
    | |- context [run w (check_prerequisites root) ?m0] =>
        destruct (check_prerequisites_spec root w m0) as (m1 & Hrun & Hs)
    end.
    rewrite Hrun. destruct (tools_present w); cbn.
    + exists m1. split; [apply Hs, H0 | reflexivity].
    + eexists. split; [| reflexivity]. specialize (Hs H0). scan_tac.
Qed.

(** Runs [main] up to the choice of the mode. *)
Ltac enter_main root w fs args :=
  unfold main;
  match goal with
  | |- context [run w (bind _ (fun _ => bind _ (fun _ => ?modes))) (boot fs)] =>
      let m1 := fresh "m" in
      let Hs := fresh "Hscan" in
      let Hrun := fresh "Hrun" in
      destruct (main_gate root w fs args modes) as (m1 & Hs & Hrun);
      rewrite Hrun; clear Hrun
  end.

(** ** Batch mode *)

(** C1 (amended). With --test and without --test-rust, once the
    prerequisite gate is passed or skipped and the four commands can be
    started, the four checks run in their order and the exit code is 0
    exactly when each of them exited with 0, else 1. *)
Theorem test_mode_exit_code (root : Path) (w : World) (fs : list Path) (args : Args)
    (p1 p2 p3 p4 : Process) :
  test args = true ->
  test_rust args = false ->
  skip_checks args = true \/ tools_present w = true ->
  behaviour w ["cargo"; "test"; "--lib"] (Some (SRC_TAURI root)) = Runs p1 ->
  behaviour w ["bun"; "run"; "lint"] (Some root) = Runs p2 ->
  behaviour w ["bun"; "x"; "tsc"; "--noEmit"] (Some root) = Runs p3 ->
  behaviour w ["bun"; "run"; "format:check"] (Some root) = Runs p4 ->
  test_mode_contract root w fs args.
Proof.
  intros Ht Hr Hgate H1 H2 H3 H4. unfold test_mode_contract. cbv zeta.
  enter_main root w fs args.
  replace (negb (skip_checks args) && negb (tools_present w)) with false
    by (destruct Hgate as [-> | ->]; [reflexivity | apply eq_sym, andb_false_r]).
  rewrite Hr, Ht. rewrite run_bind.
  destruct (run_all_tests_spec root w m p1 p2 p3 p4 H1 H2 H3 H4) as (m' & Hrun & Hcalls).
  rewrite Hrun. apply session_of_runs in Hcalls.
  rewrite (scanned_session _ Hscan) in Hcalls. cbn in Hcalls.
  unfold executed, all_passed, trace_of. cbn [run fst snd sys_exit process_exit].
  rewrite Hcalls. cbn.
  destruct (exit_code p1 =? 0)%Z, (exit_code p2 =? 0)%Z,
           (exit_code p3 =? 0)%Z, (exit_code p4 =? 0)%Z; cbn;
    (split; [reflexivity |]); (split; [| auto]);
    (split; [intros H; try reflexivity; discriminate H
            | intros H; try reflexivity; discriminate H]).
Qed.

Lemma test_mode_exit_code_witness :
  test_mode_contract Example.root Example.unformatted [] Example.test_args.
Proof.
  apply (test_mode_exit_code Example.root Example.unformatted [] Example.test_args
           (Example.quick 0) (Example.quick 0) (Example.quick 0) (Example.quick 1));
    first [reflexivity | right; reflexivity].
Defined.

(** C1, as it is worded, fails where nothing is installed: --test is
    given, no check runs, every check of the (empty) session passed, and the
    exit code is 1. *)
Lemma test_mode_counterexample :
  test Example.test_args = true
  /\ ~ test_mode_contract Example.root Example.bare [] Example.test_args.
Proof.
  split; [reflexivity |].
  intros (Hexec & _). vm_compute in Hexec. discriminate Hexec.
Qed.

(** C10. Without --skip-checks, a missing rustc, cargo or bun ends the
    process with exit code 1 at the gate: all that has happened by then is
    console output and version probes, and no check was called. *)
Theorem missing_tool_exits_before_any_mode (root : Path) (w : World)
    (fs : list Path) (args : Args) :
  skip_checks args = false ->
  which w "rustc" = None \/ which w "cargo" = None \/ which w "bun" = None ->
  let r := run w (main root args) (boot fs) in
  process_exit (fst r) = ExitCode 1
  /\ Forall (fun ev => is_scan_event ev = true) (trace_of r)
  /\ session (trace_of r) = []
  /\ all_passed (trace_of r) = true.
Proof.
  intros Hskip Hmiss. cbv zeta.
  enter_main root w fs args.
  assert (Ht : tools_present w = false).
  { unfold tools_present.
    destruct Hmiss as [-> | [-> | ->]]; cbn;
      rewrite ?andb_false_r; reflexivity. }
  rewrite Hskip, Ht. cbn. unfold trace_of, all_passed. cbn.
  rewrite (scanned_session _ Hscan). repeat split. exact Hscan.
Qed.

Lemma missing_tool_witness :
  let r := run Example.no_bun (main Example.root Example.test_args) (boot []) in
  process_exit (fst r) = ExitCode 1
  /\ Forall (fun ev => is_scan_event ev = true) (trace_of r)
  /\ session (trace_of r) = []
  /\ all_passed (trace_of r) = true.
Proof.
  apply (missing_tool_exits_before_any_mode Example.root Example.no_bun []
           Example.test_args).
  - reflexivity.
  - right. right. reflexivity.
Defined.

(** C4 (amended). In a batch run whose four commands can be started, each
    check is called, in order, and ends with its own exit code, whatever
    the exit codes of the others; the run returns whether all were 0. *)
Theorem batch_failure_does_not_cancel (root : Path) (w : World) (fs : list Path)
    (p1 p2 p3 p4 : Process) :
  behaviour w ["cargo"; "test"; "--lib"] (Some (SRC_TAURI root)) = Runs p1 ->
  behaviour w ["bun"; "run"; "lint"] (Some root) = Runs p2 ->
  behaviour w ["bun"; "x"; "tsc"; "--noEmit"] (Some root) = Runs p3 ->
  behaviour w ["bun"; "run"; "format:check"] (Some root) = Runs p4 ->
  batch_runs_every_check root w fs
  /\ runs (trace_of (run w (run_all_tests root) (boot fs)))
     = batch_calls root p1 p2 p3 p4
  /\ fst (run w (run_all_tests root) (boot fs))
     = Ok ((exit_code p1 =? 0)%Z && (exit_code p2 =? 0)%Z
           && (exit_code p3 =? 0)%Z && (exit_code p4 =? 0)%Z).
Proof.
  intros H1 H2 H3 H4.
  destruct (run_all_tests_spec root w (boot fs) p1 p2 p3 p4 H1 H2 H3 H4)
    as (m' & Hrun & Hcalls).
  unfold batch_runs_every_check, result_as_data, trace_of. cbv zeta.
  rewrite Hrun. cbn [fst snd]. cbn in Hcalls.
  repeat split.
  - unfold session. rewrite Hcalls. reflexivity.
  - eexists. reflexivity.
  - exact Hcalls.
Qed.

Lemma batch_failure_does_not_cancel_witness :
  batch_runs_every_check Example.root Example.unformatted []
  /\ fst (run Example.unformatted (run_all_tests Example.root) (boot [])) = Ok false.
Proof.
  destruct (batch_failure_does_not_cancel Example.root Example.unformatted []
              (Example.quick 0) (Example.quick 0) (Example.quick 0) (Example.quick 1)
              eq_refl eq_refl eq_refl eq_refl) as (H & _ & Hres).
  split; [exact H | exact Hres].
Defined.

(** C4, as it is worded, fails when cargo cannot be started: the batch run
    ends in the exception and the three other checks are never called. *)
Lemma batch_counterexample :
  ~ batch_runs_every_check Example.root Example.no_cargo [].
Proof.
  intros (Hcalls & _). vm_compute in Hcalls. discriminate Hcalls.
Qed.

(** C3, as it is worded, fails for the batch runner: when cargo cannot be
    started the call ends in [OSError], not in a result. *)
Lemma spawn_error_counterexample :
  fst (run Example.no_cargo (run_rust_tests Example.root) (boot []))
  = Exn (OSError "[Errno 2] No such file or directory: 'cargo'")
  /\ ~ result_as_data Example.no_cargo (run_rust_tests Example.root) (boot []).
Proof.
  split; [vm_compute; reflexivity |].
  intros [b Hb]. vm_compute in Hb. discriminate Hb.
Qed.


(** ** Executions from the dashboard *)

Lemma string_app_assoc (a b c : string) : ((a ++ b) ++ c)%string = (a ++ b ++ c)%string.
Proof. induction a as [| x a IH]; simpl; [reflexivity | rewrite IH; reflexivity]. Qed.

#[local] Arguments translate_newlines : simpl never.

(** What one execution from the dashboard does, for every behaviour of its
    command: it never raises, and its log is the heading, the call, the
    streams of a call that completed and could be decoded, and one
    verdict. *)
Lemma wrapper_spec (root : Path) (w : World) (m : Machine) (func : list string)
    (label : string) :
  let cwd := Some (dashboard_cwd root func) in
  let b := behaviour w func cwd in
  exists m',
    run w (wrapper root func label) m = (Ok tt, m')
    /\ trace (store m') =
       (trace (store m) ++ announce label
        ++ [EvRun func cwd true (Some 300%N) (ending_of 300 b)]
        ++ streams w 300 b ++ report label (outcome w 300 b))%list
    /\ pool m' = pool m.
Proof.
  cbv zeta. unfold wrapper, dashboard_cwd.
  destruct (str_in "cargo" func); cbn -[str_repeat String.append];
    unfold subprocess_run_in;
    (destruct (behaviour w func _) as [msg | p]; cbn -[str_repeat String.append];
     [| destruct (300 <? duration p)%N eqn:Hd; cbn -[str_repeat String.append];
        [| unfold communicate, read_text;
           destruct (decode w (out_at p (duration p))) as [msg1 | out];
           [| destruct (decode w (err_at p (duration p))) as [msg2 | err] ];
           cbn -[str_repeat String.append];
           [ | | unfold write_stream, shown; cbn -[str_repeat String.append];
                 destruct (truthy (translate_newlines out));
                 destruct (truthy (translate_newlines err));
                 cbn -[str_repeat String.append];
                 destruct (exit_code p =? 0)%Z; cbn -[str_repeat String.append] ] ]]);
    (eexists; split; [reflexivity |]; split; [| reflexivity]);
    cbn -[str_repeat String.append]; rewrite <- ?app_assoc; cbn -[str_repeat String.append];
    rewrite ?string_app_assoc; reflexivity.
Qed.

(** The loop of "Run All Checks" calls every check of its list in order
    and records a verdict for each, whatever the others did. *)
Lemma run_all_loop_spec (root : Path) (w : World) (cs : list (string * list string)) :
  forall (results : dict) (m : Machine),
  exists m',
    run w (run_all_loop root cs results) m = (Ok (record_all root w cs results), m')
    /\ runs (trace (store m')) =
       (runs (trace (store m)) ++ map (fun c => dashboard_call root w (snd c)) cs)%list
    /\ pool m' = pool m.
Proof.
  induction cs as [| [label cmd] cs IH]; intros results m.
  - exists m. cbn. rewrite app_nil_r. auto.
  - unfold record_all, passed_in_time, dashboard_call, dashboard_cwd in *.
    cbn -[str_repeat String.append runs str_in]. unfold subprocess_run_in.
    destruct (str_in "cargo" cmd);
      (destruct (behaviour w cmd _) as [msg | p]; cbn -[str_repeat String.append runs];
       [| destruct (300 <? duration p)%N; cbn -[str_repeat String.append runs];
          [| unfold communicate, read_text;
             destruct (decode w (out_at p (duration p))) as [msg1 | out];
             [| destruct (decode w (err_at p (duration p))) as [msg2 | err] ];
             cbn -[str_repeat String.append runs];
             [ | | unfold write_stream; cbn -[str_repeat String.append runs];
                   destruct (truthy (translate_newlines out));
                   destruct (truthy (translate_newlines err));
                   cbn -[str_repeat String.append runs];
                   destruct (exit_code p =? 0)%Z;
                   cbn -[str_repeat String.append runs] ] ]]);
      match goal with
      | |- context [run w (run_all_loop root cs ?r) ?m0] =>
          destruct (IH r m0) as (m' & Hrun & Hruns & Hpool)
      end;
      (exists m'; split; [exact Hrun |]; split; [| exact Hpool]);
      rewrite Hruns; cbn -[str_repeat String.append runs];
      rewrite !runs_app; cbn; rewrite ?app_nil_r, <- ?app_assoc; reflexivity.
Qed.

(** The report loop only writes to the window. *)
Lemma report_loop_spec (w : World) (items : list (string * bool)) :
  forall m : Machine,
  exists m',
    run w (report_loop items) m = (Ok tt, m')
    /\ runs (trace (store m')) = runs (trace (store m))
    /\ pool m' = pool m.
Proof.
  induction items as [| [label passed] items IH]; intros m.
  - exists m. auto.
  - cbn -[String.append runs]. destruct passed; cbn -[String.append runs];
      match goal with
      | |- context [run w (report_loop items) ?m0] =>
          destruct (IH m0) as (m' & Hrun & Hruns & Hpool)
      end;
      (exists m'; split; [exact Hrun |]; split; [| exact Hpool]);
      rewrite Hruns; cbn -[String.append runs]; rewrite runs_app; cbn;
      apply app_nil_r.
Qed.

#[local] Arguments run_all_loop : simpl never.
#[local] Arguments report_loop : simpl never.

(** "Run All Checks" as a whole: the calls of the loop, and the status line
    of the aggregate. *)
Lemma run_all_thread_on_spec (root : Path) (w : World) (cs : list (string * list string))
    (m : Machine) :
  exists m',
    run w (run_all_thread_on root cs) m = (Ok tt, m')
    /\ runs (trace (store m')) =
       (runs (trace (store m)) ++ map (fun c => dashboard_call root w (snd c)) cs)%list
    /\ (forall current,
          last_status (trace (store m')) current =
          all_checks_status (py_all (dict_values (record_all root w cs []))))
    /\ pool m' = pool m.
Proof.
  unfold run_all_thread_on. rewrite run_bind.
  destruct (run_all_loop_spec root w cs [] m) as (m1 & Hrun1 & Hruns1 & Hpool1).
  rewrite Hrun1. cbn -[str_repeat String.append runs last_status].
  rewrite run_bind.
  match goal with
  | |- context [run w (report_loop ?r) ?m0] =>
      destruct (report_loop_spec w r m0) as (m2 & Hrun2 & Hruns2 & Hpool2)
  end.
  rewrite Hrun2. cbn -[str_repeat String.append runs last_status] in *.
  rewrite !runs_app in Hruns2. cbn in Hruns2. rewrite !app_nil_r in Hruns2.
  destruct (py_all (dict_values (record_all root w cs [])));
    cbn -[str_repeat String.append runs last_status];
    (eexists; split; [reflexivity |]);
    cbn -[str_repeat String.append runs last_status];
    (split; [rewrite !runs_app; cbn; rewrite !app_nil_r; congruence |]);
    (split; [intros current; rewrite !last_status_app; reflexivity | congruence]).
Qed.

(** ** Threads of the dashboard *)

Lemma nth_error_last {X : Type} (l : list X) (y : X) :
  nth_error (l ++ [y]) (List.length l) = Some y.
Proof. induction l as [| x l IH]; [reflexivity | exact IH]. Qed.

Lemma set_nth_last {X : Type} (l : list X) (x y : X) :
  Dashboard.set_nth (List.length l) x (l ++ [y]) = (l ++ [x])%list.
Proof. induction l as [| z l IH]; [reflexivity | simpl; rewrite IH; reflexivity]. Qed.

Lemma in_flight_app (l1 l2 : list (prog unit)) :
  Dashboard.in_flight (l1 ++ l2) = (Dashboard.in_flight l1 ++ Dashboard.in_flight l2)%list.
Proof.
  induction l1 as [| t l1 IH]; simpl; [reflexivity |].
  destruct (Dashboard.waiting_for t); rewrite IH; reflexivity.
Qed.

(** The thread started last performs its next request. *)
Lemma step_last (w : World) (s : Store) (l : list (prog unit)) (X : Type)
    (e : effect X) (k : X -> prog unit) :
  Dashboard.step_thread w (List.length l) {| store := s; pool := (l ++ [Vis e k])%list |} =
  Some {| store := snd (handle w e s); pool := (l ++ [k (fst (handle w e s))])%list |}.
Proof.
  unfold Dashboard.step_thread. cbn [pool store]. rewrite nth_error_last.
  destruct (handle w e s) as [x s']. rewrite set_nth_last. reflexivity.
Qed.

(** Pressing the button of a check and letting the new thread write its
    heading puts one more child process in flight. *)
Lemma click_check_button (root : Path) (w : World) (m : Machine) (label : string)
    (cmd : list string) :
  In (label, cmd) buttons ->
  exists m',
    Dashboard.exec root w
      (Dashboard.Click label :: repeat (Dashboard.Step (List.length (pool m))) 5) m = Some m'
    /\ Dashboard.in_flight (pool m') = (Dashboard.in_flight (pool m) ++ [cmd])%list.
Proof.
  intros Hin. unfold buttons in Hin. simpl in Hin.
  destruct Hin as [H | [H | [H | [H | []]]]]; inversion H; subst; clear H;
    cbn -[String.append str_repeat Dashboard.step_thread];
    unfold spawn_thread; cbn -[String.append str_repeat Dashboard.step_thread];
    do 5 (rewrite step_last; cbn -[String.append str_repeat Dashboard.step_thread]);
    (eexists; split; [reflexivity |]);
    cbn [pool]; rewrite in_flight_app; reflexivity.
Qed.


(** ** Fetching the model, case by case *)

Lemma with_store_same (m : Machine) : with_store (store m) m = m.
Proof. destruct m; reflexivity. Qed.

(** The file is there: nothing happens. *)
Lemma download_present (root : Path) (w : World) (m : Machine) :
  path_exists (store m) (VAD_MODEL_PATH root) = inr true ->
  run w (download_vad_model root) m = (Ok true, m).
Proof.
  intros H. unfold download_vad_model. rewrite run_bind, run_call.
  cbn [handle fst snd]. rewrite H, with_store_same. reflexivity.
Qed.

(** ** Working directories *)

Lemma runs_streams (w : World) (timeout : N) (b : Behaviour) :
  runs (streams w timeout b) = [].
Proof.
  destruct b as [msg | p]; [reflexivity |]. unfold streams, shown.
  destruct (timeout <? duration p)%N; [reflexivity |].
  destruct (communicate w true p) as [e | [out err]]; [reflexivity |].
  destruct (truthy (text_of out)), (truthy (text_of err)); reflexivity.
Qed.

Lemma runs_report (label : string) (r : CommandResult) : runs (report label r) = [].
Proof. destruct r; reflexivity. Qed.

(** The one call of an execution from the dashboard. *)
Lemma wrapper_runs (root : Path) (w : World) (m : Machine) (func : list string)
    (label : string) :
  runs (trace_of (run w (wrapper root func label) m)) =
  (runs (trace (store m)) ++ [dashboard_call root w func])%list.
Proof.
  destruct (wrapper_spec root w m func label) as (m' & Hrun & Htr & _).
  unfold trace_of. rewrite Hrun. cbn [snd]. rewrite Htr.
  rewrite !runs_app, runs_streams, runs_report. reflexivity.
Qed.

Lemma SRC_TAURI_differs (root : Path) : SRC_TAURI root <> root.
Proof.
  unfold SRC_TAURI, path_div. intros H.
  apply (f_equal (@List.length string)) in H.
  rewrite length_app in H. simpl in H. lia.
Qed.

(** C2 (amended). The dashboard computes the working directory of a call
    from the command: src-tauri when "cargo" is one of its words, the
    project root otherwise; each batch runner passes its own directory.
    Either way the Rust tests run in src-tauri, the other checks in the
    project root, and the two differ. *)
Theorem working_directory_of_a_check (root : Path) (w : World) (m : Machine) :
  (forall func label,
     cwds (trace_of (run w (wrapper root func label) m)) =
     (cwds (trace (store m))
      ++ [Some (if str_in "cargo" func then SRC_TAURI root else root)])%list)
  /\ (forall cs results,
        cwds (trace_of (run w (run_all_loop root cs results) m)) =
        (cwds (trace (store m))
         ++ map (fun c => Some (if str_in "cargo" (snd c) then SRC_TAURI root else root))
                cs)%list)
  /\ map (fun c => (fst c, dashboard_cwd root (snd c))) buttons =
     [ ("Run Rust Tests", SRC_TAURI root); ("Lint Frontend", root);
       ("Type Check", root); ("Format Check", root) ]
  /\ map (fun c => (fst c, dashboard_cwd root (snd c))) checks =
     [ ("Rust Tests", SRC_TAURI root); ("Frontend Lint", root); ("Type Check", root) ]
  /\ cwds (trace_of (run w (run_rust_tests root) (boot []))) = [Some (SRC_TAURI root)]
  /\ cwds (trace_of (run w (run_frontend_lint root) (boot []))) = [Some root]
  /\ cwds (trace_of (run w (run_type_check root) (boot []))) = [Some root]
  /\ cwds (trace_of (run w (run_format_check root) (boot []))) = [Some root]
  /\ SRC_TAURI root <> root.
Proof.
  split; [| split; [| split; [| split; [| split; [| split; [| split; [| split]]]]]]].
  - intros func label. unfold cwds. rewrite wrapper_runs, map_app. reflexivity.
  - intros cs results. unfold cwds, trace_of.
    destruct (run_all_loop_spec root w cs results m) as (m' & Hrun & Hruns & _).
    rewrite Hrun. cbn [snd]. rewrite Hruns, map_app, map_map. reflexivity.
  - reflexivity.
  - reflexivity.
  - destruct (run_rust_tests_spec root w (boot [])) as (m' & Hrun & Hcall).
    unfold cwds, trace_of. rewrite Hrun. cbn [snd]. rewrite Hcall. reflexivity.
  - destruct (run_frontend_lint_spec root w (boot [])) as (m' & Hrun & Hcall).
    unfold cwds, trace_of. rewrite Hrun. cbn [snd]. rewrite Hcall. reflexivity.
  - destruct (run_type_check_spec root w (boot [])) as (m' & Hrun & Hcall).
    unfold cwds, trace_of. rewrite Hrun. cbn [snd]. rewrite Hcall. reflexivity.
  - destruct (run_format_check_spec root w (boot [])) as (m' & Hrun & Hcall).
    unfold cwds, trace_of. rewrite Hrun. cbn [snd]. rewrite Hcall. reflexivity.
  - apply SRC_TAURI_differs.
Qed.

(** C2, as it is worded, fails: with the same label, one more word in the
    command moves the check to another directory. *)
Lemma working_directory_counterexample :
  ~ cwd_not_from_command Example.root Example.bare "Lint Frontend"
      ["bun"; "run"; "lint"] ["bun"; "run"; "lint"; "cargo"].
Proof.
  unfold cwd_not_from_command. intros H. vm_compute in H. discriminate H.
Qed.

(** ** One check from the dashboard *)

(** A check of "Run All Checks" whose call raised for want of a process
    or of decodable output shows the error's text in red. *)
Lemma run_all_loop_error_line (root : Path) (w : World) (m : Machine)
    (label : string) (func : list string) (results : dict) (cause : string) :
  let b := behaviour w func (Some (dashboard_cwd root func)) in
  outcome w 300 b = SpawnError cause \/ outcome w 300 b = DecodeError cause ->
  In (EvInsert ("Error: " ++ cause ++ NL) (Some "red"))
     (trace_of (run w (run_all_loop root [(label, func)] results) m)).
Proof.
  cbv zeta. unfold outcome, dashboard_cwd, trace_of, communicate, read_text.
  unfold run_all_loop.
  cbn -[str_repeat String.append str_in]. unfold subprocess_run_in.
  unfold communicate, read_text.
  destruct (str_in "cargo" func);
    (destruct (behaviour w func _) as [msg | p];
     [| destruct (300 <? duration p)%N;
        [| destruct (decode w (out_at p (duration p))) as [msg1 | out];
           [| destruct (decode w (err_at p (duration p))) as [msg2 | err] ] ] ]);
    cbn -[str_repeat String.append];
    intros [H | H]; try discriminate H;
    try (destruct (exit_code p =? 0)%Z; discriminate H);
    injection H as <-;
    rewrite <- ?app_assoc; apply in_or_app; right;
    cbn -[str_repeat String.append]; rewrite ?string_app_assoc; auto 10.
Qed.

(** C3 (amended). An execution started from the dashboard never raises
    and ends in exactly one verdict, written to the window: passed, failed
    with the exit code, timed out, or the text of the error when the
    command could not be started or its output could not be decoded.
    "Run All Checks" never raises either: each of its checks records one
    verdict under its label, true when the outcome is a success, and shows
    the text of such an error.  A batch runner has no handler: it returns
    whether the exit code was 0 when its command can be started, and lets
    the error through when it cannot. *)
Theorem dashboard_errors_are_data (root : Path) (w : World) (m : Machine)
    (func : list string) (label : string) :
  let cwd := Some (dashboard_cwd root func) in
  let b := behaviour w func cwd in
  result_as_data w (wrapper root func label) m
  /\ trace_of (run w (wrapper root func label) m) =
     (trace (store m) ++ announce label
      ++ [EvRun func cwd true (Some 300%N) (ending_of 300 b)]
      ++ streams w 300 b ++ report label (outcome w 300 b))%list
  /\ (forall cs results, result_as_data w (run_all_loop root cs results) m)
  /\ (forall cs results,
        fst (run w (run_all_loop root cs results) m)
        = Ok (record_all root w cs results))
  /\ (forall results,
        fst (run w (run_all_loop root [(label, func)] results) m)
        = Ok (dict_set label (is_success (outcome w 300 b)) results))
  /\ (forall results cause,
        outcome w 300 b = SpawnError cause \/ outcome w 300 b = DecodeError cause ->
        In (EvInsert ("Error: " ++ cause ++ NL) (Some "red"))
           (trace_of (run w (run_all_loop root [(label, func)] results) m)))
  /\ fst (run w (run_rust_tests root) m)
     = runner_result (behaviour w ["cargo"; "test"; "--lib"] (Some (SRC_TAURI root)))
  /\ fst (run w (run_frontend_lint root) m)
     = runner_result (behaviour w ["bun"; "run"; "lint"] (Some root))
  /\ fst (run w (run_type_check root) m)
     = runner_result (behaviour w ["bun"; "x"; "tsc"; "--noEmit"] (Some root))
  /\ fst (run w (run_format_check root) m)
     = runner_result (behaviour w ["bun"; "run"; "format:check"] (Some root)).
Proof.
  cbv zeta. destruct (wrapper_spec root w m func label) as (m' & Hrun & Htr & _).
  unfold result_as_data, trace_of. rewrite Hrun. cbn [fst snd].
  split; [exists tt; reflexivity |]. split; [exact Htr |].
  split.
  { intros cs results.
    destruct (run_all_loop_spec root w cs results m) as (m2 & Hrun2 & _).
    rewrite Hrun2. eexists. reflexivity. }
  split.
  { intros cs results.
    destruct (run_all_loop_spec root w cs results m) as (m2 & Hrun2 & _).
    rewrite Hrun2. reflexivity. }
  split.
  { intros results.
    destruct (run_all_loop_spec root w [(label, func)] results m) as (m2 & Hrun2 & _).
    rewrite Hrun2. reflexivity. }
  split; [intros results cause; apply run_all_loop_error_line |].
  destruct (run_rust_tests_spec root w m) as (m1 & H1 & _).
  destruct (run_frontend_lint_spec root w m) as (m2 & H2 & _).
  destruct (run_type_check_spec root w m) as (m3 & H3 & _).
  destruct (run_format_check_spec root w m) as (m4 & H4 & _).
  cbv zeta in *. rewrite H1, H2, H3, H4. repeat split.
Qed.

Lemma dashboard_errors_are_data_witness :
  let w := Example.undecodable_tests in
  let r := run w (run_all_loop Example.root [("Rust Tests", Example.rust_tests)] [])
             (boot []) in
  fst r = Ok [("Rust Tests", false)]
  /\ In (EvInsert ("Error: 'ascii' codec can't decode byte: ordinal not in range(128)"
                   ++ NL) (Some "red"))
        (trace_of r).
Proof.
  cbv zeta.
  destruct (dashboard_errors_are_data Example.root Example.undecodable_tests (boot [])
              Example.rust_tests "Rust Tests") as (_ & _ & _ & _ & H1 & H2 & _).
  split; [exact (H1 []) |].
  apply (H2 [] "'ascii' codec can't decode byte: ordinal not in range(128)").
  right. reflexivity.
Defined.

(** C7 (amended). Every execution from the dashboard is called with a
    timeout of 300 seconds.  A process that is still running then is
    killed and the verdict is the timeout; nothing of what it had written
    is shown, and "Run All Checks" records the check as failed. *)
Theorem timeout_kills_and_reports (root : Path) (w : World) (m : Machine)
    (func : list string) (label : string) (p : Process) :
  behaviour w func (Some (dashboard_cwd root func)) = Runs p ->
  (300 < duration p)%N ->
  trace_of (run w (wrapper root func label) m) =
  (trace (store m) ++ announce label
   ++ [EvRun func (Some (dashboard_cwd root func)) true (Some 300%N) Killed]
   ++ report label TimedOut)%list
  /\ last_status (trace_of (run w (wrapper root func label) m)) "Ready"
     = "! " ++ label ++ " timed out"
  /\ fst (run w (run_all_loop root [(label, func)] []) m) = Ok [(label, false)].
Proof.
  intros Hb Hd. apply N.ltb_lt in Hd.
  destruct (wrapper_spec root w m func label) as (m' & Hrun & Htr & _).
  cbv zeta in Htr. rewrite Hb in Htr. unfold ending_of, streams, outcome in Htr.
  rewrite Hd in Htr. unfold trace_of. rewrite Hrun. cbn [snd]. rewrite Htr.
  split; [reflexivity |]. split.
  - rewrite !last_status_app. reflexivity.
  - destruct (run_all_loop_spec root w [(label, func)] [] m) as (m2 & Hrun2 & _).
    rewrite Hrun2. cbn [fst]. unfold record_all, passed_in_time, outcome.
    cbn [fold_left fst snd]. rewrite Hb, Hd. reflexivity.
Qed.

Lemma timeout_kills_and_reports_witness :
  last_status
    (trace_of (run Example.hanging_tests
                   (wrapper Example.root Example.rust_tests "Run Rust Tests") (boot [])))
    "Ready"
  = "! Run Rust Tests timed out".
Proof.
  apply (timeout_kills_and_reports Example.root Example.hanging_tests (boot [])
           Example.rust_tests "Run Rust Tests" Example.slow); reflexivity.
Defined.

(** C7, as it is worded, fails: the hanging Rust tests had written a line
    to each stream, and neither line reaches the window. *)
Lemma timeout_counterexample :
  ~ timeout_contract Example.root Example.hanging_tests Example.rust_tests
      "Run Rust Tests".
Proof.
  intros H. destruct (H Example.slow eq_refl eq_refl) as (_ & _ & Hout & _).
  vm_compute in Hout. discriminate Hout.
Qed.

(** ** The aggregate *)

Lemma forallb_snd_true (results : dict) :
  forallb snd results = true <->
  (forall name passed, In (name, passed) results -> passed = true).
Proof.
  rewrite forallb_forall. split.
  - intros H name passed Hin. exact (H (name, passed) Hin).
  - intros H [name passed] Hin. exact (H name passed Hin).
Qed.

Lemma py_all_values (results : dict) :
  py_all (dict_values results) = forallb snd results.
Proof.
  unfold py_all, dict_values.
  induction results as [| [k v] d IH]; simpl; [reflexivity | rewrite IH; reflexivity].
Qed.

Lemma all_checks_status_passed (b : bool) :
  all_checks_status b = "✓ All checks passed!" <-> b = true.
Proof.
  destruct b; simpl; split; intros H; try reflexivity; discriminate H.
Qed.

Lemma dict_set_in (k : string) (v : bool) (d : dict) (name : string) (passed : bool) :
  In (name, passed) (dict_set k v d) ->
  (name, passed) = (k, v) \/ In (name, passed) d.
Proof.
  induction d as [| [k' v'] d IH]; simpl.
  - intros [H | []]. left. symmetry. exact H.
  - destruct (String.eqb k k'); simpl.
    + intros [H | H]; [left; symmetry; exact H | right; right; exact H].
    + intros [H | H]; [right; left; exact H |].
      destruct (IH H) as [H' | H']; [left; exact H' | right; right; exact H'].
Qed.

(** Every entry "Run All Checks" records is the verdict of one of its
    checks. *)
Lemma record_all_in (root : Path) (w : World) (cs : list (string * list string)) :
  forall (results : dict) (name : string) (passed : bool),
    In (name, passed) (record_all root w cs results) ->
    In (name, passed) results
    \/ exists cmd, In (name, cmd) cs /\ passed = passed_in_time root w cmd.
Proof.
  unfold record_all.
  induction cs as [| [label cmd] cs IH]; intros results name passed Hin; simpl in *.
  - left. exact Hin.
  - destruct (IH _ _ _ Hin) as [H | (c & Hc & Hp)].
    + destruct (dict_set_in _ _ _ _ _ H) as [Heq | Hold].
      * inversion Heq; subst. right. exists cmd. split; [left; reflexivity | reflexivity].
      * left. exact Hold.
    + right. exists c. split; [right; exact Hc | exact Hp].
Qed.

(** C5. The aggregate of a results dictionary is true exactly when every
    entry is true, in the batch summary and in "Run All Checks"; an entry
    of "Run All Checks" is true exactly when the outcome of its command is
    a success (it exited with 0 in time and its output could be decoded);
    over no checks at all the aggregate is true. *)
Theorem all_passed_aggregate (root : Path) (w : World) (m : Machine) :
  (forall results,
     exists b m',
       run w (test_summary results) m = (Ok b, m')
       /\ (b = true <-> forall name passed, In (name, passed) results -> passed = true))
  /\ (forall cs,
        last_status (trace_of (run w (run_all_thread_on root cs) m)) "Ready"
          = "✓ All checks passed!"
        <-> forall name passed,
              In (name, passed) (record_all root w cs []) -> passed = true)
  /\ (forall cs name passed,
        In (name, passed) (record_all root w cs []) ->
        exists cmd,
          In (name, cmd) cs
          /\ (passed = true <->
              outcome w 300 (behaviour w cmd (Some (dashboard_cwd root cmd))) = Success))
  /\ (exists m', run w (test_summary []) m = (Ok true, m'))
  /\ fst (run w (run_all_loop root [] []) m) = Ok []
  /\ last_status (trace_of (run w (run_all_thread_on root []) m)) "Ready"
     = "✓ All checks passed!".
Proof.
  split; [| split; [| split; [| split; [| split]]]].
  - intros results.
    destruct (test_summary_spec w results m) as (m' & Hrun & _).
    exists (forallb snd results), m'. split; [exact Hrun | apply forallb_snd_true].
  - intros cs.
    destruct (run_all_thread_on_spec root w cs m) as (m' & Hrun & _ & Hst & _).
    unfold trace_of. rewrite Hrun. cbn [snd]. rewrite Hst.
    rewrite all_checks_status_passed, py_all_values. apply forallb_snd_true.
  - intros cs name passed Hin.
    destruct (record_all_in root w cs [] name passed Hin) as [[] | (cmd & Hc & Hp)].
    exists cmd. split; [exact Hc |]. subst passed. unfold passed_in_time.
    destruct (outcome w 300 _); simpl; split; intros H; try reflexivity; discriminate H.
  - destruct (test_summary_spec w [] m) as (m' & Hrun & _). exists m'. exact Hrun.
  - reflexivity.
  - destruct (run_all_thread_on_spec root w [] m) as (m' & Hrun & _ & Hst & _).
    unfold trace_of. rewrite Hrun. cbn [snd]. rewrite Hst. reflexivity.
Qed.

(** C9. "Run All Checks" calls the Rust tests, the lint and the type check
    and never the format check, while the batch run calls all four; where
    only the format check fails, the dashboard reports that all checks
    passed and the batch run reports a failure. *)
Theorem run_all_checks_leaves_out_format_check (root : Path) :
  map fst checks = ["Rust Tests"; "Frontend Lint"; "Type Check"]
  /\ ~ In "Format Check" (map fst checks)
  /\ (forall w fs,
        map (fun r => fst (fst r))
            (runs (trace_of (run w (run_all_thread root) (boot fs))))
        = [ ["cargo"; "test"; "--lib"]; ["bun"; "run"; "lint"];
            ["bun"; "x"; "tsc"; "--noEmit"] ])
  /\ (exists w,
        last_status (trace_of (run w (run_all_thread root) (boot []))) "Ready"
          = "✓ All checks passed!"
        /\ executed (trace_of (run w (run_all_tests root) (boot []))) = check_commands
        /\ fst (run w (run_all_tests root) (boot [])) = Ok false).
Proof.
  split; [reflexivity |]. split.
  - simpl. intros [H | [H | [H | []]]]; discriminate H.
  - split.
    + intros w fs. unfold run_all_thread, trace_of.
      destruct (run_all_thread_on_spec root w checks (boot fs)) as (m' & Hrun & Hruns & _).
      rewrite Hrun. cbn [snd]. rewrite Hruns. reflexivity.
    + exists Example.unformatted. split.
      * unfold run_all_thread, trace_of.
        destruct (run_all_thread_on_spec root Example.unformatted checks (boot []))
          as (m' & Hrun & _ & Hst & _).
        rewrite Hrun. cbn [snd]. rewrite Hst. reflexivity.
      * destruct (run_all_tests_spec root Example.unformatted (boot [])
                    (Example.quick 0) (Example.quick 0) (Example.quick 0) (Example.quick 1)
                    eq_refl eq_refl eq_refl eq_refl) as (m' & Hrun & Hcalls).
        unfold trace_of, executed. rewrite Hrun. cbn [fst snd].
        apply session_of_runs in Hcalls. rewrite Hcalls. split; reflexivity.
Qed.

(** ** Pressing a button twice *)

(** C6 (amended). The dashboard has no guard: pressing the button of a
    check starts one more thread whatever is in flight, and once that
    thread has written its heading its child process runs beside the
    others, so the executions of the command in flight are one more than
    before. *)
Theorem click_starts_another_execution (root : Path) (w : World) (m : Machine)
    (label : string) (cmd : list string) :
  In (label, cmd) buttons ->
  exists m',
    Dashboard.exec root w
      (Dashboard.Click label
       :: repeat (Dashboard.Step (List.length (pool m))) 5) m = Some m'
    /\ Dashboard.in_flight (pool m') = (Dashboard.in_flight (pool m) ++ [cmd])%list
    /\ Dashboard.executions cmd m' = S (Dashboard.executions cmd m).
Proof.
  intros Hin.
  destruct (click_check_button root w m label cmd Hin) as (m' & Hexec & Hfl).
  exists m'. split; [exact Hexec |]. split; [exact Hfl |].
  unfold Dashboard.executions. rewrite Hfl, filter_app, length_app.
  simpl. rewrite cmd_eqb_refl. simpl. lia.
Qed.

Lemma click_starts_another_execution_witness :
  exists m',
    Dashboard.exec Example.root Example.hanging_tests
      (Dashboard.Click "Run Rust Tests" :: repeat (Dashboard.Step 0) 5) (boot [])
    = Some m'
    /\ Dashboard.in_flight (pool m') = [Example.rust_tests]
    /\ Dashboard.executions Example.rust_tests m' = 1.
Proof.
  apply (click_starts_another_execution Example.root Example.hanging_tests (boot [])
           "Run Rust Tests" Example.rust_tests).
  left. reflexivity.
Defined.

(** C6, as it is worded, fails: after a second press of "Run Rust Tests"
    while the first run is in flight, two executions of the Rust tests are
    in flight. *)
Lemma double_click_counterexample :
  exists m,
    Dashboard.exec Example.root Example.hanging_tests Example.double_click (boot [])
    = Some m
    /\ Dashboard.executions Example.rust_tests m = 2
    /\ ~ one_at_a_time m.
Proof.
  eexists. split; [vm_compute; reflexivity |].
  split; [vm_compute; reflexivity |].
  intros H. specialize (H Example.rust_tests). vm_compute in H. lia.
Qed.

(** ** The model download *)

Lemma file_exists_head (fs bad : list Path) (tr : list event) (p : Path) :
  file_exists {| files := p :: fs; unreadable := bad; trace := tr |} p = true.
Proof.
  unfold file_exists, path_eqb. simpl. rewrite cmd_eqb_refl. reflexivity.
Qed.

(** C8. The code where the claim fails: the model file is missing, curl
    is on PATH but cannot be started, and urllib would have worked.  The
    error of the start is caught by the one handler around both
    transports: the call returns false, the failed start of curl is its
    only access to the network, urllib is never tried and the file is
    still missing.  The comment before the call of urllib announces a
    fallback. *)
Lemma ensure_present_misses_fallback :
  let r := run Example.broken_curl (download_vad_model Example.root) (boot []) in
  which Example.broken_curl "curl" = Some "/usr/bin/curl"
  /\ behaviour Example.broken_curl (curl_command Example.root) None
     = CannotSpawn "[Errno 8] Exec format error: 'curl'"
  /\ urllib_succeeds Example.root Example.broken_curl = true
  /\ fst r = Ok false
  /\ network (trace_of r)
     = [EvRun (curl_command Example.root) None false None NotSpawned]
  /\ file_exists (store (snd r)) (VAD_MODEL_PATH Example.root) = false
  /\ ~ ensure_present_contract Example.root Example.broken_curl [].
Proof.
  cbv zeta. repeat (split; [vm_compute; reflexivity |]).
  intros (_ & _ & H). destruct (H eq_refl) as (_ & Hfall).
  destruct Hfall as [done Hin].
  - vm_compute. intros Heq. discriminate Heq.
  - vm_compute in Hin.
    repeat (destruct Hin as [Hin | Hin]; [discriminate Hin |]).
    exact Hin.
Qed.

(** * Further properties *)

(** ** The prerequisite scan *)

Lemma first_line_single_line (s : string) : single_line (first_line s).
Proof.
  unfold single_line. induction s as [| c s IH]; simpl.
  - constructor.
  - destruct (nat_of_ascii c =? 10)%nat eqn:Hc; simpl.
    + constructor.
    + constructor; [apply Nat.eqb_neq; exact Hc | exact IH].
Qed.

(** Reading the streams can only fail to decode them. *)
Lemma communicate_error (w : World) (capture : bool) (p : Process) (e : exn) :
  communicate w capture p = inl e -> exists msg, e = UnicodeDecodeError msg.
Proof.
  unfold communicate. destruct capture; [| discriminate].
  destruct (read_text w (out_at p (duration p))) as [msg1 | out].
  - intros H. inversion H. eexists. reflexivity.
  - destruct (read_text w (err_at p (duration p))) as [msg2 | err]; [| discriminate].
    intros H. inversion H. eexists. reflexivity.
Qed.

#[local] Arguments communicate w !capture p / : simpl nomatch.

(** X1. [check_command] never raises.  It reports the tool as missing
    exactly when [shutil.which] finds nothing; for a tool that is found it
    returns the path with the version "unknown" when the probe cannot be
    started, is still running after 10 seconds or wrote what cannot be
    decoded, and otherwise with the first line of the probe's decoded and
    stripped output, standard error standing in for a blank standard
    output; a version never holds a newline. *)
Theorem check_command_outcomes (w : World) (name flag : string) (m : Machine) :
  let r := fst (run w (check_command name flag) m) in
  (exists path ver,
     r = Ok (path, ver)
     /\ truthy_opt path = truthy_opt (which w name)
     /\ (path = None <-> ver = None)
     /\ (forall v, ver = Some v -> single_line v))
  /\ (forall p,
        which w name = Some p -> truthy p = true ->
        r = Ok (Some p, Some (probed_version w (behaviour w [p; flag] None)))).
Proof.
  cbv zeta. unfold check_command, probed_version. simpl.
  assert (Hu : single_line "unknown").
  { unfold single_line. simpl. repeat constructor; discriminate. }
  assert (Hk : forall p,
            truthy p = true ->
            (exists path ver,
               @Ok (option string * option string) (Some p, Some "unknown")
               = Ok (path, ver)
               /\ truthy_opt path = true
               /\ (path = None <-> ver = None)
               /\ (forall v, ver = Some v -> single_line v))).
  { intros p Hp. exists (Some p), (Some "unknown").
    repeat split; try discriminate; auto.
    intros v Hv. inversion Hv; subst. exact Hu. }
  destruct (which w name) as [p |] eqn:Hw; simpl.
  - destruct (truthy p) eqn:Hp; simpl.
    + unfold subprocess_run_in.
      destruct (behaviour w [p; flag] None) as [msg | pr] eqn:Hb; simpl.
      * split; [apply Hk, Hp |].
        intros q Hq _. inversion Hq; subst. rewrite Hb. reflexivity.
      * destruct (10 <? duration pr)%N eqn:Hd; simpl.
        -- split; [apply Hk, Hp |].
           intros q Hq _. inversion Hq; subst. rewrite Hb, Hd. reflexivity.
        -- destruct (communicate w true pr) as [e | [out err]] eqn:Hc; simpl.
           ++ destruct (communicate_error _ _ _ _ Hc) as [msg ->]. simpl.
              split; [apply Hk, Hp |].
              intros q Hq _. inversion Hq; subst. rewrite Hb, Hd, Hc. reflexivity.
           ++ split.
              ** eexists (Some p), (Some _). repeat split; try discriminate; auto.
                 intros v Hv. inversion Hv; subst. apply first_line_single_line.
              ** intros q Hq _. inversion Hq; subst. rewrite Hb, Hd, Hc.
                 reflexivity.
    + split.
      * exists None, None. repeat split; auto; discriminate.
      * intros q Hq Ht. inversion Hq; subst. congruence.
  - split.
    + exists None, None. repeat split; auto; discriminate.
    + intros q Hq. discriminate Hq.
Qed.

Lemma check_command_outcomes_witness :
  fst (run Example.hanging_tests (check_command "cargo" "--version") (boot []))
  = Ok (Some "/usr/bin/cargo", Some "done").
Proof.
  destruct (check_command_outcomes Example.hanging_tests "cargo" "--version" (boot []))
    as (_ & H).
  exact (H "/usr/bin/cargo" eq_refl eq_refl).
Defined.

(** X2. The prerequisite scan ends in one of two ways.  When the model's
    path cannot be examined, the error of [exists()] leaves it: the call
    stands outside every handler.  Otherwise it returns whether rustc,
    cargo and bun were all found: node and the model file are optional,
    and a probe that fails, hangs or cannot be decoded costs nothing.
    Either way all it does is print and probe versions with a timeout of
    10 seconds. *)
Theorem prerequisites_need_three_tools (root : Path) (w w' : World)
    (fs bad : list Path) :
  let m := start fs bad in
  let r := run w (check_prerequisites root) m in
  fst r = scan_result w (store m) (VAD_MODEL_PATH root)
  /\ Forall (fun ev => is_scan_event ev = true) (trace_of r)
  /\ (which w' "rustc" = which w "rustc" ->
      which w' "cargo" = which w "cargo" ->
      which w' "bun" = which w "bun" ->
      fst (run w' (check_prerequisites root) m) = fst r).
Proof.
  cbv zeta. unfold scan_result.
  destruct (check_prerequisites_spec root w (start fs bad)) as (m1 & Hrun & Hs).
  destruct (check_prerequisites_spec root w' (start fs bad)) as (m2 & Hrun' & _).
  rewrite Hrun, Hrun'. unfold trace_of. cbn [fst snd].
  split; [reflexivity |]. split.
  - apply Hs. constructor.
  - intros H1 H2 H3. unfold tools_present. rewrite H1, H2, H3. reflexivity.
Qed.

Lemma prerequisites_need_three_tools_witness :
  fst (run Example.hanging_tests (check_prerequisites Example.root) (start [] []))
  = fst (run Example.no_curl (check_prerequisites Example.root) (start [] [])).
Proof.
  destruct (prerequisites_need_three_tools Example.root Example.no_curl
              Example.hanging_tests [] []) as (_ & _ & H).
  apply H; reflexivity.
Defined.

(** ** The modes of [main] *)

Lemma work_app (a b : list event) : work (a ++ b) = (work a ++ work b)%list.
Proof. apply filter_app. Qed.

Lemma work_scanned (m : Machine) : scanned m -> work (trace (store m)) = [].
Proof.
  unfold scanned, work. induction 1 as [| ev tr Hev _ IH]; [reflexivity |].
  simpl. rewrite Hev. exact IH.
Qed.

(** The start of [main] from a machine where some paths cannot be
    examined: the gate lets the error of [exists()] through. *)
Lemma main_gate_from (root : Path) (w : World) (fs bad : list Path) (args : Args)
    (modes : prog unit) :
  exists m1,
    scanned m1
    /\ unreadable (store m1) = bad
    /\ run w (print (NL ++ C.BOLD ++ C.CYAN ++ "  Voice Input v0.8.0 -- Launcher" ++ C.END) ;;
              (if negb (skip_checks args)
               then ready <- check_prerequisites root ;;
                    if negb ready
                    then err "Missing prerequisites. Install them and try again." ;;
                         sys_exit 1
                    else Ret tt
               else Ret tt) ;;
              modes) (start fs bad)
       = if skip_checks args then run w modes m1
         else match scan_result w (store (start fs bad)) (VAD_MODEL_PATH root) with
              | Exn e => (Exn e, m1)
              | Ok true => run w modes m1
              | Ok false => (Exn (SystemExit 1), m1)
              end.
Proof.
  rewrite run_bind. cbn.
  match goal with
  | |- context [run w _ ?m0] => assert (H0 : scanned m0) by scan_tac
  end.
  rewrite run_bind.
  destruct (skip_checks args); cbn.
  - eexists. split; [exact H0 |]. split; reflexivity.
  - rewrite run_bind.
    match goal with
    | |- context [run w (check_prerequisites root) ?m0] =>
        destruct (check_prerequisites_spec root w m0) as (m1 & Hrun & Hs);
        pose proof (run_unreadable _ (check_prerequisites root) w m0) as Hbad
    end.
    rewrite Hrun in Hbad. cbn in Hbad.
    rewrite Hrun. unfold scan_result, stat_error. cbn.
    destruct (existsb (path_eqb (VAD_MODEL_PATH root)) bad); cbn.
    + exists m1. split; [apply Hs, H0 |]. split; [exact Hbad | reflexivity].
    + destruct (tools_present w); cbn.
      * exists m1. split; [apply Hs, H0 |]. split; [exact Hbad | reflexivity].
      * eexists. split; [| split; [| reflexivity]].
        -- specialize (Hs H0). scan_tac.
        -- exact Hbad.
Qed.

(** Runs [main] up to the choice of the mode. *)
Ltac enter_main_from root w fs bad args :=
  unfold main;
  match goal with
  | |- context [run w (bind _ (fun _ => bind _ (fun _ => ?modes))) (start fs bad)] =>
      let m1 := fresh "m" in
      let Hs := fresh "Hscan" in
      let Hb := fresh "Hbad" in
      let Hrun := fresh "Hrun" in
      destruct (main_gate_from root w fs bad args modes) as (m1 & Hs & Hb & Hrun);
      rewrite Hrun; clear Hrun
  end.

(** The gate is passed or skipped. *)
Lemma gate_open (w : World) (s : Store) (model : Path) (args : Args) (A : Type)
    (go : A) (other : exn -> A) (stop : A) :
  skip_checks args = true \/ scan_result w s model = Ok true ->
  (if skip_checks args then go
   else match scan_result w s model with
        | Exn e => other e
        | Ok true => go
        | Ok false => stop
        end) = go.
Proof. intros [-> | ->]; [reflexivity |]. destruct (skip_checks args); reflexivity. Qed.

(** X3. --test-rust goes first.  Once the gate is passed or skipped and
    cargo can be started, all the script does beyond printing and probing
    versions is the one call of cargo test --lib in src-tauri, whichever
    other modes are given too, and the exit code is 0 when cargo exits with
    0 and 1 otherwise. *)
Theorem test_rust_mode_runs_only_rust_tests (root : Path) (w : World)
    (fs bad : list Path) (args : Args) (p : Process) :
  test_rust args = true ->
  skip_checks args = true
  \/ scan_result w (store (start fs bad)) (VAD_MODEL_PATH root) = Ok true ->
  behaviour w ["cargo"; "test"; "--lib"] (Some (SRC_TAURI root)) = Runs p ->
  let r := run w (main root args) (start fs bad) in
  work (trace_of r)
  = [EvRun ["cargo"; "test"; "--lib"] (Some (SRC_TAURI root)) false None
       (Exited (exit_code p))]
  /\ process_exit (fst r) = ExitCode (if (exit_code p =? 0)%Z then 0 else 1).
Proof.
  intros Hr Hgate Hb. cbv zeta.
  enter_main_from root w fs bad args.
  rewrite (gate_open _ _ _ _ _ _ _ _ Hgate).
  rewrite Hr. unfold run_rust_tests, trace_of.
  cbn -[work]. unfold subprocess_run_in. rewrite Hb. cbn -[work].
  destruct (exit_code p =? 0)%Z; cbn -[work];
    (split; [| reflexivity]);
    rewrite !work_app, (work_scanned _ Hscan); reflexivity.
Qed.

Lemma test_rust_mode_witness :
  let args := {| frontend := true; test := true; test_rust := true;
                 dashboard := true; skip_checks := false |} in
  let r := run Example.unformatted (main Example.root args) (start [] []) in
  work (trace_of r)
  = [EvRun ["cargo"; "test"; "--lib"] (Some (SRC_TAURI Example.root)) false None
       (Exited 0)]
  /\ process_exit (fst r) = ExitCode 0.
Proof.
  cbv zeta.
  apply (test_rust_mode_runs_only_rust_tests Example.root Example.unformatted [] []
           {| frontend := true; test := true; test_rust := true;
              dashboard := true; skip_checks := false |} (Example.quick 0)).
  - reflexivity.
  - right. reflexivity.
  - reflexivity.
Defined.

(** ** What a part of [main] leaves in the trace *)

Lemma project_calls_app (a b : list event) :
  project_calls (a ++ b) = (project_calls a ++ project_calls b)%list.
Proof. unfold project_calls. rewrite runs_app. apply filter_app. Qed.

Lemma gui_events_app (a b : list event) :
  gui_events (a ++ b) = (gui_events a ++ gui_events b)%list.
Proof. apply filter_app. Qed.

Lemma scanned_quiet (m : Machine) :
  scanned m ->
  project_calls (trace (store m)) = [] /\ gui_events (trace (store m)) = [].
Proof.
  unfold scanned. induction 1 as [| ev tr Hev _ [IH1 IH2]]; [split; reflexivity |].
  change (ev :: tr) with ([ev] ++ tr)%list.
  rewrite project_calls_app, gui_events_app, IH1, IH2, !app_nil_r.
  destruct ev; try discriminate Hev; try (split; reflexivity).
  simpl in Hev.
  destruct cmd as [| c1 [| c2 [| c3 cmd]]]; try discriminate Hev.
  destruct cwd; [discriminate Hev |]. split; reflexivity.
Qed.

Lemma network_app (a b : list event) :
  network (a ++ b) = (network a ++ network b)%list.
Proof. apply filter_app. Qed.

(** Reads the three projections off a machine written out in full. *)
Ltac projections_tac :=
  cbn [trace store with_store log add_files];
  rewrite ?project_calls_app, ?gui_events_app, ?network_app;
  unfold project_calls, gui_events, network, runs; cbn;
  rewrite ?app_nil_r, <- ?app_assoc; cbn; reflexivity.

Lemma install_dependencies_spec (root : Path) (w : World) (m : Machine) (p : Process) :
  behaviour w ["bun"; "install"] (Some root) = Runs p ->
  exists m',
    run w (install_dependencies root) m = (Ok (exit_code p =? 0)%Z, m')
    /\ project_calls (trace (store m')) =
       (project_calls (trace (store m))
        ++ [(["bun"; "install"], Some root, Exited (exit_code p))])%list
    /\ gui_events (trace (store m')) = gui_events (trace (store m)).
Proof.
  intros Hb. unfold install_dependencies. cbn. unfold subprocess_run_in. rewrite Hb.
  cbn. destruct (exit_code p =? 0)%Z; cbn;
    (eexists; split; [reflexivity |]; split; projections_tac).
Qed.

Lemma stat_error_unreadable (s s' : Store) (p : Path) :
  unreadable s' = unreadable s -> stat_error s' p = stat_error s p.
Proof. intros H. unfold stat_error. rewrite H. reflexivity. Qed.

(** Whether a path can be examined does not change while the script
    runs. *)
Lemma stat_error_run (A : Type) (prg : prog A) (w : World) (m : Machine) (p : Path) :
  stat_error (store (snd (run w prg m))) p = stat_error (store m) p.
Proof. apply stat_error_unreadable, run_unreadable. Qed.

Lemma path_exists_cases (s : Store) (p : Path) :
  match stat_error s p with
  | Some msg => path_exists s p = inl (OSError msg)
  | None => path_exists s p = inr (file_exists s p)
  end.
Proof. unfold path_exists. destruct (stat_error s p); reflexivity. Qed.

(** The download when [exists()] finds the file missing and its directory
    can be made, in every world. *)
Lemma download_spec (root : Path) (w : World) (m : Machine) :
  path_exists (store m) (VAD_MODEL_PATH root) = inr false ->
  mkdir_error w (path_parent (VAD_MODEL_PATH root)) = None ->
  exists m',
    run w (download_vad_model root) m = (Ok (download_result root w), m')
    /\ network (trace (store m')) =
       (network (trace (store m)) ++ download_network root w)%list
    /\ project_calls (trace (store m')) = project_calls (trace (store m))
    /\ gui_events (trace (store m')) = gui_events (trace (store m)).
Proof.
  intros Habs Hmk.
  unfold download_vad_model, download_result, download_network, reaches_urllib,
    urllib_succeeds, curl_command.
  rewrite run_bind, run_call. cbn [handle fst snd]. rewrite Habs.
  cbn -[String.append str_repeat VAD_MODEL_PATH str_path network path_parent
        project_calls gui_events].
  rewrite Hmk.
  cbn -[String.append str_repeat VAD_MODEL_PATH str_path network path_parent
        project_calls gui_events].
  destruct (truthy_opt (which w "curl"));
    cbn -[String.append str_repeat VAD_MODEL_PATH str_path network path_parent
          project_calls gui_events].
  - unfold subprocess_run_in.
    destruct (behaviour w _ None) as [msg | p];
      cbn -[String.append str_repeat VAD_MODEL_PATH str_path network path_parent
            project_calls gui_events].
    + eexists; split; [reflexivity |]; repeat split; projections_tac.
    + destruct (exit_code p =? 0)%Z;
        cbn -[String.append str_repeat VAD_MODEL_PATH str_path network path_parent
              project_calls gui_events].
      * eexists; split; [reflexivity |]; repeat split; projections_tac.
      * destruct (fetch w VAD_MODEL_URL (VAD_MODEL_PATH root));
          cbn -[String.append str_repeat VAD_MODEL_PATH str_path network path_parent
                project_calls gui_events];
          (eexists; split; [reflexivity |]; repeat split; projections_tac).
  - destruct (fetch w VAD_MODEL_URL (VAD_MODEL_PATH root));
      cbn -[String.append str_repeat VAD_MODEL_PATH str_path network path_parent
            project_calls gui_events];
      (eexists; split; [reflexivity |]; repeat split; projections_tac).
Qed.

(** The download whenever the model's path can be examined and its
    directory can be made: it returns, and touches neither the project's
    commands nor the window. *)
Lemma download_quiet (root : Path) (w : World) (m : Machine) :
  stat_error (store m) (VAD_MODEL_PATH root) = None ->
  mkdir_error w (path_parent (VAD_MODEL_PATH root)) = None ->
  exists b m',
    run w (download_vad_model root) m = (Ok b, m')
    /\ project_calls (trace (store m')) = project_calls (trace (store m))
    /\ gui_events (trace (store m')) = gui_events (trace (store m)).
Proof.
  intros Hst Hmk.
  pose proof (path_exists_cases (store m) (VAD_MODEL_PATH root)) as Hex.
  rewrite Hst in Hex.
  destruct (file_exists (store m) (VAD_MODEL_PATH root)).
  - exists true, m. rewrite (download_present root w m Hex). auto.
  - destruct (download_spec root w m Hex Hmk) as (m' & Hrun & _ & Hp & Hg).
    exists (download_result root w), m'. auto.
Qed.

Lemma launch_tauri_dev_spec (root : Path) (w : World) (m : Machine) (p : Process) :
  behaviour w ["bun"; "run"; "tauri"; "dev"] (Some root) = Runs p ->
  exists m',
    run w (launch_tauri_dev root) m = (Ok tt, m')
    /\ project_calls (trace (store m')) =
       (project_calls (trace (store m))
        ++ [(["bun"; "run"; "tauri"; "dev"], Some root, Exited (exit_code p))])%list.
Proof.
  intros Hb. unfold launch_tauri_dev. cbn. unfold subprocess_run_in. rewrite Hb.
  cbn. eexists; split; [reflexivity |]. projections_tac.
Qed.

Lemma launch_dashboard_spec (w : World) (m : Machine) :
  exists m',
    run w launch_dashboard m = (dashboard_result w, m')
    /\ trace (store m') = (trace (store m) ++ dashboard_session w)%list.
Proof.
  unfold launch_dashboard, dashboard_session, dashboard_result. cbn.
  destruct (tkinter_present w); cbn; [destruct (display_error w); cbn |];
    (eexists; split; [reflexivity |]);
    cbn; rewrite <- ?app_assoc, ?app_nil_r; reflexivity.
Qed.

#[local] Arguments install_dependencies : simpl never.
#[local] Arguments download_vad_model : simpl never.
#[local] Arguments launch_tauri_dev : simpl never.
#[local] Arguments launch_dashboard : simpl never.
#[local] Arguments launch_frontend_only : simpl never.

(** The model's path can still be examined after the gate and the
    installation. *)
Lemma stat_error_after (root : Path) (w : World) (fs bad : list Path)
    (m : Machine) (A : Type) (prg : prog A) (p : Path) :
  unreadable (store m) = bad ->
  stat_error (store (start fs bad)) p = None ->
  stat_error (store (snd (run w prg m))) p = None.
Proof.
  intros Hbad Hst. rewrite stat_error_run.
  rewrite (stat_error_unreadable (store (start fs bad)) (store m) p Hbad).
  exact Hst.
Qed.

(** X5. In the default mode the launch goes on whatever became of the
    steps before it.  Once the gate is passed or skipped, the model's path
    can be examined, bun install and tauri dev can be started and the
    model's directory can be made, the only commands run in the project
    are bun install and then tauri dev, whether or not the installation or
    the download succeeded, and the exit code is 0 whatever the exit code
    of tauri dev. *)
Theorem default_mode_launches_regardless (root : Path) (w : World)
    (fs bad : list Path) (args : Args) (p1 p2 : Process) :
  test_rust args = false -> test args = false ->
  dashboard args = false -> frontend args = false ->
  skip_checks args = true
  \/ scan_result w (store (start fs bad)) (VAD_MODEL_PATH root) = Ok true ->
  stat_error (store (start fs bad)) (VAD_MODEL_PATH root) = None ->
  behaviour w ["bun"; "install"] (Some root) = Runs p1 ->
  mkdir_error w (path_parent (VAD_MODEL_PATH root)) = None ->
  behaviour w ["bun"; "run"; "tauri"; "dev"] (Some root) = Runs p2 ->
  let r := run w (main root args) (start fs bad) in
  project_calls (trace_of r) = launch_calls root p1 p2
  /\ process_exit (fst r) = ExitCode 0.
Proof.
  intros Hr Ht Hd Hf Hgate Hst Hb1 Hmk Hb2. cbv zeta.
  enter_main_from root w fs bad args.
  rewrite (gate_open _ _ _ _ _ _ _ _ Hgate).
  rewrite Hr, Ht, Hd, Hf.
  destruct (scanned_quiet _ Hscan) as (Hq & _).
  rewrite run_bind.
  pose proof (stat_error_after root w fs bad m _ (install_dependencies root)
                (VAD_MODEL_PATH root) Hbad Hst) as Hst1.
  destruct (install_dependencies_spec root w m p1 Hb1) as (m1 & Hrun1 & Hp1 & _).
  rewrite Hrun1 in *. cbn [snd] in Hst1. rewrite run_bind.
  destruct (download_quiet root w m1 Hst1 Hmk) as (b & m2 & Hrun2 & Hp2 & _).
  rewrite Hrun2.
  destruct (launch_tauri_dev_spec root w m2 p2 Hb2) as (m3 & Hrun3 & Hp3).
  rewrite Hrun3. unfold trace_of. cbn [fst snd process_exit].
  split; [| reflexivity].
  rewrite Hp3, Hp2, Hp1, Hq. reflexivity.
Qed.

Lemma default_mode_witness :
  let args := {| frontend := false; test := false; test_rust := false;
                 dashboard := false; skip_checks := false |} in
  let w := Example.installed (fun _ => Runs (Example.quick 1)) in
  let r := run w (main Example.root args) (start [] []) in
  project_calls (trace_of r)
  = launch_calls Example.root (Example.quick 1) (Example.quick 1)
  /\ process_exit (fst r) = ExitCode 0.
Proof.
  cbv zeta.
  apply (default_mode_launches_regardless Example.root
           (Example.installed (fun _ => Runs (Example.quick 1))) [] []
           {| frontend := false; test := false; test_rust := false;
              dashboard := false; skip_checks := false |}
           (Example.quick 1) (Example.quick 1));
    first [reflexivity | right; reflexivity].
Defined.

(** X6. The download raises in two cases only, both before its [try]:
    the model's path cannot be examined, and then nothing has been done;
    or the file is missing and its directory cannot be made, and then
    nothing has been fetched.  In every other case it returns, at once and
    true when the file is there, else true or false. *)
Theorem download_raises_before_try (root : Path) (w : World) (m : Machine) :
  let r := run w (download_vad_model root) m in
  match path_exists (store m) (VAD_MODEL_PATH root) with
  | inl e => r = (Exn e, m)
  | inr true => r = (Ok true, m)
  | inr false =>
      match mkdir_error w (path_parent (VAD_MODEL_PATH root)) with
      | Some msg =>
          fst r = Exn (OSError msg)
          /\ network (trace_of r) = network (trace (store m))
      | None => fst r = Ok (download_result root w)
      end
  end.
Proof.
  cbv zeta.
  destruct (path_exists (store m) (VAD_MODEL_PATH root)) as [e | [|]] eqn:Hex.
  - unfold download_vad_model. rewrite run_bind, run_call. cbn [handle fst snd].
    rewrite Hex, with_store_same. reflexivity.
  - apply download_present, Hex.
  - destruct (mkdir_error w _) as [msg |] eqn:Hmk.
    + unfold download_vad_model. rewrite run_bind, run_call. cbn [handle fst snd].
      rewrite Hex.
      cbn -[String.append str_repeat VAD_MODEL_PATH str_path network path_parent].
      rewrite Hmk.
      cbn -[String.append str_repeat VAD_MODEL_PATH str_path network path_parent].
      split; [reflexivity |]. unfold trace_of.
      cbn -[String.append str_repeat VAD_MODEL_PATH str_path network path_parent].
      rewrite !network_app. cbn. rewrite !app_nil_r. reflexivity.
    + destruct (download_spec root w m Hex Hmk) as (m' & Hrun & _).
      rewrite Hrun. reflexivity.
Qed.

(** X7. When curl is on PATH but cannot be started, the download gives up
    at once: it returns false and never tries urllib, whether or not
    urllib would have worked. *)
Theorem broken_curl_skips_urllib (root : Path) (w : World) (m : Machine)
    (msg : string) :
  path_exists (store m) (VAD_MODEL_PATH root) = inr false ->
  mkdir_error w (path_parent (VAD_MODEL_PATH root)) = None ->
  truthy_opt (which w "curl") = true ->
  behaviour w (curl_command root) None = CannotSpawn msg ->
  let r := run w (download_vad_model root) m in
  fst r = Ok false
  /\ network (trace_of r) =
     (network (trace (store m))
      ++ [EvRun (curl_command root) None false None NotSpawned])%list.
Proof.
  intros Hex Hmk Hw Hb. cbv zeta.
  destruct (download_spec root w m Hex Hmk) as (m' & Hrun & Hnet & _).
  unfold download_result, download_network, reaches_urllib in *.
  rewrite Hw, Hb in *. rewrite Hrun. unfold trace_of. cbn [fst snd].
  split; [reflexivity |]. rewrite Hnet. reflexivity.
Qed.

Lemma broken_curl_skips_urllib_witness :
  let r := run Example.broken_curl (download_vad_model Example.root) (boot []) in
  fst r = Ok false
  /\ network (trace_of r) =
     [EvRun (curl_command Example.root) None false None NotSpawned].
Proof.
  cbv zeta.
  apply (broken_curl_skips_urllib Example.root Example.broken_curl (boot [])
           "[Errno 8] Exec format error: 'curl'"); reflexivity.
Defined.

(** When urllib is reached and succeeds, the file is there after the
    call. *)
Lemma download_by_urllib (root : Path) (w : World) (m : Machine) :
  path_exists (store m) (VAD_MODEL_PATH root) = inr false ->
  mkdir_error w (path_parent (VAD_MODEL_PATH root)) = None ->
  reaches_urllib root w = true ->
  urllib_succeeds root w = true ->
  file_exists (store (snd (run w (download_vad_model root) m)))
              (VAD_MODEL_PATH root) = true.
Proof.
  intros Habs Hmk Hr Hu.
  unfold download_vad_model, reaches_urllib, urllib_succeeds, curl_command in *.
  rewrite run_bind, run_call. cbn [handle fst snd]. rewrite Habs.
  cbn -[String.append str_repeat VAD_MODEL_PATH str_path path_parent file_exists].
  rewrite Hmk.
  cbn -[String.append str_repeat VAD_MODEL_PATH str_path path_parent file_exists].
  destruct (fetch w VAD_MODEL_URL (VAD_MODEL_PATH root)) eqn:Hf; [discriminate Hu |].
  destruct (truthy_opt (which w "curl")) eqn:Hw;
    cbn -[String.append str_repeat VAD_MODEL_PATH str_path path_parent file_exists].
  - unfold subprocess_run_in.
    destruct (behaviour w _ None) as [msg | p]; [discriminate Hr |].
    cbn -[String.append str_repeat VAD_MODEL_PATH str_path path_parent file_exists].
    destruct (exit_code p =? 0)%Z; [discriminate Hr |].
    cbn -[String.append str_repeat VAD_MODEL_PATH str_path path_parent file_exists].
    rewrite Hf.
    cbn -[String.append str_repeat VAD_MODEL_PATH str_path path_parent file_exists].
    apply file_exists_head.
  - rewrite Hf.
    cbn -[String.append str_repeat VAD_MODEL_PATH str_path path_parent file_exists].
    apply file_exists_head.
Qed.

(** X16. The model is fetched by at most two transports, and not again
    once it is there.  When [exists()] finds the file, the call returns
    true and does nothing.  When it finds the file missing and its
    directory can be made, curl is called exactly when it is on PATH and
    urllib exactly when curl is not on PATH or ended with another exit
    code than 0; the call returns true exactly when curl exited with 0 or
    urllib was called and succeeded; and after a download by urllib a
    second call finds the file and does nothing. *)
Theorem download_transports (root : Path) (w : World) (m : Machine) :
  let r := run w (download_vad_model root) m in
  (path_exists (store m) (VAD_MODEL_PATH root) = inr true -> r = (Ok true, m))
  /\ (path_exists (store m) (VAD_MODEL_PATH root) = inr false ->
      mkdir_error w (path_parent (VAD_MODEL_PATH root)) = None ->
      fst r = Ok (download_result root w)
      /\ network (trace_of r)
         = (network (trace (store m)) ++ download_network root w)%list
      /\ (reaches_urllib root w = true -> urllib_succeeds root w = true ->
          run w (download_vad_model root) (snd r) = (Ok true, snd r))).
Proof.
  cbv zeta. split; [apply download_present |].
  intros Hex Hmk.
  pose proof (download_by_urllib root w m Hex Hmk) as Hfile.
  pose proof (stat_error_run _ (download_vad_model root) w m (VAD_MODEL_PATH root))
    as Hst.
  destruct (download_spec root w m Hex Hmk) as (m' & Hrun & Hnet & _).
  rewrite Hrun in *. unfold trace_of. cbn [fst snd] in *.
  split; [reflexivity |]. split; [exact Hnet |].
  intros Hr Hu. apply download_present.
  pose proof (path_exists_cases (store m) (VAD_MODEL_PATH root)) as Hm.
  pose proof (path_exists_cases (store m') (VAD_MODEL_PATH root)) as Hm'.
  rewrite Hst in Hm'.
  destruct (stat_error (store m) (VAD_MODEL_PATH root)) as [msg |].
  - rewrite Hm in Hex. discriminate Hex.
  - rewrite Hm', (Hfile Hr Hu). reflexivity.
Qed.

Lemma download_transports_witness :
  let r := run Example.no_curl (download_vad_model Example.root) (boot []) in
  fst r = Ok true
  /\ network (trace_of r)
     = [EvUrlretrieve VAD_MODEL_URL (VAD_MODEL_PATH Example.root) true]
  /\ run Example.no_curl (download_vad_model Example.root) (snd r) = (Ok true, snd r).
Proof.
  cbv zeta.
  destruct (download_transports Example.root Example.no_curl (boot [])) as (_ & H).
  destruct (H eq_refl eq_refl) as (Hres & Hnet & Hagain).
  split; [exact Hres |]. split; [exact Hnet |].
  apply Hagain; reflexivity.
Defined.

(** X8. --dashboard without tkinter is no error.  Once the gate is passed
    or skipped, the model's path can be examined, bun install can be
    started and the model's directory can be made: without tkinter the
    process prints that tkinter is not available, opens no window and ends
    with exit code 0; with tkinter and a display the window is built and
    its event loop entered, and the exit code is 0 when the loop ends;
    with tkinter and no display the error of [tk.Tk()] leaves [main], no
    window is opened and the exit code is 1.  Nothing before touches the
    window. *)
Theorem dashboard_mode_without_tkinter (root : Path) (w : World)
    (fs bad : list Path) (args : Args) (p1 : Process) :
  test_rust args = false -> test args = false -> dashboard args = true ->
  skip_checks args = true
  \/ scan_result w (store (start fs bad)) (VAD_MODEL_PATH root) = Ok true ->
  stat_error (store (start fs bad)) (VAD_MODEL_PATH root) = None ->
  behaviour w ["bun"; "install"] (Some root) = Runs p1 ->
  mkdir_error w (path_parent (VAD_MODEL_PATH root)) = None ->
  let r := run w (main root args) (start fs bad) in
  fst r = dashboard_result w
  /\ process_exit (fst r)
     = ExitCode (if tkinter_present w
                 then match display_error w with None => 0 | Some _ => 1 end
                 else 0)
  /\ exists before,
       trace_of r = (before ++ dashboard_session w)%list
       /\ gui_events before = [].
Proof.
  intros Hr Ht Hd Hgate Hst Hb1 Hmk. cbv zeta.
  enter_main_from root w fs bad args.
  rewrite (gate_open _ _ _ _ _ _ _ _ Hgate).
  rewrite Hr, Ht, Hd.
  destruct (scanned_quiet _ Hscan) as (_ & Hq).
  rewrite run_bind.
  pose proof (stat_error_after root w fs bad m _ (install_dependencies root)
                (VAD_MODEL_PATH root) Hbad Hst) as Hst1.
  destruct (install_dependencies_spec root w m p1 Hb1) as (m1 & Hrun1 & _ & Hg1).
  rewrite Hrun1 in *. cbn [snd] in Hst1. rewrite run_bind.
  destruct (download_quiet root w m1 Hst1 Hmk) as (b & m2 & Hrun2 & _ & Hg2).
  rewrite Hrun2.
  destruct (launch_dashboard_spec w m2) as (m3 & Hrun3 & Htr).
  rewrite Hrun3. unfold trace_of. cbn [fst snd].
  split; [reflexivity |]. split.
  - unfold dashboard_result.
    destruct (tkinter_present w); [destruct (display_error w) |]; reflexivity.
  - exists (trace (store m2)). split; [exact Htr |]. congruence.
Qed.

Lemma dashboard_mode_without_tkinter_witness :
  let args := {| frontend := false; test := false; test_rust := false;
                 dashboard := true; skip_checks := true |} in
  let w := {| which := fun _ => None;
              behaviour := fun _ _ => Runs (Example.quick 0);
              fetch := fun _ _ => None;
              mkdir_error := fun _ => None;
              decode := Example.ascii_codec;
              tkinter_present := false;
              display_error := None;
              size_mb_text := fun _ => "1.7" |} in
  process_exit (fst (run w (main Example.root args) (start [] []))) = ExitCode 0.
Proof.
  cbv zeta.
  apply (dashboard_mode_without_tkinter Example.root
           {| which := fun _ => None;
              behaviour := fun _ _ => Runs (Example.quick 0);
              fetch := fun _ _ => None;
              mkdir_error := fun _ => None;
              decode := Example.ascii_codec;
              tkinter_present := false;
              display_error := None;
              size_mb_text := fun _ => "1.7" |} [] []
           {| frontend := false; test := false; test_rust := false;
              dashboard := true; skip_checks := true |} (Example.quick 0));
    first [reflexivity | left; reflexivity].
Defined.

(** ** The results of "Run All Checks" *)

Lemma dict_set_keys (k : string) (v : bool) (d : dict) :
  map fst (dict_set k v d) =
  if str_in k (map fst d) then map fst d else (map fst d ++ [k])%list.
Proof.
  unfold str_in. induction d as [| [k' v'] d IH]; simpl; [reflexivity |].
  destruct (String.eqb k k') eqn:Hk; simpl.
  - apply String.eqb_eq in Hk. subst. reflexivity.
  - rewrite IH. destruct (existsb (String.eqb k) (map fst d)); reflexivity.
Qed.

Lemma str_in_In (k : string) (l : list string) : str_in k l = true <-> In k l.
Proof.
  unfold str_in. rewrite existsb_exists. split.
  - intros (x & Hx & Hk). apply String.eqb_eq in Hk. subst. exact Hx.
  - intros H. exists k. split; [exact H | apply String.eqb_refl].
Qed.

Lemma dict_set_keys_in (k : string) (v : bool) (d : dict) (l : string) :
  In l (map fst (dict_set k v d)) <-> l = k \/ In l (map fst d).
Proof.
  rewrite dict_set_keys. destruct (str_in k (map fst d)) eqn:Hk.
  - apply str_in_In in Hk. split; [auto | intros [-> | H]; auto].
  - rewrite in_app_iff. simpl. intuition.
Qed.

Lemma dict_set_NoDup (k : string) (v : bool) (d : dict) :
  NoDup (map fst d) -> NoDup (map fst (dict_set k v d)).
Proof.
  intros H. rewrite dict_set_keys. destruct (str_in k (map fst d)) eqn:Hk; [exact H |].
  apply NoDup_app; [exact H | constructor; [intros [] | constructor] |].
  intros x Hx [<- | []]. apply str_in_In in Hx. congruence.
Qed.

Lemma dict_set_same (k : string) (v : bool) (d : dict) : In (k, v) (dict_set k v d).
Proof.
  induction d as [| [k' v'] d IH]; simpl; [left; reflexivity |].
  destruct (String.eqb k k'); simpl; [left; reflexivity | right; exact IH].
Qed.

Lemma dict_set_other (k : string) (v : bool) (d : dict) (l : string) (x : bool) :
  l <> k -> In (l, x) d -> In (l, x) (dict_set k v d).
Proof.
  intros Hl. induction d as [| [k' v'] d IH]; simpl; [intros [] |].
  destruct (String.eqb k k') eqn:Hk; simpl.
  - apply String.eqb_eq in Hk. subst k'.
    intros [H | H]; [inversion H; congruence | right; exact H].
  - intros [H | H]; [left; exact H | right; apply IH, H].
Qed.

Lemma record_all_keeps (root : Path) (w : World) (cs : list (string * list string)) :
  forall (d : dict) (l : string) (x : bool),
    ~ In l (map fst cs) -> In (l, x) d -> In (l, x) (record_all root w cs d).
Proof.
  unfold record_all. induction cs as [| [k cmd] cs IH]; intros d l x Hl Hin; simpl.
  - exact Hin.
  - simpl in Hl. apply IH; [tauto |]. apply dict_set_other; [intros ->; tauto | exact Hin].
Qed.

Lemma record_all_app (root : Path) (w : World) (cs1 cs2 : list (string * list string))
    (d : dict) :
  record_all root w (cs1 ++ cs2) d = record_all root w cs2 (record_all root w cs1 d).
Proof. unfold record_all. apply fold_left_app. Qed.

Lemma record_all_NoDup (root : Path) (w : World) (cs : list (string * list string)) :
  forall d : dict, NoDup (map fst d) -> NoDup (map fst (record_all root w cs d)).
Proof.
  unfold record_all. induction cs as [| c cs IH]; intros d H; simpl; [exact H |].
  apply IH, dict_set_NoDup, H.
Qed.

Lemma record_all_keys (root : Path) (w : World) (cs : list (string * list string)) :
  forall (d : dict) (l : string),
    In l (map fst (record_all root w cs d)) <-> In l (map fst d) \/ In l (map fst cs).
Proof.
  unfold record_all. induction cs as [| [k cmd] cs IH]; intros d l; simpl.
  - tauto.
  - rewrite IH, dict_set_keys_in. simpl. intuition.
Qed.

Lemma record_all_distinct (root : Path) (w : World) (cs : list (string * list string)) :
  forall d : dict,
    NoDup (map fst d ++ map fst cs) ->
    record_all root w cs d = (d ++ verdicts root w cs)%list.
Proof.
  unfold record_all, verdicts.
  induction cs as [| [k cmd] cs IH]; intros d H; simpl.
  - symmetry. apply app_nil_r.
  - assert (Hk : ~ In k (map fst d)).
    { simpl in H. apply NoDup_remove_2 in H. intros Hin. apply H.
      apply in_or_app. left. exact Hin. }
    assert (Hset : dict_set k (passed_in_time root w cmd) d
                   = (d ++ [(k, passed_in_time root w cmd)])%list).
    { clear -Hk. induction d as [| [k' v'] d IHd]; simpl; [reflexivity |].
      destruct (String.eqb k k') eqn:E.
      - apply String.eqb_eq in E. subst. exfalso. apply Hk. left. reflexivity.
      - rewrite IHd; [reflexivity |]. intros Hin. apply Hk. right. exact Hin. }
    simpl. rewrite Hset, IH.
    + rewrite <- app_assoc. reflexivity.
    + rewrite map_app. simpl. rewrite <- app_assoc. exact H.
Qed.

(** X9. "Run All Checks" calls every check of its list, in order, each in
    the directory its command selects and with the 300 second timeout,
    whatever became of the checks before it: a command that cannot be
    started or overruns does not stop the loop, and the thread never
    raises. *)
Theorem run_all_checks_calls_every_check (root : Path) (w : World)
    (cs : list (string * list string)) (m : Machine) :
  let r := run w (run_all_thread_on root cs) m in
  fst r = Ok tt
  /\ runs (trace_of r) =
     (runs (trace (store m))
      ++ map (fun c => (snd c, Some (dashboard_cwd root (snd c)),
                        ending_of 300 (behaviour w (snd c)
                                         (Some (dashboard_cwd root (snd c)))))) cs)%list
  /\ pool (snd r) = pool m.
Proof.
  cbv zeta.
  destruct (run_all_thread_on_spec root w cs m) as (m' & Hrun & Hruns & _ & Hpool).
  rewrite Hrun. unfold trace_of. cbn [fst snd].
  split; [reflexivity |]. split; [exact Hruns | exact Hpool].
Qed.

(** X10. The dictionary "Run All Checks" fills has one entry for each
    label of its list and no other.  The verdict of a check is true when
    its command exited with 0 within 300 seconds and its output could be
    decoded, and false otherwise.  Where a label occurs more than once the
    verdict of its last check is the one that counts; where the labels are
    distinct the entries are the verdicts of the checks in their order, so
    as many as there are checks. *)
Theorem run_all_results_by_label (root : Path) (w : World)
    (cs : list (string * list string)) (m : Machine) :
  exists results,
    fst (run w (run_all_loop root cs []) m) = Ok results
    /\ NoDup (map fst results)
    /\ (forall l, In l (map fst results) <-> In l (map fst cs))
    /\ (forall cs1 l cmd cs2,
          cs = (cs1 ++ (l, cmd) :: cs2)%list -> ~ In l (map fst cs2) ->
          In (l, passed_in_time root w cmd) results)
    /\ (NoDup (map fst cs) ->
        results = verdicts root w cs /\ List.length results = List.length cs).
Proof.
  destruct (run_all_loop_spec root w cs [] m) as (m' & Hrun & _).
  exists (record_all root w cs []). rewrite Hrun.
  split; [reflexivity |]. split; [apply record_all_NoDup; constructor |].
  split; [| split].
  - intros l. rewrite record_all_keys. simpl. tauto.
  - intros cs1 l cmd cs2 -> Hl.
    rewrite record_all_app.
    change ((l, cmd) :: cs2) with ([(l, cmd)] ++ cs2)%list.
    rewrite record_all_app. apply record_all_keeps; [exact Hl |].
    unfold record_all at 1. simpl. apply dict_set_same.
  - intros Hnd. rewrite (record_all_distinct root w cs []); [| exact Hnd].
    simpl. split; [reflexivity |]. unfold verdicts. apply length_map.
Qed.

Lemma run_all_results_by_label_witness :
  exists results,
    fst (run Example.no_cargo (run_all_loop Example.root checks []) (boot [])) = Ok results
    /\ results = [("Rust Tests", false); ("Frontend Lint", true); ("Type Check", true)].
Proof.
  destruct (run_all_results_by_label Example.root Example.no_cargo checks (boot []))
    as (results & Hrun & _ & _ & _ & Hdistinct).
  exists results. split; [exact Hrun |].
  apply Hdistinct. repeat constructor; simpl; intuition discriminate.
Defined.

(** ** A batch run that cannot go on *)

Lemma prints_only_summary (m m' : Machine) :
  prints_only m m' ->
  summary_printed (trace (store m)) = true ->
  summary_printed (trace (store m')) = true.
Proof.
  intros [(delta & H & _) _] Hm. unfold summary_printed in *.
  rewrite H, existsb_app, Hm. reflexivity.
Qed.

Ltac no_summary_tac :=
  cbn; unfold subprocess_run_in;
  match goal with
  | |- context [behaviour ?w ?c ?d] => destruct (behaviour w c d)
  end;
  cbn;
  try match goal with
      | |- context [(exit_code ?p =? 0)%Z] => destruct (exit_code p =? 0)%Z; cbn
      end;
  (eexists; split; [reflexivity |]);
  (split;
   [ cbn; rewrite !runs_app; unfold runs; cbn; rewrite ?app_nil_r; reflexivity
   | unfold summary_printed; cbn; rewrite !existsb_app; cbn;
     rewrite ?orb_false_r; reflexivity ]).

(** A runner makes its call and prints no summary. *)
Lemma run_rust_tests_no_summary (root : Path) (w : World) (m : Machine) :
  let cmd := ["cargo"; "test"; "--lib"] in
  let b := behaviour w cmd (Some (SRC_TAURI root)) in
  exists m',
    run w (run_rust_tests root) m = (runner_result b, m')
    /\ runs (trace (store m')) =
       (runs (trace (store m)) ++ [(cmd, Some (SRC_TAURI root), runner_end b)])%list
    /\ summary_printed (trace (store m')) = summary_printed (trace (store m)).
Proof. unfold run_rust_tests. no_summary_tac. Qed.

Lemma run_frontend_lint_no_summary (root : Path) (w : World) (m : Machine) :
  let cmd := ["bun"; "run"; "lint"] in
  let b := behaviour w cmd (Some root) in
  exists m',
    run w (run_frontend_lint root) m = (runner_result b, m')
    /\ runs (trace (store m')) =
       (runs (trace (store m)) ++ [(cmd, Some root, runner_end b)])%list
    /\ summary_printed (trace (store m')) = summary_printed (trace (store m)).
Proof. unfold run_frontend_lint. no_summary_tac. Qed.

Lemma run_type_check_no_summary (root : Path) (w : World) (m : Machine) :
  let cmd := ["bun"; "x"; "tsc"; "--noEmit"] in
  let b := behaviour w cmd (Some root) in
  exists m',
    run w (run_type_check root) m = (runner_result b, m')
    /\ runs (trace (store m')) =
       (runs (trace (store m)) ++ [(cmd, Some root, runner_end b)])%list
    /\ summary_printed (trace (store m')) = summary_printed (trace (store m)).
Proof. unfold run_type_check. no_summary_tac. Qed.

Lemma run_format_check_no_summary (root : Path) (w : World) (m : Machine) :
  let cmd := ["bun"; "run"; "format:check"] in
  let b := behaviour w cmd (Some root) in
  exists m',
    run w (run_format_check root) m = (runner_result b, m')
    /\ runs (trace (store m')) =
       (runs (trace (store m)) ++ [(cmd, Some root, runner_end b)])%list
    /\ summary_printed (trace (store m')) = summary_printed (trace (store m)).
Proof. unfold run_format_check. no_summary_tac. Qed.

(** The summary starts with its heading and only prints. *)
Lemma test_summary_prints (w : World) (results : dict) (m : Machine) :
  exists m',
    run w (test_summary results) m = (Ok (forallb snd results), m')
    /\ runs (trace (store m')) = runs (trace (store m))
    /\ summary_printed (trace (store m')) = true.
Proof.
  unfold test_summary. rewrite run_bind. cbn. rewrite run_bind.
  match goal with
  | |- context [run w (summary_loop results true) ?m0] =>
      destruct (summary_loop_spec w results true m0) as (m1 & Hrun & Hp);
      assert (Hp0 : prints_only m m0) by prints_tac;
      assert (Hs0 : summary_printed (trace (store m0)) = true)
        by (unfold summary_printed; cbn; rewrite !existsb_app; cbn;
            rewrite ?orb_true_r; reflexivity)
  end.
  rewrite Hrun. cbn.
  destruct (forallb snd results); cbn; (eexists; split; [reflexivity |]);
    match goal with
    | |- runs (trace (store ?mf)) = _ /\ _ =>
        assert (Hpf : prints_only m1 mf) by prints_tac
    end;
    (split;
     [ rewrite (prints_only_runs _ _ Hpf), (prints_only_runs _ _ Hp);
       apply (prints_only_runs _ _ Hp0)
     | apply (prints_only_summary _ _ Hpf), (prints_only_summary _ _ Hp), Hs0 ]).
Qed.

Ltac runner_step3 spec root w :=
  rewrite run_bind;
  match goal with
  | |- context [run w _ ?m0] =>
      let m' := fresh "m" in
      let Hr := fresh "Hrun" in
      let Hc := fresh "Hcall" in
      let Hs := fresh "Hsum" in
      destruct (spec root w m0) as (m' & Hr & Hc & Hs);
      cbv zeta in Hr, Hc, Hs; rewrite Hr; clear Hr
  end.

(** X11. A batch run goes from check to check until a command cannot be
    started: the checks before that one have run with their exit codes,
    the ones after it are never called, the error leaves [run_all_tests]
    and no summary is printed.  When all four can be started the run
    returns whether every exit code was 0, after the summary. *)
Theorem batch_run_stops_at_first_spawn_failure (root : Path) (w : World)
    (fs : list Path) :
  let r := run w (run_all_tests root) (boot fs) in
  runs (trace_of r) = calls_until_failure w (batch_plan root)
  /\ fst r = plan_result w (batch_plan root) true
  /\ summary_printed (trace_of r)
     = match fst r with Ok _ => true | Exn _ => false end.
Proof.
  cbv zeta. unfold run_all_tests, batch_plan, trace_of.
  rewrite run_bind. cbn.
  runner_step3 run_rust_tests_no_summary root w.
  destruct (behaviour w ["cargo"; "test"; "--lib"] (Some (SRC_TAURI root)))
    as [msg1 | p1]; cbn in *.
  { rewrite Hcall, Hsum. repeat split. }
  runner_step3 run_frontend_lint_no_summary root w.
  destruct (behaviour w ["bun"; "run"; "lint"] (Some root)) as [msg2 | p2]; cbn in *.
  { rewrite Hcall0, Hcall, Hsum0, Hsum. repeat split. }
  runner_step3 run_type_check_no_summary root w.
  destruct (behaviour w ["bun"; "x"; "tsc"; "--noEmit"] (Some root))
    as [msg3 | p3]; cbn in *.
  { rewrite Hcall1, Hcall0, Hcall, Hsum1, Hsum0, Hsum. repeat split. }
  runner_step3 run_format_check_no_summary root w.
  destruct (behaviour w ["bun"; "run"; "format:check"] (Some root))
    as [msg4 | p4]; cbn in *.
  { rewrite Hcall2, Hcall1, Hcall0, Hcall, Hsum2, Hsum1, Hsum0, Hsum. repeat split. }
  match goal with
  | |- context [run w (test_summary ?d) ?m0] =>
      destruct (test_summary_prints w d m0) as (m' & Hrun & Hruns & Hs)
  end.
  rewrite Hrun. cbn [fst snd]. rewrite Hruns, Hs, Hcall2, Hcall1, Hcall0, Hcall.
  split; [unfold runs; cbn; reflexivity |]. split; [| reflexivity].
  cbn. rewrite andb_true_r, !andb_assoc. reflexivity.
Qed.

(** ** Launching from the dashboard *)

(** X12. A dev server started with "Launch Tauri App" is an execution like
    any check: it is called with the 300 second timeout, so a server that
    is still running then is killed and reported as timed out.  Started
    from the command line the same command has no timeout and runs to its
    end. *)
Theorem dashboard_launch_is_killed_after_300s (root : Path) (w : World) (m : Machine)
    (p : Process) :
  behaviour w ["bun"; "run"; "tauri"; "dev"] (Some root) = Runs p ->
  (300 < duration p)%N ->
  (exists m',
     Dashboard.exec root w
       (Dashboard.Click "Launch Tauri App"
        :: repeat (Dashboard.Step (List.length (pool m))) 8) m = Some m'
     /\ trace (store m') =
        (trace (store m)
         ++ [ EvStatus "Building & launching Tauri app...";
              EvDelete;
              EvInsert ("Starting Tauri dev mode (this may take a few minutes)..."
                        ++ NL ++ NL) None ]
         ++ announce "Tauri Dev"
         ++ [EvRun ["bun"; "run"; "tauri"; "dev"] (Some root) true (Some 300%N) Killed]
         ++ report "Tauri Dev" TimedOut)%list)
  /\ In (EvRun ["bun"; "run"; "tauri"; "dev"] (Some root) false None
           (Exited (exit_code p)))
        (trace_of (run w (launch_tauri_dev root) m)).
Proof.
  intros Hb Hd. apply N.ltb_lt in Hd. split.
  - cbn -[String.append str_repeat Dashboard.step_thread N.ltb].
    unfold spawn_thread.
    cbn -[String.append str_repeat Dashboard.step_thread N.ltb].
    do 5 (rewrite step_last;
          cbn -[String.append str_repeat Dashboard.step_thread N.ltb]).
    rewrite step_last. cbn [handle]. unfold subprocess_run_in. rewrite Hb, Hd.
    cbn -[String.append str_repeat Dashboard.step_thread N.ltb].
    rewrite step_last.
    cbn -[String.append str_repeat Dashboard.step_thread N.ltb].
    unfold status_set, ask. rewrite step_last.
    cbn -[String.append str_repeat Dashboard.step_thread N.ltb].
    eexists. split; [reflexivity |].
    cbn -[String.append str_repeat]. rewrite <- ?app_assoc.
    cbn -[String.append str_repeat]. rewrite ?string_app_assoc. reflexivity.
  - unfold launch_tauri_dev, trace_of. cbn. unfold subprocess_run_in. rewrite Hb.
    cbn. apply in_or_app. right. left. reflexivity.
Qed.

Lemma dashboard_launch_witness :
  let w := Example.installed (fun _ => Runs Example.slow) in
  In (EvRun ["bun"; "run"; "tauri"; "dev"] (Some Example.root) false None (Exited 0))
     (trace_of (run w (launch_tauri_dev Example.root) (boot []))).
Proof.
  cbv zeta.
  apply (dashboard_launch_is_killed_after_300s Example.root
           (Example.installed (fun _ => Runs Example.slow)) (boot []) Example.slow);
    reflexivity.
Defined.

(** ** What a program can leave in the trace *)

Lemma emits_ret (A : Type) (Q : event -> Prop) (w : World) (a : A) :
  emits Q w (Ret a).
Proof. intros m. exists []. split; [symmetry; apply app_nil_r | constructor]. Qed.

Lemma emits_raise (A : Type) (Q : event -> Prop) (w : World) (e : exn) :
  emits Q w (@Raise A e).
Proof. intros m. exists []. split; [symmetry; apply app_nil_r | constructor]. Qed.

Lemma emits_bind (A B : Type) (Q : event -> Prop) (w : World) (p : prog A)
    (f : A -> prog B) :
  emits Q w p -> (forall a, emits Q w (f a)) -> emits Q w (bind p f).
Proof.
  intros Hp Hf m. unfold emits, trace_of in *. rewrite run_bind.
  destruct (Hp m) as (d1 & H1 & F1).
  destruct (run w p m) as [[a | e] m']; simpl in *.
  - destruct (Hf a m') as (d2 & H2 & F2).
    exists (d1 ++ d2)%list. split.
    + rewrite H2, H1. symmetry. apply app_assoc.
    + apply Forall_app. auto.
  - exists d1. auto.
Qed.

Lemma emits_try (A : Type) (Q : event -> Prop) (w : World) (p : prog A)
    (h : exn -> option (prog A)) :
  emits Q w p -> (forall e q, h e = Some q -> emits Q w q) ->
  emits Q w (try_except p h).
Proof.
  intros Hp Hh m. unfold emits, trace_of in *. rewrite run_try_except.
  destruct (Hp m) as (d1 & H1 & F1).
  destruct (run w p m) as [[a | e] m']; simpl in *.
  - exists d1. auto.
  - destruct (h e) as [q |] eqn:He.
    + destruct (Hh e q He m') as (d2 & H2 & F2).
      exists (d1 ++ d2)%list. split.
      * rewrite H2, H1. symmetry. apply app_assoc.
      * apply Forall_app. auto.
    + exists d1. auto.
Qed.

Lemma emits_fork (A : Type) (Q : event -> Prop) (w : World) (t : prog unit)
    (k : prog A) :
  emits Q w k -> emits Q w (Fork t k).
Proof. intros H m. apply (H (spawn_thread t m)). Qed.

(** A request that only reads. *)
Lemma emits_query (X : Type) (Q : event -> Prop) (w : World) (e : effect X) :
  (forall s, snd (handle w e s) = s) -> emits Q w (ask e).
Proof.
  intros H m. unfold trace_of. rewrite run_ask. simpl. rewrite H.
  exists []. split; [symmetry; apply app_nil_r | constructor].
Qed.

(** A request that always leaves the same event. *)
Lemma emits_logged (X : Type) (Q : event -> Prop) (w : World) (e : effect X)
    (ev : event) :
  (forall s, snd (handle w e s) = log ev s) -> Q ev -> emits Q w (ask e).
Proof.
  intros H HQ m. unfold trace_of. rewrite run_ask. simpl. rewrite H.
  exists [ev]. split; [reflexivity | constructor; [exact HQ | constructor]].
Qed.

(** The same with what follows the request. *)
Lemma emits_logged_then (A X : Type) (Q : event -> Prop) (w : World) (e : effect X)
    (k : X -> prog A) (ev : event) :
  (forall s, snd (handle w e s) = log ev s) -> Q ev ->
  (forall x, emits Q w (k x)) -> emits Q w (Vis e k).
Proof.
  intros H HQ Hk. change (Vis e k) with (bind (ask e) k).
  apply emits_bind; [apply (emits_logged X Q w e ev H HQ) | exact Hk].
Qed.

Lemma emits_subprocess_run (Q : event -> Prop) (w : World) (cmd : list string)
    (cwd : option Path) (capture : bool) (timeout : option N) :
  (forall ending, Q (EvRun cmd cwd capture timeout ending)) ->
  emits Q w (subprocess_run cmd cwd capture timeout).
Proof.
  intros HQ m. unfold trace_of, subprocess_run. rewrite run_call. simpl.
  unfold subprocess_run_in.
  destruct (behaviour w cmd cwd) as [msg | p];
    [| destruct timeout as [t |]; [destruct (t <? duration p)%N |]]; simpl;
    (eexists [_]; split; [reflexivity | constructor; [apply HQ | constructor]]).
Qed.

Lemma emits_mkdir (Q : event -> Prop) (w : World) (p : Path) :
  Q (EvMkdir p) -> emits Q w (call (PathMkdir p)).
Proof.
  intros HQ m. unfold trace_of. rewrite run_call. simpl.
  destruct (mkdir_error w p); simpl.
  - exists []. split; [symmetry; apply app_nil_r | constructor].
  - eexists [_]. split; [reflexivity | constructor; [exact HQ | constructor]].
Qed.

Lemma emits_urlretrieve (Q : event -> Prop) (w : World) (url : string) (dst : Path) :
  (forall done, Q (EvUrlretrieve url dst done)) -> emits Q w (call (Urlretrieve url dst)).
Proof.
  intros HQ m. unfold trace_of. rewrite run_call. simpl.
  destruct (fetch w url dst); simpl;
    (eexists [_]; split; [reflexivity | constructor; [apply HQ | constructor]]).
Qed.

(** A request that only reads, and may raise. *)
Lemma emits_call_query (X : Type) (Q : event -> Prop) (w : World)
    (e : effect (exn + X)) :
  (forall s, snd (handle w e s) = s) -> emits Q w (call e).
Proof.
  intros H m. unfold trace_of. rewrite run_call. simpl. rewrite H.
  exists []. split; [symmetry; apply app_nil_r | constructor].
Qed.

Lemma emits_tk_window (Q : event -> Prop) (w : World) :
  Q EvWindow -> emits Q w (call TkWindow).
Proof.
  intros HQ m. unfold trace_of. rewrite run_call. simpl.
  destruct (display_error w); simpl.
  - exists []. split; [symmetry; apply app_nil_r | constructor].
  - eexists [_]. split; [reflexivity | constructor; [exact HQ | constructor]].
Qed.

(** A probe of a version is no part of the setup. *)
Lemma probe_not_setup (root : Path) (p : string) (cwd : option Path) (capture : bool)
    (timeout : option N) (ending : run_end) :
  is_setup root (EvRun [p; "--version"] cwd capture timeout ending) = false.
Proof. cbn. rewrite !andb_false_r. reflexivity. Qed.

Ltac emits_leaf := cbv beta; first [reflexivity | apply probe_not_setup].

Ltac emits_handler H e :=
  destruct e; cbv beta match delta [except_Exception is_Exception] in H;
  try discriminate H; injection H as H; subst.

(** Takes a program apart down to its requests. *)
Ltac emits_tac :=
  unfold print, ok, warn, err, info, header, sys_exit;
  repeat first
    [ apply emits_ret
    | apply emits_raise
    | apply emits_fork
    | apply emits_subprocess_run; intros ?; emits_leaf
    | apply emits_mkdir; emits_leaf
    | apply emits_urlretrieve; intros ?; emits_leaf
    | apply emits_tk_window; emits_leaf
    | apply emits_call_query; intros ?; reflexivity
    | apply emits_query; intros ?; reflexivity
    | eapply emits_logged; [intros ?; reflexivity | emits_leaf]
    | apply emits_bind; [| intros ?]
    | apply emits_try;
      [| let e := fresh "e" in let q := fresh "q" in let H := fresh "H" in
         intros e q H; emits_handler H e ]
    | eapply emits_logged_then; [intros ?; reflexivity | emits_leaf | intros ?]
    | match goal with
      | |- emits _ _ (if ?b then _ else _) => destruct b
      | |- emits _ _ (match ?x with _ => _ end) => destruct x
      end ].

Lemma emits_summary_loop (Q : event -> Prop) (w : World) (items : list (string * bool)) :
  (forall t, Q (EvPrint t)) ->
  forall all_passed, emits Q w (summary_loop items all_passed).
Proof.
  intros HQ. induction items as [| [name passed] items IH]; intros all_passed; simpl.
  - apply emits_ret.
  - destruct passed; (apply emits_bind; [| intros _; apply IH]);
      unfold ok, err, print; (eapply emits_logged; [intros ?; reflexivity | apply HQ]).
Qed.

(** The gate of [main]: console output and probes of versions. *)
Lemma emits_gate (Q : event -> Prop) (root : Path) (w : World) (args : Args) :
  (forall t, Q (EvPrint t)) ->
  (forall p ending, Q (EvRun [p; "--version"] None true (Some 10%N) ending)) ->
  emits Q w
    (if negb (skip_checks args)
     then ready <- check_prerequisites root ;;
          if negb ready
          then err "Missing prerequisites. Install them and try again." ;;
               sys_exit 1
          else Ret tt
     else Ret tt).
Proof.
  intros Hprint Hprobe. unfold check_prerequisites, check_command.
  unfold print, ok, warn, err, info, header, sys_exit.
  repeat first
    [ apply emits_ret
    | apply emits_raise
    | apply emits_subprocess_run; intros ?; apply Hprobe
    | apply emits_call_query; intros ?; reflexivity
    | apply emits_query; intros ?; reflexivity
    | eapply emits_logged; [intros ?; reflexivity | apply Hprint]
    | apply emits_bind; [| intros ?]
    | apply emits_try;
      [| let e := fresh "e" in let q := fresh "q" in let H := fresh "H" in
         intros e q H; emits_handler H e ]
    | match goal with
      | |- emits _ _ (if ?b then _ else _) => destruct b
      | |- emits _ _ (match ?x with _ => _ end) => destruct x
      end ].
Qed.

Lemma emits_test_modes (root : Path) (w : World) (args : Args) :
  test_rust args = true \/ test args = true ->
  emits (fun ev => is_setup root ev = false /\ is_gui ev = false) w (main root args).
Proof.
  intros H. unfold main.
  apply emits_bind;
    [unfold print; eapply emits_logged; [intros ?; reflexivity | split; reflexivity]
    | intros _].
  apply emits_bind;
    [apply emits_gate;
       [intros; split; reflexivity
       | intros; split; [apply probe_not_setup | reflexivity]]
    | intros _].
  assert (Hs : emits (fun ev => is_setup root ev = false /\ is_gui ev = false) w
                 (run_rust_tests root)).
  { unfold run_rust_tests, print, ok, warn, err, info, header.
    repeat first
      [ apply emits_ret
      | apply emits_subprocess_run; intros ?; split; reflexivity
      | eapply emits_logged; [intros ?; reflexivity | split; reflexivity]
      | apply emits_bind; [| intros ?]
      | match goal with
        | |- emits _ _ (if ?b then _ else _) => destruct b
        end ]. }
  destruct (test_rust args).
  { apply emits_bind; [exact Hs | intros ?; apply emits_raise]. }
  destruct (test args); [| destruct H; discriminate].
  apply emits_bind; [| intros ?; apply emits_raise].
  unfold run_all_tests.
  apply emits_bind;
    [unfold header, print;
     repeat first [ eapply emits_logged; [intros ?; reflexivity | split; reflexivity]
                  | apply emits_bind; [| intros ?] ]
    | intros _].
  apply emits_bind; [exact Hs | intros ?].
  unfold run_frontend_lint, run_type_check, run_format_check, test_summary,
    print, ok, warn, err, info, header.
  repeat first
    [ apply emits_ret
    | apply emits_summary_loop; intros; split; reflexivity
    | apply emits_subprocess_run; intros ?; split; reflexivity
    | eapply emits_logged; [intros ?; reflexivity | split; reflexivity]
    | apply emits_bind; [| intros ?]
    | match goal with
      | |- emits _ _ (if ?b then _ else _) => destruct b
      end ].
Qed.

Lemma emits_windowless_modes (root : Path) (w : World) (args : Args) :
  dashboard args = false ->
  emits (fun ev => is_gui ev = false) w (main root args).
Proof.
  intros H. unfold main.
  apply emits_bind; [emits_tac | intros _].
  apply emits_bind; [apply emits_gate; intros; reflexivity | intros _].
  destruct (test_rust args).
  { apply emits_bind; [unfold run_rust_tests; emits_tac | intros ?; apply emits_raise]. }
  destruct (test args).
  { apply emits_bind; [| intros ?; apply emits_raise].
    unfold run_all_tests, run_rust_tests, run_frontend_lint, run_type_check,
      run_format_check, test_summary.
    unfold print, ok, warn, err, info, header.
    repeat first
      [ apply emits_ret
      | apply emits_summary_loop; intros; reflexivity
      | apply emits_subprocess_run; intros ?; reflexivity
      | eapply emits_logged; [intros ?; reflexivity | reflexivity]
      | apply emits_bind; [| intros ?]
      | match goal with
        | |- emits _ _ (if ?b then _ else _) => destruct b
        end ]. }
  rewrite H.
  unfold install_dependencies, download_vad_model, launch_frontend_only,
    launch_tauri_dev.
  destruct (frontend args); emits_tac.
Qed.

(** X13. Each mode keeps to its own work.  In the two test modes nothing
    is set up and no window is touched: bun install is not run, the
    model's directory is not made and the model is not fetched, whatever
    is installed and whatever the checks do.  Without --dashboard no mode
    touches a window. *)
Theorem modes_keep_to_their_work (root : Path) (w : World) (fs : list Path)
    (args : Args) :
  let tr := trace_of (run w (main root args) (boot fs)) in
  (test_rust args = true \/ test args = true ->
   Forall (fun ev => is_setup root ev = false /\ is_gui ev = false) tr)
  /\ (dashboard args = false -> gui_events tr = []).
Proof.
  cbv zeta. split; intros H.
  - destruct (emits_test_modes root w args H (boot fs)) as (delta & -> & HF).
    exact HF.
  - destruct (emits_windowless_modes root w args H (boot fs)) as (delta & -> & HF).
    simpl. unfold gui_events. clear - HF.
    induction HF as [| ev tr Hev _ IH]; simpl; [reflexivity |].
    rewrite Hev. exact IH.
Qed.

Lemma modes_keep_to_their_work_witness :
  let tr := trace_of (run Example.unformatted (main Example.root Example.test_args)
                        (boot [])) in
  Forall (fun ev => is_setup Example.root ev = false /\ is_gui ev = false) tr
  /\ gui_events tr = [].
Proof.
  cbv zeta.
  pose proof (modes_keep_to_their_work Example.root Example.unformatted []
                Example.test_args) as [H1 H2].
  split.
  - apply H1. right. reflexivity.
  - apply H2. reflexivity.
Defined.

(** ** The text in the window *)

Lemma string_app_nil_r (a : string) : (a ++ "")%string = a.
Proof. induction a as [| x a IH]; simpl; [reflexivity | rewrite IH; reflexivity]. Qed.

(** Without a [delete], events only add to what the widget holds. *)
Lemma output_inserts (tr : list event) :
  Forall (fun ev => is_delete ev = false) tr ->
  forall text, fold_left widget_step tr text = (text ++ output_text tr)%string.
Proof.
  unfold output_text. induction 1 as [| ev tr Hev _ IH]; intros text; simpl.
  - symmetry. apply string_app_nil_r.
  - rewrite IH. rewrite (IH (widget_step "" ev)).
    destruct ev; try discriminate Hev; simpl;
      rewrite ?string_app_nil_r, ?string_app_assoc; reflexivity.
Qed.

Lemma streams_no_delete (w : World) (timeout : N) (b : Behaviour) :
  Forall (fun ev => is_delete ev = false) (streams w timeout b).
Proof.
  unfold streams, shown. destruct b as [msg | p]; [constructor |].
  destruct (timeout <? duration p)%N; [constructor |].
  destruct (communicate w true p) as [e | [out err]]; [constructor |].
  destruct (truthy (text_of out)), (truthy (text_of err)); repeat constructor.
Qed.

Lemma report_no_delete (label : string) (r : CommandResult) :
  Forall (fun ev => is_delete ev = false) (report label r).
Proof. destruct r; repeat constructor. Qed.

(** X14. An execution from the dashboard starts by emptying the window.
    When no other thread writes to the window while it runs, the window
    holds at its end the heading of the execution, the decoded streams of
    its command and its verdict, and nothing of what was there before,
    such as the notice a launch button wrote. *)
Theorem execution_clears_the_window (root : Path) (w : World) (m : Machine)
    (func : list string) (label : string) :
  let b := behaviour w func (Some (dashboard_cwd root func)) in
  output_text (trace_of (run w (wrapper root func label) m)) =
  (heading label ++ output_text (streams w 300 b)
   ++ output_text (report label (outcome w 300 b)))%string.
Proof.
  cbv zeta. destruct (wrapper_spec root w m func label) as (m' & Hrun & Htr & _).
  unfold trace_of. rewrite Hrun. cbn [snd]. rewrite Htr.
  unfold output_text at 1. rewrite fold_left_app.
  unfold announce. cbn [app fold_left widget_step].
  rewrite fold_left_app, (output_inserts _ (streams_no_delete _ _ _)).
  rewrite (output_inserts _ (report_no_delete _ _)).
  unfold heading. do 3 (rewrite ?string_app_assoc; cbn [String.append]).
  reflexivity.
Qed.

(** ** The two threads of "Launch Frontend" *)

Lemma nth_error_middle {X : Type} (l r : list X) (y : X) :
  nth_error (l ++ y :: r) (List.length l) = Some y.
Proof. induction l as [| x l IH]; [reflexivity | exact IH]. Qed.

Lemma set_nth_middle {X : Type} (l r : list X) (x y : X) :
  Dashboard.set_nth (List.length l) x (l ++ y :: r) = (l ++ x :: r)%list.
Proof. induction l as [| z l IH]; [reflexivity | simpl; rewrite IH; reflexivity]. Qed.

(** A thread performs its next request, wherever it stands in the pool. *)
Lemma step_middle (w : World) (s : Store) (l r : list (prog unit)) (X : Type)
    (e : effect X) (k : X -> prog unit) :
  Dashboard.step_thread w (List.length l)
    {| store := s; pool := (l ++ Vis e k :: r)%list |} =
  Some {| store := snd (handle w e s);
          pool := (l ++ k (fst (handle w e s)) :: r)%list |}.
Proof.
  unfold Dashboard.step_thread. cbn [pool store]. rewrite nth_error_middle.
  destruct (handle w e s) as [x s']. rewrite set_nth_middle. reflexivity.
Qed.

(** X15. "Launch Frontend" starts two threads that do not wait for each
    other: the one that opens the browser sleeps 2 seconds, although the
    notice in the window says 3, and then opens it whether or not the dev
    server has been started; here it has finished before the thread of
    the server has made its first move. *)
Theorem launch_frontend_opens_the_browser (root : Path) (w : World) (m : Machine) :
  exists m',
    Dashboard.exec root w
      (Dashboard.Click "Launch Frontend"
       :: repeat (Dashboard.Step (List.length (pool m))) 2) m = Some m'
    /\ trace (store m') =
       (trace (store m)
        ++ [ EvStatus "Starting frontend dev server...";
             EvDelete;
             EvInsert ("Starting Vite dev server at http://localhost:1420..."
                       ++ NL ++ NL) None;
             EvInsert ("Opening browser in 3 seconds..." ++ NL ++ NL) None;
             EvSleep 2;
             EvBrowser VITE_URL ])%list
    /\ pool m' =
       (pool m ++ [Ret tt; wrapper root ["bun"; "run"; "dev"] "Vite Dev Server"])%list.
Proof.
  cbn -[String.append str_repeat Dashboard.step_thread wrapper].
  unfold spawn_thread.
  cbn -[String.append str_repeat Dashboard.step_thread wrapper].
  rewrite <- app_assoc. cbn [app].
  rewrite step_middle.
  cbn -[String.append str_repeat Dashboard.step_thread wrapper].
  unfold ask. rewrite step_middle.
  cbn -[String.append str_repeat Dashboard.step_thread wrapper].
  eexists. split; [reflexivity |]. split; [| reflexivity].
  cbn -[String.append str_repeat]. rewrite <- ?app_assoc.
  cbn -[String.append str_repeat]. rewrite ?string_app_assoc. reflexivity.
Qed.
